(** * Google Kubernetes Engine operators

    A shallow embedding of
    [airflow/providers/google/cloud/operators/kubernetes_engine.py]:
    the three operators [GKEDeleteClusterOperator],
    [GKECreateClusterOperator] and [GKEStartPodOperator], written as
    state-and-exception passing functions over a trace of observable
    effects, followed by the properties of the design document that
    concern them.

    Python objects are dynamically typed, so operator attributes hold
    [pyval]s; dictionaries ([body], [event], [kwargs]) are finite maps
    with string keys. *)

From stdpp Require Import gmap strings list fin_maps.
From Stdlib Require Import ZArith.

#[local] Set Warnings "-register-all".
#[local] Open Scope string_scope.

(** ** Python values *)

Inductive pyval : Type :=
| PNone
| PBool (b : bool)
| PInt (z : Z)
| PStr (s : string)
| PList (l : list pyval)
| PDict (m : gmap string pyval).

(** [bool(v)]: None, False, 0, the empty string and empty containers
    are falsy. *)
Definition truthy (v : pyval) : bool :=
  match v with
  | PNone => false
  | PBool b => b
  | PInt z => negb (Z.eqb z 0)
  | PStr s => negb (String.eqb s "")
  | PList l => match l with [] => false | _ :: _ => true end
  | PDict m => negb (Nat.eqb (size m) 0)
  end.

(** [v is None] *)
Definition is_None (v : pyval) : bool :=
  match v with PNone => true | _ => false end.

(** [all([...])] and [any([...])] *)
Definition py_all (l : list pyval) : bool := forallb truthy l.
Definition py_any (l : list pyval) : bool := existsb truthy l.

(** [v in (s1, ..., sn)] for a tuple of string literals: membership
    compares with [==], and only a string equals a string. *)
Definition str_in (v : pyval) (options : list string) : bool :=
  match v with
  | PStr s => existsb (String.eqb s) options
  | _ => false
  end.

(** ** Messages of [google.cloud.container_v1.types] *)

Module Operation.
Record t := mk { name : string; self_link : string; target_link : string }.
End Operation.

Module Cluster.
(** The fields of the [Cluster] message this file reads.  A message
    field that was never set reads as the default of its type.
    [node_config] holds the fields set in the nested [NodeConfig]
    message, which is falsy exactly when none is set.
    [private_endpoint] is [private_cluster_config.private_endpoint]
    and [cluster_ca_certificate] is
    [master_auth.cluster_ca_certificate]. *)
Record t := mk {
  name : string;
  initial_node_count : Z;
  node_config : gmap string pyval;
  node_pools : list pyval;
  zone : string;
  instance_group_urls : list string;
  endpoint : string;
  private_endpoint : string;
  cluster_ca_certificate : string;
  self_link : string
}.

(** [getattr(cluster, field_name, default_value)] for the top-level
    fields above. *)
Definition getattr (c : t) (field_name : string) (default_value : pyval) : pyval :=
  match field_name with
  | "name" => PStr (name c)
  | "initial_node_count" => PInt (initial_node_count c)
  | "node_config" => PDict (node_config c)
  | "node_pools" => PList (node_pools c)
  | "zone" => PStr (zone c)
  | "instance_group_urls" => PList (PStr <$> instance_group_urls c)
  | "endpoint" => PStr (endpoint c)
  | "self_link" => PStr (self_link c)
  | _ => default_value
  end.
End Cluster.

(** [body: dict | Cluster] *)
Inductive body_t : Type :=
| BodyDict (d : gmap string pyval)
| BodyCluster (c : Cluster.t).

(** ** Hooks, triggers and exceptions *)

(** [GKEHook(gcp_conn_id=..., location=..., impersonation_chain=...)] *)
Module GKEHookArgs.
Record t := mk { gcp_conn_id : pyval; location : pyval; impersonation_chain : pyval }.
End GKEHookArgs.

(** [GKEPodHook(gcp_conn_id=..., cluster_url=..., ssl_ca_cert=...,
    impersonation_chain=...)]: the pod session. *)
Module GKEPodHook.
Record t := mk {
  gcp_conn_id : pyval;
  cluster_url : pyval;
  ssl_ca_cert : pyval;
  impersonation_chain : pyval
}.
End GKEPodHook.

(** The keyword arguments [GKEOperationTrigger] is built with. *)
Module GKEOperationTrigger.
Record t := mk {
  operation_name : string;
  project_id : pyval;
  location : pyval;
  gcp_conn_id : pyval;
  impersonation_chain : pyval;
  poll_interval : pyval
}.
End GKEOperationTrigger.

(** The keyword arguments [GKEStartPodTrigger] is built with. *)
Module GKEStartPodTrigger.
Record t := mk {
  pod_name : string;
  pod_namespace : string;
  trigger_start_time : Z;
  cluster_url : pyval;
  ssl_ca_cert : pyval;
  get_logs : pyval;
  startup_timeout : pyval;
  cluster_context : pyval;
  poll_interval : pyval;
  in_cluster : pyval;
  base_container_name : pyval;
  on_finish_action : pyval;
  gcp_conn_id : pyval;
  impersonation_chain : pyval
}.
End GKEStartPodTrigger.

Inductive trigger : Type :=
| OperationTrigger (t : GKEOperationTrigger.t)
| StartPodTrigger (t : GKEStartPodTrigger.t).

(** What [self.defer(trigger=..., method_name=..., kwargs=...)] hands
    to the deferral subsystem. *)
Record deferral := mk_deferral {
  d_trigger : trigger;
  d_method_name : string;
  d_kwargs : option (gmap string pyval)
}.

(** What a hook method raises.  The file names [AlreadyExists] of
    [google.api_core.exceptions]; every other exception is kept by
    its class name and message. *)
Inductive api_error : Type :=
| AlreadyExists (message : string)
| OtherError (cls : string) (message : string).

Inductive exn : Type :=
| AirflowException (message : pyval)
| ApiError (e : api_error)
| KeyError (key : string)
| AttributeError (message : string)
| TypeError (message : string)
| ValueError (message : string)
| TaskDeferred (d : deferral).

Inductive outcome (A : Type) : Type :=
| Return (a : A)
| Raise (e : exn).
Arguments Return {A} a.
Arguments Raise {A} e.

(** ** The control plane and the effect trace *)

(** Requests sent through a [GKEHook]. *)
Inductive api_call : Type :=
| CreateCluster (hook : GKEHookArgs.t) (cluster : body_t) (project_id : pyval) (wait_to_complete : bool)
| DeleteCluster (hook : GKEHookArgs.t) (name : pyval) (project_id : pyval) (wait_to_complete : bool)
| GetCluster (hook : GKEHookArgs.t) (name : pyval) (project_id : pyval)
| GetOperation (hook : GKEHookArgs.t) (operation_name : pyval).

(** Everything an operator does that is visible from outside, in the
    order it happens. *)
Inductive effect : Type :=
| Call (c : api_call)
| Log (level : string) (message : pyval)
| Warn (message : string)
| PersistLink (cluster : body_t).

Definition is_call (e : effect) : bool :=
  match e with Call _ => true | _ => false end.

(** The requests of a trace. *)
Definition calls (tr : list effect) : list api_call :=
  omap (fun e => match e with Call c => Some c | _ => None end) tr.

(** The remote side: what each hook method answers, given the effects
    so far (the remote state is a function of its history).
    [delete_cluster] answers [None] when there was nothing to delete. *)
Record ControlPlane := {
  create_cluster_answer :
    list effect -> GKEHookArgs.t -> body_t -> pyval -> bool -> api_error + Operation.t;
  delete_cluster_answer :
    list effect -> GKEHookArgs.t -> pyval -> pyval -> bool -> api_error + option Operation.t;
  get_cluster_answer :
    list effect -> GKEHookArgs.t -> pyval -> pyval -> api_error + Cluster.t;
  get_operation_answer :
    list effect -> GKEHookArgs.t -> pyval -> api_error + Operation.t
}.

(** ** State, exceptions and effects *)

Section Monad.
Context {S : Type}.

(** A method of an object of type [S]: it reads and updates [self],
    appends to the trace, and returns or raises. *)
Definition M (A : Type) : Type := S -> list effect -> outcome A * S * list effect.

Definition ret {A} (a : A) : M A := fun self tr => (Return a, self, tr).

Definition bind {A B} (m : M A) (k : A -> M B) : M B :=
  fun self tr =>
    match m self tr with
    | (Return a, self', tr') => k a self' tr'
    | (Raise e, self', tr') => (Raise e, self', tr')
    end.

Definition raise {A} (e : exn) : M A := fun self tr => (Raise e, self, tr).

Definition get_self : M S := fun self tr => (Return self, self, tr).

Definition set_self (f : S -> S) : M unit := fun self tr => (Return tt, f self, tr).

Definition emit (e : effect) : M unit := fun self tr => (Return tt, self, (tr ++ [e])%list).

(** [try: body except <handled> as error: handler(error)] *)
Definition try_except {A} (body : M A) (handler : exn -> option (M A)) : M A :=
  fun self tr =>
    match body self tr with
    | (Raise e, self', tr') =>
        match handler e with
        | Some h => h self' tr'
        | None => (Raise e, self', tr')
        end
    | r => r
    end.

(** [for x in l: f(x)] *)
Fixpoint for_each {A} (f : A -> M unit) (l : list A) : M unit :=
  match l with
  | [] => ret tt
  | x :: l' => bind (f x) (fun _ => for_each f l')
  end.

(** [self.defer(...)] raises [TaskDeferred]. *)
Definition defer {A} (t : trigger) (method_name : string)
    (kwargs : option (gmap string pyval)) : M A :=
  raise (TaskDeferred (mk_deferral t method_name kwargs)).

(** [d[key]] *)
Definition getitem (d : gmap string pyval) (key : string) : M pyval :=
  match d !! key with
  | Some v => ret v
  | None => raise (KeyError key)
  end.

(** A hook method: the request is recorded, the control plane
    answers. *)
Definition request {A} (c : api_call)
    (answer : list effect -> api_error + A) : M A :=
  fun self tr =>
    match answer tr with
    | inr a => (Return a, self, (tr ++ [Call c])%list)
    | inl e => (Raise (ApiError e), self, (tr ++ [Call c])%list)
    end.
End Monad.

Arguments M : clear implicits.

Declare Scope method_scope.
Delimit Scope method_scope with method.
Notation "x <- m ;; k" := (bind m (fun x => k))
  (at level 100, m at next level, right associativity) : method_scope.
Notation "m ;; k" := (bind m (fun _ => k))
  (at level 100, right associativity) : method_scope.
#[local] Open Scope method_scope.

(** ** [GKEHook] methods *)

Module GKEHook.
Section WithControlPlane.
Context {S : Type} (cp : ControlPlane).

Definition create_cluster (hook : GKEHookArgs.t) (cluster : body_t)
    (project_id : pyval) (wait_to_complete : bool) : M S Operation.t :=
  request (CreateCluster hook cluster project_id wait_to_complete)
    (fun tr => create_cluster_answer cp tr hook cluster project_id wait_to_complete).

Definition delete_cluster (hook : GKEHookArgs.t) (name : pyval)
    (project_id : pyval) (wait_to_complete : bool) : M S (option Operation.t) :=
  request (DeleteCluster hook name project_id wait_to_complete)
    (fun tr => delete_cluster_answer cp tr hook name project_id wait_to_complete).

Definition get_cluster (hook : GKEHookArgs.t) (name : pyval)
    (project_id : pyval) : M S Cluster.t :=
  request (GetCluster hook name project_id)
    (fun tr => get_cluster_answer cp tr hook name project_id).

Definition get_operation (hook : GKEHookArgs.t) (operation_name : pyval)
    : M S Operation.t :=
  request (GetOperation hook operation_name)
    (fun tr => get_operation_answer cp tr hook operation_name).
End WithControlPlane.
End GKEHook.

(** ** [GKEDeleteClusterOperator] *)

Module GKEDeleteClusterOperator.
Section Operator.
(** The constructor of [GoogleCloudBaseOperator] is declared
    elsewhere: it is a parameter.  [__init__] below takes the values
    that its parameters are bound to; how a call of the class binds
    them is not part of this file. *)
Context {Base : Type}.
Variable super_init : gmap string pyval -> exn + Base.
Variable cp : ControlPlane.

Record t := mk {
  base : Base;
  project_id : pyval;
  gcp_conn_id : pyval;
  location : pyval;
  api_version : pyval;
  name : pyval;
  impersonation_chain : pyval;
  deferrable : pyval;
  poll_interval : pyval;
  _hook : option GKEHookArgs.t
}.

Definition set_hook (h : GKEHookArgs.t) (self : t) : t :=
  mk (base self) (project_id self) (gcp_conn_id self) (location self)
    (api_version self) (name self) (impersonation_chain self)
    (deferrable self) (poll_interval self) (Some h).

Definition _check_input : M t unit :=
  self <- get_self ;;
  if negb (py_all [project_id self; name self; location self]) then
    emit (Log "error" (PStr "One of (project_id, name, location) is missing or incorrect")) ;;
    raise (AirflowException (PStr "Operator has incorrect or missing input."))
  else ret tt.

Definition __init__ (name location project_id gcp_conn_id api_version
    impersonation_chain deferrable poll_interval : pyval)
    (kwargs : gmap string pyval) (tr : list effect)
    : outcome t * list effect :=
  match super_init kwargs with
  | inl e => (Raise e, tr)
  | inr b =>
      let self := mk b project_id gcp_conn_id location api_version name
                    impersonation_chain deferrable poll_interval None in
      match _check_input self tr with
      | (Return _, self', tr') => (Return self', tr')
      | (Raise e, _, tr') => (Raise e, tr')
      end
  end.

Definition _get_hook : M t GKEHookArgs.t :=
  self <- get_self ;;
  match _hook self with
  | None =>
      let h := GKEHookArgs.mk (gcp_conn_id self) (location self) (impersonation_chain self) in
      set_self (set_hook h) ;;
      ret h
  | Some h => ret h
  end.

Definition execute : M t pyval :=
  hook <- _get_hook ;;
  self <- get_self ;;
  let wait_to_complete := negb (truthy (deferrable self)) in
  operation <- GKEHook.delete_cluster cp hook (name self) (project_id self) wait_to_complete ;;
  match truthy (deferrable self), operation with
  | true, Some op =>
      defer
        (OperationTrigger
           (GKEOperationTrigger.mk (Operation.name op) (project_id self)
              (location self) (gcp_conn_id self) (impersonation_chain self)
              (poll_interval self)))
        "execute_complete" None
  | _, _ => ret tt
  end ;;
  ret (match operation with
       | Some op => PStr (Operation.self_link op)
       | None => PNone
       end).

Definition execute_complete (event : gmap string pyval) : M t pyval :=
  status <- getitem event "status" ;;
  message <- getitem event "message" ;;
  if str_in status ["failed"; "error"] then
    emit (Log "exception" (PStr "Trigger ended with one of the failed statuses.")) ;;
    raise (AirflowException message)
  else
    emit (Log "info" message) ;;
    hook <- _get_hook ;;
    operation_name <- getitem event "operation_name" ;;
    operation <- GKEHook.get_operation cp hook operation_name ;;
    ret (PStr (Operation.self_link operation)).
End Operator.
End GKEDeleteClusterOperator.

(** ** [GKECreateClusterOperator] *)

Module GKECreateClusterOperator.
Section Operator.
Context {Base : Type}.
Variable super_init : gmap string pyval -> exn + Base.
Variable cp : ControlPlane.

Record t := mk {
  base : Base;
  project_id : pyval;
  gcp_conn_id : pyval;
  location : pyval;
  api_version : pyval;
  body : body_t;
  impersonation_chain : pyval;
  poll_interval : pyval;
  deferrable : pyval;
  _hook : option GKEHookArgs.t
}.

Definition set_hook (h : GKEHookArgs.t) (self : t) : t :=
  mk (base self) (project_id self) (gcp_conn_id self) (location self)
    (api_version self) (body self) (impersonation_chain self)
    (poll_interval self) (deferrable self) (Some h).

(** Extract the value of the given field name. *)
Definition _body_field (self : t) (field_name : string) (default_value : pyval) : pyval :=
  match body self with
  | BodyDict d => default default_value (d !! field_name)
  | BodyCluster c => Cluster.getattr c field_name default_value
  end.

Definition deprecated_body_fields_with_replacement : list (string * string) :=
  [("initial_node_count", "node_pool.initial_node_count");
   ("node_config", "node_pool.config");
   ("zone", "location");
   ("instance_group_urls", "node_pools.instance_group_urls")].

(** Generate warning messages if deprecated fields were used in
    the body. *)
Definition _alert_deprecated_body_fields : M t unit :=
  self <- get_self ;;
  for_each
    (fun '(deprecated_field, replacement) =>
       if truthy (_body_field self deprecated_field PNone) then
         emit (Warn ("The body field '" ++ deprecated_field
                     ++ "' is deprecated. Use '" ++ replacement ++ "' instead."))
       else ret tt)
    deprecated_body_fields_with_replacement.

(** The list [error_messages] that [_validate_input] builds. *)
Definition error_messages (self : t) : list string :=
  let field f := truthy (_body_field self f PNone) in
  ((if negb (field "name") then
      ["Field body['name'] is missing or incorrect"] else [])
   ++ (if field "initial_node_count" && field "node_pools" then
      ["Do not use filed body['initial_node_count'] and body['node_pools'] at the same time."]
      else [])
   ++ (if field "node_config" && field "node_pools" then
      ["Do not use filed body['node_config'] and body['node_pools'] at the same time."]
      else [])
   ++ (if field "node_pools"
          && py_any [_body_field self "node_config" PNone;
                     _body_field self "initial_node_count" PNone] then
      ["The field body['node_pools'] should not be set if body['node_config'] or body['initial_code_count'] are specified."]
      else [])
   ++ (if negb (py_any [_body_field self "node_config" PNone;
                        _body_field self "initial_node_count" PNone])
          && negb (field "node_pools") then
      ["Field body['node_pools'] is required if none of fields body['initial_node_count'] or body['node_pools'] are specified."]
      else []))%list.

(** Primary validation of the input body. *)
Definition _validate_input : M t unit :=
  _alert_deprecated_body_fields ;;
  self <- get_self ;;
  for_each (fun message => emit (Log "error" (PStr message))) (error_messages self) ;;
  match error_messages self with
  | _ :: _ => raise (AirflowException (PStr "Operator has incorrect or missing input."))
  | [] => ret tt
  end.

Definition __init__ (location : pyval) (body : body_t)
    (project_id gcp_conn_id api_version impersonation_chain
     poll_interval deferrable : pyval)
    (kwargs : gmap string pyval) (tr : list effect)
    : outcome t * list effect :=
  match super_init kwargs with
  | inl e => (Raise e, tr)
  | inr b =>
      let self := mk b project_id gcp_conn_id location api_version body
                    impersonation_chain poll_interval deferrable None in
      match _validate_input self tr with
      | (Return _, self', tr') => (Return self', tr')
      | (Raise e, _, tr') => (Raise e, tr')
      end
  end.

Definition _get_hook : M t GKEHookArgs.t :=
  self <- get_self ;;
  match _hook self with
  | None =>
      let h := GKEHookArgs.mk (gcp_conn_id self) (location self) (impersonation_chain self) in
      set_self (set_hook h) ;;
      ret h
  | Some h => ret h
  end.

Definition execute : M t pyval :=
  hook <- _get_hook ;;
  try_except
    (self <- get_self ;;
     let wait_to_complete := negb (truthy (deferrable self)) in
     operation <- GKEHook.create_cluster cp hook (body self) (project_id self)
                    wait_to_complete ;;
     emit (PersistLink (body self)) ;;
     (if truthy (deferrable self) then
        defer
          (OperationTrigger
             (GKEOperationTrigger.mk (Operation.name operation) (project_id self)
                (location self) (gcp_conn_id self) (impersonation_chain self)
                (poll_interval self)))
          "execute_complete" None
      else ret tt) ;;
     ret (PStr (Operation.target_link operation)))
    (fun error =>
       match error with
       | ApiError (AlreadyExists message) =>
           Some
             (emit (Log "info" (PStr ("Assuming Success: " ++ message))) ;;
              self <- get_self ;;
              name <- match body self with
                      | BodyCluster c => ret (PStr (Cluster.name c))
                      | BodyDict d => getitem d "name"
                      end ;;
              cluster <- GKEHook.get_cluster cp hook name (project_id self) ;;
              ret (PStr (Cluster.self_link cluster)))
       | _ => None
       end).

Definition execute_complete (event : gmap string pyval) : M t pyval :=
  status <- getitem event "status" ;;
  message <- getitem event "message" ;;
  if str_in status ["failed"; "error"] then
    emit (Log "exception" (PStr "Trigger ended with one of the failed statuses.")) ;;
    raise (AirflowException message)
  else
    emit (Log "info" message) ;;
    hook <- _get_hook ;;
    operation_name <- getitem event "operation_name" ;;
    operation <- GKEHook.get_operation cp hook operation_name ;;
    ret (PStr (Operation.target_link operation)).
End Operator.
End GKECreateClusterOperator.

(** ** [GKEStartPodOperator] *)

(** Modelled from the spec: the enumeration [OnFinishAction] of
    [airflow.providers.cncf.kubernetes.utils.pod_manager], which is not
    part of this file.  Its members are the finish actions the design
    names (delete the pod, keep the pod) with the string values listed
    in the docstring of [GKEStartPodOperator]; a member is a string, and
    calling the class on anything but a member's value raises
    [ValueError]. *)
Module OnFinishAction.
Inductive t : Type := KEEP_POD | DELETE_POD | DELETE_SUCCEEDED_POD.

Definition value (a : t) : string :=
  match a with
  | KEEP_POD => "keep_pod"
  | DELETE_POD => "delete_pod"
  | DELETE_SUCCEEDED_POD => "delete_succeeded_pod"
  end.

Definition to_py (a : t) : pyval := PStr (value a).

(** [OnFinishAction(v)] *)
Definition of_value (v : pyval) : exn + t :=
  match v with
  | PStr "keep_pod" => inr KEEP_POD
  | PStr "delete_pod" => inr DELETE_POD
  | PStr "delete_succeeded_pod" => inr DELETE_SUCCEEDED_POD
  | _ => inl (ValueError "not a valid OnFinishAction")
  end.
End OnFinishAction.

(** [kubernetes.client.models.V1Pod], as far as it is read:
    [metadata.name] and [metadata.namespace]. *)
Module V1Pod.
Record t := mk { name : string; namespace : string }.
End V1Pod.

(** The attributes that the constructor of [KubernetesPodOperator]
    sets and this file reads. *)
Module PodAttrs.
Record t := mk {
  config_file : pyval;
  get_logs : pyval;
  startup_timeout_seconds : pyval;
  cluster_context : pyval;
  poll_interval : pyval;
  in_cluster : pyval;
  base_container_name : pyval;
  on_finish_action : pyval
}.
End PodAttrs.

Module GKEStartPodOperator.
Section Operator.
(** The constructor of [KubernetesPodOperator] is declared
    elsewhere and is a parameter. *)
Variable super_init : gmap string pyval -> exn + PodAttrs.t.
Variable cp : ControlPlane.

Record t := mk {
  attrs : PodAttrs.t;
  project_id : pyval;
  location : pyval;
  cluster_name : pyval;
  gcp_conn_id : pyval;
  impersonation_chain : pyval;
  use_internal_ip : pyval;
  pod : option V1Pod.t;
  _ssl_ca_cert : pyval;
  _cluster_url : pyval;
  (** the values the two [cached_property] attributes hold once
      computed *)
  cluster_hook_cache : option GKEHookArgs.t;
  hook_cache : option GKEPodHook.t
}.

Definition set_ssl_ca_cert (v : pyval) (self : t) : t :=
  mk (attrs self) (project_id self) (location self) (cluster_name self)
    (gcp_conn_id self) (impersonation_chain self) (use_internal_ip self)
    (pod self) v (_cluster_url self) (cluster_hook_cache self) (hook_cache self).

Definition set_cluster_url (v : pyval) (self : t) : t :=
  mk (attrs self) (project_id self) (location self) (cluster_name self)
    (gcp_conn_id self) (impersonation_chain self) (use_internal_ip self)
    (pod self) (_ssl_ca_cert self) v (cluster_hook_cache self) (hook_cache self).

Definition set_cluster_hook_cache (h : GKEHookArgs.t) (self : t) : t :=
  mk (attrs self) (project_id self) (location self) (cluster_name self)
    (gcp_conn_id self) (impersonation_chain self) (use_internal_ip self)
    (pod self) (_ssl_ca_cert self) (_cluster_url self) (Some h) (hook_cache self).

Definition set_hook_cache (h : GKEPodHook.t) (self : t) : t :=
  mk (attrs self) (project_id self) (location self) (cluster_name self)
    (gcp_conn_id self) (impersonation_chain self) (use_internal_ip self)
    (pod self) (_ssl_ca_cert self) (_cluster_url self) (cluster_hook_cache self) (Some h).

(** [super().execute(context)], [super().execute_complete(context,
    event, **kwargs)] and the clock read by [utcnow()]: parameters.
    The parent's methods run on [self], so they reach [hook]
    through it. *)
Variable super_execute : M t pyval.
Variable super_execute_complete : gmap string pyval -> gmap string pyval -> M t pyval.
Variable utcnow : Z.

(** The first block of [__init__]: [is_delete_operator_pod] and
    [on_finish_action] are folded into [kwargs["on_finish_action"]].
    The local [kwargs] is the state. *)
Definition resolve_on_finish_action (on_finish_action is_delete_operator_pod : pyval)
    : M (gmap string pyval) unit :=
  if negb (is_None is_delete_operator_pod) then
    emit (Warn "`is_delete_operator_pod` parameter is deprecated, please use `on_finish_action`") ;;
    set_self
      (insert "on_finish_action"
         (OnFinishAction.to_py
            (if truthy is_delete_operator_pod
             then OnFinishAction.DELETE_POD else OnFinishAction.KEEP_POD)))
  else if negb (is_None on_finish_action) then
    match OnFinishAction.of_value on_finish_action with
    | inr a => set_self (insert "on_finish_action" (OnFinishAction.to_py a))
    | inl e => raise e
    end
  else
    emit (Warn "You have not set parameter `on_finish_action` in class GKEStartPodOperator. Currently the default for this parameter is `keep_pod` but in a future release the default will be changed to `delete_pod`. To ensure pods are not deleted in the future you will need to set `on_finish_action=keep_pod` explicitly.") ;;
    set_self (insert "on_finish_action" (OnFinishAction.to_py OnFinishAction.KEEP_POD)).

Definition __init__ (location cluster_name use_internal_ip project_id
    gcp_conn_id impersonation_chain regional on_finish_action
    is_delete_operator_pod : pyval)
    (kwargs : gmap string pyval) (tr : list effect)
    : outcome t * list effect :=
  match (resolve_on_finish_action on_finish_action is_delete_operator_pod ;;
         if negb (is_None regional) then
           emit (Warn "You have set parameter regional in class GKEStartPodOperator. In current implementation of the operator the parameter is not used and will be deleted in future.")
         else ret tt) kwargs tr
  with
  | (Raise e, _, tr') => (Raise e, tr')
  | (Return _, kwargs', tr') =>
      match super_init kwargs' with
      | inl e => (Raise e, tr')
      | inr a =>
          let self := mk a project_id location cluster_name gcp_conn_id
                        impersonation_chain use_internal_ip None PNone PNone
                        None None in
          if is_None (gcp_conn_id) then
            (Raise (AirflowException (PStr "The gcp_conn_id parameter has become required. If you want to use Application Default Credentials (ADC) strategy for authorization, create an empty connection called `google_cloud_default`.")), tr')
          else if truthy (PodAttrs.config_file (attrs self)) then
            (Raise (AirflowException (PStr "config_file is not an allowed parameter for the GKEStartPodOperator.")), tr')
          else (Return self, tr')
      end
  end.

(** [cluster_hook], a [cached_property] *)
Definition cluster_hook : M t GKEHookArgs.t :=
  self <- get_self ;;
  match cluster_hook_cache self with
  | Some h => ret h
  | None =>
      let h := GKEHookArgs.mk (gcp_conn_id self) (location self) (impersonation_chain self) in
      set_self (set_cluster_hook_cache h) ;;
      ret h
  end.

(** [hook], a [cached_property]: the value is stored only when the
    body returns. *)
Definition hook : M t GKEPodHook.t :=
  self <- get_self ;;
  match hook_cache self with
  | Some h => ret h
  | None =>
      if is_None (_cluster_url self) || is_None (_ssl_ca_cert self) then
        raise (AttributeError "Cluster url and ssl_ca_cert should be defined before using self.hook method. Try to use self.get_kube_creds method")
      else
        let h := GKEPodHook.mk (gcp_conn_id self) (_cluster_url self)
                   (_ssl_ca_cert self) (impersonation_chain self) in
        set_self (set_hook_cache h) ;;
        ret h
  end.

(** Fetch cluster info for connecting to it. *)
Definition fetch_cluster_info : M t (pyval * pyval) :=
  h <- cluster_hook ;;
  self <- get_self ;;
  cluster <- GKEHook.get_cluster cp h (cluster_name self) (project_id self) ;;
  (if negb (truthy (use_internal_ip self)) then
     set_self (set_cluster_url (PStr ("https://" ++ Cluster.endpoint cluster)))
   else
     set_self (set_cluster_url (PStr ("https://" ++ Cluster.private_endpoint cluster)))) ;;
  set_self (set_ssl_ca_cert (PStr (Cluster.cluster_ca_certificate cluster))) ;;
  self <- get_self ;;
  ret (_cluster_url self, _ssl_ca_cert self).

(** Execute process of creating pod and executing provided command
    inside it. *)
Definition execute : M t pyval :=
  fetch_cluster_info ;;
  super_execute.

(** Redefine triggers which are being used in child classes. *)
Definition invoke_defer_method : M t unit :=
  let trigger_start_time := utcnow in
  self <- get_self ;;
  match pod self with
  | None => raise (AttributeError "'NoneType' object has no attribute 'metadata'")
  | Some p =>
      defer
        (StartPodTrigger
           (GKEStartPodTrigger.mk (V1Pod.name p) (V1Pod.namespace p)
              trigger_start_time (_cluster_url self) (_ssl_ca_cert self)
              (PodAttrs.get_logs (attrs self))
              (PodAttrs.startup_timeout_seconds (attrs self))
              (PodAttrs.cluster_context (attrs self))
              (PodAttrs.poll_interval (attrs self))
              (PodAttrs.in_cluster (attrs self))
              (PodAttrs.base_container_name (attrs self))
              (PodAttrs.on_finish_action (attrs self))
              (gcp_conn_id self) (impersonation_chain self)))
        "execute_complete"
        (Some (<["cluster_url" := _cluster_url self]>
                 (<["ssl_ca_cert" := _ssl_ca_cert self]> ∅)))
  end.

Definition execute_complete (event kwargs : gmap string pyval) : M t pyval :=
  (* It is required for hook to be initialized *)
  cluster_url <- getitem kwargs "cluster_url" ;;
  set_self (set_cluster_url cluster_url) ;;
  ssl_ca_cert <- getitem kwargs "ssl_ca_cert" ;;
  set_self (set_ssl_ca_cert ssl_ca_cert) ;;
  super_execute_complete event kwargs.

(** The class attribute [template_fields]: the tuple of the set that
    joins three names of this class with the template fields of
    [KubernetesPodOperator], which are a parameter.  The order in
    which Python lays out the set is not fixed; [elements] stands for
    whichever order it is. *)
Variable super_template_fields : list string.

Definition template_fields : list string :=
  elements (({["project_id"]} ∪ {["location"]} ∪ {["cluster_name"]})
            ∪ list_to_set super_template_fields : gset string).
End Operator.
End GKEStartPodOperator.

(** * Vocabulary of the properties *)

(** [silent m]: running [m] adds no request to the trace. *)
Definition silent {S A : Type} (m : M S A) : Prop :=
  forall self tr, calls (m self tr).2 = calls tr.

(** A body field is set when its value, read the way [_body_field]
    reads it, is truthy. *)
Definition is_set (body : body_t) (field_name : string) : bool :=
  truthy
    match body with
    | BodyDict d => default PNone (d !! field_name)
    | BodyCluster c => Cluster.getattr c field_name PNone
    end.

(** The connection info of an operator is complete when neither the
    cluster URL nor the CA certificate is None. *)
Definition connection_info_complete (self : GKEStartPodOperator.t) : Prop :=
  is_None (GKEStartPodOperator._cluster_url self) = false
  /\ is_None (GKEStartPodOperator._ssl_ca_cert self) = false.

(** A session is complete when it was built from a cluster URL and a
    CA certificate that are not None. *)
Definition session_complete (h : GKEPodHook.t) : Prop :=
  is_None (GKEPodHook.cluster_url h) = false
  /\ is_None (GKEPodHook.ssl_ca_cert h) = false.

(** The session an operator holds in its cache, if any, is
    complete. *)
Definition cached_session_complete (self : GKEStartPodOperator.t) : Prop :=
  forall h, GKEStartPodOperator.hook_cache self = Some h -> session_complete h.

(** * Sample inputs

    Concrete bodies, events and control planes on which the
    properties are exercised. *)

(** A parent constructor that accepts every keyword. *)
Definition accept_all (kwargs : gmap string pyval) : exn + unit := inr tt.

(** A body that sets both [initial_node_count] and [node_pools]. *)
Definition body_both : body_t :=
  BodyDict
    (<["name" := PStr "my-cluster"]>
       (<["initial_node_count" := PInt 1]>
          (<["node_pools" := PList [PDict (<["name" := PStr "pool-1"]> ∅)]]> ∅))).

(** The minimal body of the class docstring. *)
Definition body_minimal : body_t :=
  BodyDict (<["name" := PStr "my-cluster-name"]> (<["initial_node_count" := PInt 1]> ∅)).

Definition sample_operation : Operation.t :=
  Operation.mk "operation-1" "https://container/operations/operation-1"
    "https://container/clusters/my-cluster-name".

Definition sample_cluster : Cluster.t :=
  Cluster.mk "my-cluster-name" 1 ∅ [] "" [] "203.0.113.10" "10.0.0.2"
    "LS0tLS1CRUdJTg==" "https://container/clusters/my-cluster-name".

(** A control plane on which the cluster already exists and can be
    fetched. *)
Definition cp_exists : ControlPlane :=
  {| create_cluster_answer _ _ _ _ _ := inl (AlreadyExists "Already exists");
     delete_cluster_answer _ _ _ _ _ := inr (Some sample_operation);
     get_cluster_answer _ _ _ _ := inr sample_cluster;
     get_operation_answer _ _ _ := inr sample_operation |}.

(** A control plane that reports the cluster as existing on create
    but fails the fetch that follows. *)
Definition cp_exists_fetch_fails : ControlPlane :=
  {| create_cluster_answer _ _ _ _ _ := inl (AlreadyExists "Already exists");
     delete_cluster_answer _ _ _ _ _ := inr None;
     get_cluster_answer _ _ _ _ := inl (OtherError "ServiceUnavailable" "503");
     get_operation_answer _ _ _ := inr sample_operation |}.

(** A control plane with nothing to delete: [delete_cluster] hands
    back no operation. *)
Definition cp_nothing_to_delete : ControlPlane :=
  {| create_cluster_answer _ _ _ _ _ := inr sample_operation;
     delete_cluster_answer _ _ _ _ _ := inr None;
     get_cluster_answer _ _ _ _ := inl (OtherError "NotFound" "404");
     get_operation_answer _ _ _ := inr sample_operation |}.

(** A control plane on which every request succeeds. *)
Definition cp_ok : ControlPlane :=
  {| create_cluster_answer _ _ _ _ _ := inr sample_operation;
     delete_cluster_answer _ _ _ _ _ := inr (Some sample_operation);
     get_cluster_answer _ _ _ _ := inr sample_cluster;
     get_operation_answer _ _ _ := inr sample_operation |}.

Definition sample_create (deferrable : bool) : GKECreateClusterOperator.t :=
  GKECreateClusterOperator.mk tt (PStr "my-project") (PStr "google_cloud_default")
    (PStr "europe-west1") (PStr "v2") body_minimal PNone (PInt 10)
    (PBool deferrable) None.

Definition sample_delete (deferrable : bool) : GKEDeleteClusterOperator.t :=
  GKEDeleteClusterOperator.mk tt (PStr "my-project") (PStr "google_cloud_default")
    (PStr "europe-west1") (PStr "v2") (PStr "my-cluster-name") PNone
    (PBool deferrable) (PInt 10) None.

(** The events of the completion-event schema. *)
Definition event_failed : gmap string pyval :=
  <["status" := PStr "failed"]> (<["message" := PStr "quota exceeded"]> ∅).

Definition event_success : gmap string pyval :=
  <["status" := PStr "success"]>
    (<["message" := PStr "Operation is successfully ended."]>
       (<["operation_name" := PStr "operation-1"]> ∅)).

(** A stand-in for the constructor of [KubernetesPodOperator]: it
    keeps the keywords this file reads, with None (or the keyword's
    usual default) when a keyword is absent. *)
Definition pod_parent (kwargs : gmap string pyval) : exn + PodAttrs.t :=
  inr (PodAttrs.mk
         (default PNone (kwargs !! "config_file"))
         (default (PBool true) (kwargs !! "get_logs"))
         (default (PInt 120) (kwargs !! "startup_timeout_seconds"))
         (default PNone (kwargs !! "cluster_context"))
         (default (PInt 2) (kwargs !! "poll_interval"))
         (default PNone (kwargs !! "in_cluster"))
         (default (PStr "base") (kwargs !! "base_container_name"))
         (default PNone (kwargs !! "on_finish_action"))).

Definition sample_attrs : PodAttrs.t :=
  PodAttrs.mk PNone (PBool true) (PInt 120) PNone (PInt 2) PNone (PStr "base")
    (PStr "keep_pod").

(** A pod operator as its constructor leaves it, up to
    [use_internal_ip]. *)
Definition sample_pod_operator (use_internal_ip : bool) : GKEStartPodOperator.t :=
  GKEStartPodOperator.mk sample_attrs (PStr "my-project") (PStr "europe-west1")
    (PStr "my-cluster-name") (PStr "google_cloud_default") PNone
    (PBool use_internal_ip) None PNone PNone None None.

(** The same operator once the parent has created its pod and the
    cluster info is known. *)
Definition sample_pod_operator_running : GKEStartPodOperator.t :=
  GKEStartPodOperator.mk sample_attrs (PStr "my-project") (PStr "europe-west1")
    (PStr "my-cluster-name") (PStr "google_cloud_default") PNone
    (PBool true) (Some (V1Pod.mk "pod-1" "default"))
    (PStr "LS0tLS1CRUdJTg==") (PStr "https://10.0.0.2") None None.

(** A body that only uses [node_pools]. *)
Definition body_pools : body_t :=
  BodyDict
    (<["name" := PStr "my-cluster-name"]>
       (<["node_pools" := PList [PDict (<["name" := PStr "pool-1"]> ∅)]]> ∅)).

(** A body without a name. *)
Definition body_nameless : body_t :=
  BodyDict (<["initial_node_count" := PInt 1]> ∅).

(** A control plane that is out of service. *)
Definition cp_unavailable : ControlPlane :=
  {| create_cluster_answer _ _ _ _ _ := inl (OtherError "ServiceUnavailable" "503");
     delete_cluster_answer _ _ _ _ _ := inl (OtherError "ServiceUnavailable" "503");
     get_cluster_answer _ _ _ _ := inl (OtherError "ServiceUnavailable" "503");
     get_operation_answer _ _ _ := inl (OtherError "ServiceUnavailable" "503") |}.

(** A create operator whose dict body lost its name after
    construction. *)
Definition sample_create_keyless : GKECreateClusterOperator.t :=
  GKECreateClusterOperator.mk tt (PStr "my-project") (PStr "google_cloud_default")
    (PStr "europe-west1") (PStr "v2") body_nameless PNone (PInt 10)
    (PBool false) None.

(** Events that miss a key. *)
Definition event_without_status : gmap string pyval :=
  <["message" := PStr "quota exceeded"]> ∅.

Definition event_without_message : gmap string pyval :=
  <["status" := PStr "failed"]> ∅.

Definition event_without_operation_name : gmap string pyval :=
  <["status" := PStr "success"]> (<["message" := PStr "done"]> ∅).

(** A second cluster, at other addresses. *)
Definition moved_cluster : Cluster.t :=
  Cluster.mk "my-cluster-name" 1 ∅ [] "" [] "198.51.100.7" "10.0.0.9"
    "TU9WRUQ=" "https://container/clusters/my-cluster-name".

(** A control plane whose cluster moves after it was first fetched:
    the first [get_cluster] is answered with [sample_cluster], every
    later one with [moved_cluster]. *)
Definition cp_moving : ControlPlane :=
  {| create_cluster_answer _ _ _ _ _ := inr sample_operation;
     delete_cluster_answer _ _ _ _ _ := inr (Some sample_operation);
     get_cluster_answer tr _ _ _ :=
       match calls tr with
       | [] => inr sample_cluster
       | _ :: _ => inr moved_cluster
       end;
     get_operation_answer _ _ _ := inr sample_operation |}.

(** Resume keywords that carry the cluster URL only. *)
Definition kwargs_without_cert : gmap string pyval :=
  <["cluster_url" := PStr "https://10.0.0.2"]> ∅.

(** A stand-in for the parent's constructor that insists on a
    [task_id]. *)
Definition pod_parent_with_task_id (kwargs : gmap string pyval) : exn + PodAttrs.t :=
  match kwargs !! "task_id" with
  | Some _ => pod_parent kwargs
  | None => inl (AirflowException (PStr "missing keyword argument 'task_id'"))
  end.

(** The pod operator at the point where it defers: its pod exists
    and it has read [hook], so the session built from its cluster URL
    and CA certificate is cached. *)
Definition sample_pod_operator_deferring : GKEStartPodOperator.t :=
  GKEStartPodOperator.mk sample_attrs (PStr "my-project") (PStr "europe-west1")
    (PStr "my-cluster-name") (PStr "google_cloud_default") PNone
    (PBool true) (Some (V1Pod.mk "pod-1" "default"))
    (PStr "LS0tLS1CRUdJTg==") (PStr "https://10.0.0.2")
    (Some (GKEHookArgs.mk (PStr "google_cloud_default") (PStr "europe-west1") PNone))
    (Some (GKEPodHook.mk (PStr "google_cloud_default") (PStr "https://10.0.0.2")
             (PStr "LS0tLS1CRUdJTg==") PNone)).

(** * Properties *)

(** ** Methods that send no request

    [silent m]: running [m] adds no request to the trace.  The
    constructors and validations below are built from silent steps. *)

Lemma calls_app (tr1 tr2 : list effect) :
  calls (tr1 ++ tr2)%list = (calls tr1 ++ calls tr2)%list.
Proof. unfold calls. apply omap_app. Qed.

Lemma calls_snoc_quiet (tr : list effect) (e : effect) :
  is_call e = false -> calls (tr ++ [e])%list = calls tr.
Proof.
  intros He. rewrite calls_app. destruct e; try discriminate He; cbn;
    apply app_nil_r.
Qed.

Lemma calls_snoc_call (tr : list effect) (c : api_call) :
  calls (tr ++ [Call c])%list = (calls tr ++ [c])%list.
Proof. now rewrite calls_app. Qed.

Section Silent.
Context {S : Type}.

Lemma silent_ret {A} (a : A) : silent (S := S) (ret a).
Proof. now intros self tr. Qed.

Lemma silent_raise {A} (e : exn) : silent (S := S) (A := A) (raise e).
Proof. now intros self tr. Qed.

Lemma silent_get_self : silent (S := S) get_self.
Proof. now intros self tr. Qed.

Lemma silent_set_self (f : S -> S) : silent (set_self f).
Proof. now intros self tr. Qed.

Lemma silent_emit (e : effect) : is_call e = false -> silent (S := S) (emit e).
Proof. intros He self tr. cbn. now apply calls_snoc_quiet. Qed.

Lemma silent_bind {A B} (m : M S A) (k : A -> M S B) :
  silent m -> (forall a, silent (k a)) -> silent (bind m k).
Proof.
  intros Hm Hk self tr. unfold bind. specialize (Hm self tr).
  destruct (m self tr) as [[[a | e] self'] tr']; cbn in *.
  - now rewrite Hk.
  - exact Hm.
Qed.

Lemma silent_for_each {A} (f : A -> M S unit) (l : list A) :
  (forall x, silent (f x)) -> silent (for_each f l).
Proof.
  intros Hf. induction l as [| x l IH]; cbn [for_each].
  - apply silent_ret.
  - apply silent_bind; [apply Hf | intros _; exact IH].
Qed.

Lemma silent_getitem (d : gmap string pyval) (key : string) :
  silent (S := S) (getitem d key).
Proof.
  unfold getitem. destruct (d !! key); [apply silent_ret | apply silent_raise].
Qed.

Lemma silent_if {A} (b : bool) (m1 m2 : M S A) :
  silent m1 -> silent m2 -> silent (if b then m1 else m2).
Proof. now destruct b. Qed.
End Silent.

Create HintDb silent discriminated.
#[export] Hint Resolve silent_ret silent_raise silent_get_self silent_set_self
  silent_getitem : silent.
#[export] Hint Extern 2 (silent (emit _)) => (apply silent_emit; reflexivity) : silent.
#[export] Hint Extern 3 (silent (bind _ _)) => (apply silent_bind; [| intros ?]) : silent.
#[export] Hint Extern 3 (silent (for_each _ _)) => (apply silent_for_each; intros ?) : silent.
#[export] Hint Extern 3 (silent (if _ then _ else _)) => apply silent_if : silent.

(** ** Cluster creation: validation of the body *)

Section CreateValidation.
Context {Base : Type} (super_init : gmap string pyval -> exn + Base).

Import GKECreateClusterOperator.

Lemma body_field_is_set (self : t (Base := Base)) (f : string) :
  truthy (_body_field self f PNone) = is_set (body self) f.
Proof. reflexivity. Qed.

(** No message is produced exactly when the name is set and exactly
    one of the two node groups is. *)
Lemma error_messages_nil (self : t (Base := Base)) :
  error_messages self = [] <->
  is_set (body self) "name" = true /\
  xorb (is_set (body self) "node_config" || is_set (body self) "initial_node_count")
       (is_set (body self) "node_pools") = true.
Proof.
  unfold error_messages, py_any. cbn [existsb].
  rewrite !body_field_is_set.
  destruct (is_set (body self) "name"), (is_set (body self) "node_config"),
    (is_set (body self) "initial_node_count"), (is_set (body self) "node_pools");
    cbn; split; intros H; try discriminate H; try (destruct H; discriminate);
    auto.
Qed.

Lemma silent_alert_deprecated_body_fields :
  silent (_alert_deprecated_body_fields (Base := Base)).
Proof.
  unfold _alert_deprecated_body_fields.
  apply silent_bind; [apply silent_get_self | intros self].
  apply silent_for_each. intros [deprecated_field replacement].
  apply silent_if; auto with silent.
Qed.

Lemma silent_validate_input : silent (_validate_input (Base := Base)).
Proof.
  unfold _validate_input.
  apply silent_bind; [apply silent_alert_deprecated_body_fields | intros _].
  apply silent_bind; [apply silent_get_self | intros self].
  apply silent_bind; [auto with silent | intros _].
  destruct (error_messages self); auto with silent.
Qed.

(** [_validate_input] never changes [self]. *)
Lemma for_each_emit_state {A} (f : A -> effect) (l : list A) (self : t (Base := Base)) tr :
  exists tr', for_each (fun x => emit (f x)) l self tr = (Return tt, self, tr').
Proof.
  revert tr. induction l as [| x l IH]; intros tr; cbn.
  - now exists tr.
  - unfold bind. cbn. apply IH.
Qed.

Lemma alert_deprecated_body_fields_returns (self : t (Base := Base)) tr :
  exists tr', _alert_deprecated_body_fields self tr = (Return tt, self, tr').
Proof.
  unfold _alert_deprecated_body_fields, bind, get_self,
    deprecated_body_fields_with_replacement. cbn [for_each].
  unfold bind, emit, ret.
  repeat match goal with
         | |- context [truthy ?v] => destruct (truthy v)
         end; eauto.
Qed.

Lemma validate_input_outcome (self : t (Base := Base)) tr :
  exists tr',
    _validate_input self tr =
      (match error_messages self with
       | [] => Return tt
       | _ :: _ => Raise (AirflowException (PStr "Operator has incorrect or missing input."))
       end, self, tr').
Proof.
  unfold _validate_input.
  destruct (alert_deprecated_body_fields_returns self tr) as [tr1 H1].
  unfold bind at 1. rewrite H1. unfold bind at 1, get_self at 1.
  destruct (for_each_emit_state (fun m => Log "error" (PStr m)) (error_messages self) self tr1)
    as [tr2 H2].
  unfold bind at 1. rewrite H2.
  destruct (error_messages self); eauto.
Qed.
End CreateValidation.

(** C1: a cluster-create request is accepted only when exactly one of
    the two node groups (the legacy pair [node_config] /
    [initial_node_count], or [node_pools]) is set.  A body with
    [node_pools] and [initial_node_count], with [node_pools] and
    [node_config], or with neither group, is rejected with
    [AirflowException] by [_validate_input], which the constructor
    runs; no request is sent to the control plane on the way. *)
Theorem create_cluster_exactly_one_node_group
    {Base : Type} (super_init : gmap string pyval -> exn + Base)
    (location : pyval) (body : body_t)
    (project_id gcp_conn_id api_version impersonation_chain poll_interval
     deferrable : pyval)
    (kwargs : gmap string pyval) (tr : list effect) :
  let built :=
    GKECreateClusterOperator.__init__ super_init location body project_id
      gcp_conn_id api_version impersonation_chain poll_interval deferrable
      kwargs tr in
  let legacy := is_set body "node_config" || is_set body "initial_node_count" in
  let pools := is_set body "node_pools" in
  (forall self tr', built = (Return self, tr') ->
     xorb legacy pools = true /\ is_set body "name" = true)
  /\
  ((pools && is_set body "initial_node_count")
   || (pools && is_set body "node_config")
   || (negb legacy && negb pools) = true ->
   (forall self : GKECreateClusterOperator.t (Base := Base),
      GKECreateClusterOperator.body self = body ->
      exists tr',
        GKECreateClusterOperator._validate_input self tr =
          (Raise (AirflowException (PStr "Operator has incorrect or missing input.")),
           self, tr')
        /\ calls tr' = calls tr)
   /\
   exists e tr',
     built = (Raise e, tr') /\ calls tr' = calls tr /\
     (forall b, super_init kwargs = inr b ->
        e = AirflowException (PStr "Operator has incorrect or missing input."))).
Proof.
  intros built legacy pools.
  assert (Hbad : (pools && is_set body "initial_node_count")
                 || (pools && is_set body "node_config")
                 || (negb legacy && negb pools) = true ->
                 forall self : GKECreateClusterOperator.t (Base := Base),
                   GKECreateClusterOperator.body self = body ->
                   exists m l, GKECreateClusterOperator.error_messages self = m :: l).
  { intros Hv self Hb.
    destruct (GKECreateClusterOperator.error_messages self) as [| m l] eqn:E; [| eauto].
    apply error_messages_nil in E. rewrite Hb in E. destruct E as [_ E].
    subst legacy pools.
    destruct (is_set body "node_config"), (is_set body "initial_node_count"),
      (is_set body "node_pools"); discriminate. }
  split; [| intros Hv; split].
  - intros self tr' Hbuilt. subst built. unfold GKECreateClusterOperator.__init__ in Hbuilt.
    destruct (super_init kwargs) as [e | b]; [discriminate |].
    match type of Hbuilt with
    | context [GKECreateClusterOperator._validate_input ?s tr] =>
        destruct (validate_input_outcome s tr) as [tr1 H1]; rewrite H1 in Hbuilt;
        destruct (GKECreateClusterOperator.error_messages s) eqn:E; [| discriminate];
        apply error_messages_nil in E; cbn in E
    end.
    destruct E as [Hname Hx]. now split.
  - intros self Hb.
    destruct (validate_input_outcome self tr) as [tr1 H1].
    destruct (Hbad Hv self Hb) as (m & l & E). rewrite E in H1.
    exists tr1. split; [exact H1 |].
    pose proof (silent_validate_input self tr) as Hs. now rewrite H1 in Hs.
  - subst built. unfold GKECreateClusterOperator.__init__.
    destruct (super_init kwargs) as [e | b].
    + exists e, tr. repeat split. intros b Hb. discriminate.
    + match goal with
      | |- context [GKECreateClusterOperator._validate_input ?s tr] =>
          destruct (validate_input_outcome s tr) as [tr1 H1];
          pose proof (silent_validate_input s tr) as Hs;
          destruct (Hbad Hv s eq_refl) as (m & l & E)
      end.
      rewrite H1 in Hs |- *. rewrite E. cbn in Hs.
      eexists _, tr1. split; [reflexivity |]. split; [exact Hs |]. reflexivity.
Qed.

Lemma create_cluster_exactly_one_node_group_witness :
  (exists e tr',
     GKECreateClusterOperator.__init__ accept_all (PStr "europe-west1") body_both
       (PStr "my-project") (PStr "google_cloud_default") (PStr "v2") PNone
       (PInt 10) (PBool false) ∅ [] = (Raise e, tr')
     /\ calls tr' = calls []
     /\ (forall b, accept_all ∅ = inr b ->
           e = AirflowException (PStr "Operator has incorrect or missing input.")))
  /\
  (xorb (is_set body_minimal "node_config" || is_set body_minimal "initial_node_count")
        (is_set body_minimal "node_pools") = true
   /\ is_set body_minimal "name" = true).
Proof.
  split.
  - apply (create_cluster_exactly_one_node_group accept_all (PStr "europe-west1") body_both
             (PStr "my-project") (PStr "google_cloud_default") (PStr "v2") PNone
             (PInt 10) (PBool false) ∅ []).
    reflexivity.
  - eapply (create_cluster_exactly_one_node_group accept_all (PStr "europe-west1")
              body_minimal (PStr "my-project") (PStr "google_cloud_default") (PStr "v2")
              PNone (PInt 10) (PBool false) ∅ []).
    reflexivity.
Defined.

(** ** Cluster creation: the cluster already exists *)

(** The hook an operator uses: the cached one, or one built from its
    connection attributes. *)
Lemma create_get_hook {Base : Type} (self : GKECreateClusterOperator.t (Base := Base)) tr :
  GKECreateClusterOperator._get_hook self tr =
    (Return (default (GKEHookArgs.mk (GKECreateClusterOperator.gcp_conn_id self)
                        (GKECreateClusterOperator.location self)
                        (GKECreateClusterOperator.impersonation_chain self))
               (GKECreateClusterOperator._hook self)),
     match GKECreateClusterOperator._hook self with
     | None =>
         GKECreateClusterOperator.set_hook
           (GKEHookArgs.mk (GKECreateClusterOperator.gcp_conn_id self)
              (GKECreateClusterOperator.location self)
              (GKECreateClusterOperator.impersonation_chain self)) self
     | Some _ => self
     end, tr).
Proof.
  unfold GKECreateClusterOperator._get_hook, bind, get_self.
  now destruct (GKECreateClusterOperator._hook self).
Qed.

Lemma delete_get_hook {Base : Type} (self : GKEDeleteClusterOperator.t (Base := Base)) tr :
  GKEDeleteClusterOperator._get_hook self tr =
    (Return (default (GKEHookArgs.mk (GKEDeleteClusterOperator.gcp_conn_id self)
                        (GKEDeleteClusterOperator.location self)
                        (GKEDeleteClusterOperator.impersonation_chain self))
               (GKEDeleteClusterOperator._hook self)),
     match GKEDeleteClusterOperator._hook self with
     | None =>
         GKEDeleteClusterOperator.set_hook
           (GKEHookArgs.mk (GKEDeleteClusterOperator.gcp_conn_id self)
              (GKEDeleteClusterOperator.location self)
              (GKEDeleteClusterOperator.impersonation_chain self)) self
     | Some _ => self
     end, tr).
Proof.
  unfold GKEDeleteClusterOperator._get_hook, bind, get_self.
  now destruct (GKEDeleteClusterOperator._hook self).
Qed.

(** C2, as the code has it: when the submission raises
    [AlreadyExists], [execute] does not raise that error.  It logs,
    fetches the cluster named in the (validated) body and returns the
    fetched cluster's link; the only error it can raise there is the
    one the fetch itself raises.  No trigger is registered. *)
Theorem create_cluster_already_exists
    {Base : Type} (cp : ControlPlane)
    (self : GKECreateClusterOperator.t (Base := Base)) (tr : list effect)
    (message : string) :
  let h := default (GKEHookArgs.mk (GKECreateClusterOperator.gcp_conn_id self)
                      (GKECreateClusterOperator.location self)
                      (GKECreateClusterOperator.impersonation_chain self))
             (GKECreateClusterOperator._hook self) in
  let body := GKECreateClusterOperator.body self in
  let project_id := GKECreateClusterOperator.project_id self in
  let wait := negb (truthy (GKECreateClusterOperator.deferrable self)) in
  let submit := Call (CreateCluster h body project_id wait) in
  let note := Log "info" (PStr ("Assuming Success: " ++ message)) in
  let name := match body with
              | BodyCluster c => PStr (Cluster.name c)
              | BodyDict d => default PNone (d !! "name")
              end in
  let fetched := get_cluster_answer cp (tr ++ [submit; note])%list h name project_id in
  is_set body "name" = true ->
  create_cluster_answer cp tr h body project_id wait = inl (AlreadyExists message) ->
  exists self',
    GKECreateClusterOperator.execute cp self tr =
      (match fetched with
       | inr cluster => Return (PStr (Cluster.self_link cluster))
       | inl e => Raise (ApiError e)
       end,
       self',
       (tr ++ [submit; note; Call (GetCluster h name project_id)])%list)
    /\ (forall d, (GKECreateClusterOperator.execute cp self tr).1.1 <> Raise (TaskDeferred d))
    /\ (forall cluster, fetched = inr cluster ->
          (GKECreateClusterOperator.execute cp self tr).1.1
          = Return (PStr (Cluster.self_link cluster))).
Proof.
  intros h body project_id wait submit note name fetched Hname Hsubmit.
  assert (Hrun : exists self',
    GKECreateClusterOperator.execute cp self tr =
      (match fetched with
       | inr cluster => Return (PStr (Cluster.self_link cluster))
       | inl e => Raise (ApiError e)
       end,
       self',
       (tr ++ [submit; note; Call (GetCluster h name project_id)])%list)).
  { unfold GKECreateClusterOperator.execute. unfold bind at 1.
    rewrite create_get_hook. fold h.
    unfold try_except, bind at 1, get_self at 1.
    unfold bind at 1, GKEHook.create_cluster, request.
    match goal with
    | |- context [GKECreateClusterOperator.body ?s] =>
        replace (GKECreateClusterOperator.body s) with body
          by (subst body; now destruct (GKECreateClusterOperator._hook self))
    end.
    match goal with
    | |- context [GKECreateClusterOperator.project_id ?s] =>
        replace (GKECreateClusterOperator.project_id s) with project_id
          by (subst project_id; now destruct (GKECreateClusterOperator._hook self))
    end.
    match goal with
    | |- context [GKECreateClusterOperator.deferrable ?s] =>
        replace (negb (truthy (GKECreateClusterOperator.deferrable s))) with wait
          by (subst wait; now destruct (GKECreateClusterOperator._hook self))
    end.
    rewrite Hsubmit.
    unfold bind, emit, get_self.
    match goal with
    | |- context [GKECreateClusterOperator.body ?s] =>
        replace (GKECreateClusterOperator.body s) with body
          by (subst body; now destruct (GKECreateClusterOperator._hook self))
    end.
    match goal with
    | |- context [GKECreateClusterOperator.project_id ?s] =>
        replace (GKECreateClusterOperator.project_id s) with project_id
          by (subst project_id; now destruct (GKECreateClusterOperator._hook self))
    end.
    assert (Hn : (match body with
                  | BodyCluster c => ret (S := GKECreateClusterOperator.t (Base := Base))
                                       (PStr (Cluster.name c))
                  | BodyDict d => getitem d "name"
                  end) = ret name).
    { subst name. destruct body as [d | c]; [| reflexivity].
      unfold is_set in Hname. unfold getitem.
      destruct (d !! "name"); [reflexivity | discriminate]. }
    rewrite Hn. unfold ret, GKEHook.get_cluster, request.
    rewrite <- !app_assoc. cbn [app]. fold submit note. fold fetched.
    destruct fetched; eauto. }
  destruct Hrun as [self' Hrun]. exists self'. rewrite Hrun. cbn.
  split; [reflexivity |]. split.
  - intros d. destruct fetched; discriminate.
  - intros cluster ->. reflexivity.
Qed.

Lemma create_cluster_already_exists_witness :
  (GKECreateClusterOperator.execute cp_exists (sample_create false) []).1.1
  = Return (PStr "https://container/clusters/my-cluster-name").
Proof.
  destruct (create_cluster_already_exists cp_exists (sample_create false) []
              "Already exists" eq_refl eq_refl) as (self' & _ & _ & H).
  exact (H sample_cluster eq_refl).
Defined.

(** C2 fails as stated ("does not raise"): the submission raises
    [AlreadyExists], the fetch that follows is answered with an error,
    and [execute] raises it. *)
Lemma create_cluster_already_exists_can_raise :
  create_cluster_answer cp_exists_fetch_fails []
    (GKEHookArgs.mk (PStr "google_cloud_default") (PStr "europe-west1") PNone)
    body_minimal (PStr "my-project") true = inl (AlreadyExists "Already exists")
  /\ (GKECreateClusterOperator.execute cp_exists_fetch_fails (sample_create false) []).1.1
     = Raise (ApiError (OtherError "ServiceUnavailable" "503")).
Proof. split; reflexivity. Qed.

(** ** Synchronous and deferred submission *)

Ltac run_method :=
  unfold try_except, bind, get_self, set_self, emit, ret, raise, defer,
    GKEHook.create_cluster, GKEHook.delete_cluster, GKEHook.get_cluster,
    GKEHook.get_operation, request; cbn.

(** What [GKECreateClusterOperator.execute] does once the hook is at
    hand, when the submission is answered with an operation. *)
Lemma create_execute_submitted
    {Base : Type} (cp : ControlPlane)
    (self : GKECreateClusterOperator.t (Base := Base)) (tr : list effect)
    (operation : Operation.t) :
  let h := default (GKEHookArgs.mk (GKECreateClusterOperator.gcp_conn_id self)
                      (GKECreateClusterOperator.location self)
                      (GKECreateClusterOperator.impersonation_chain self))
             (GKECreateClusterOperator._hook self) in
  let body := GKECreateClusterOperator.body self in
  let project_id := GKECreateClusterOperator.project_id self in
  let deferrable := truthy (GKECreateClusterOperator.deferrable self) in
  create_cluster_answer cp tr h body project_id (negb deferrable) = inr operation ->
  exists self',
    GKECreateClusterOperator.execute cp self tr =
      (if deferrable then
         Raise (TaskDeferred
                  (mk_deferral
                     (OperationTrigger
                        (GKEOperationTrigger.mk (Operation.name operation) project_id
                           (GKECreateClusterOperator.location self)
                           (GKECreateClusterOperator.gcp_conn_id self)
                           (GKECreateClusterOperator.impersonation_chain self)
                           (GKECreateClusterOperator.poll_interval self)))
                     "execute_complete" None))
       else Return (PStr (Operation.target_link operation)),
       self',
       (tr ++ [Call (CreateCluster h body project_id (negb deferrable)); PersistLink body])%list).
Proof.
  intros h body project_id deferrable Hsubmit.
  unfold GKECreateClusterOperator.execute. unfold bind at 1.
  rewrite create_get_hook.
  destruct self as [b pid conn loc api bd imp poll dfr hk].
  subst h body project_id deferrable.
  destruct hk as [h0 |]; cbn in Hsubmit |- *; run_method;
    rewrite Hsubmit; cbn; rewrite <- !app_assoc; cbn;
    destruct (truthy dfr); cbn; eauto.
Qed.

(** In synchronous mode [execute] never defers, whatever the control
    plane answers. *)
Lemma create_execute_sync_never_defers
    {Base : Type} (cp : ControlPlane)
    (self : GKECreateClusterOperator.t (Base := Base)) (tr : list effect) (d : deferral) :
  truthy (GKECreateClusterOperator.deferrable self) = false ->
  (GKECreateClusterOperator.execute cp self tr).1.1 <> Raise (TaskDeferred d).
Proof.
  intros Hsync.
  unfold GKECreateClusterOperator.execute. unfold bind at 1.
  rewrite create_get_hook.
  destruct self as [b pid conn loc api bd imp poll dfr hk]. cbn in Hsync |- *.
  destruct hk as [h0 |]; run_method; rewrite Hsync; cbn;
    match goal with
    | |- context [create_cluster_answer ?c ?t ?h ?b ?p ?w] =>
        destruct (create_cluster_answer c t h b p w) as [[m | cls m] | op]
    end; cbn; try discriminate;
    destruct bd as [dict | c]; cbn;
    try (unfold getitem; destruct (dict !! "name"); run_method);
    try match goal with
      | |- context [get_cluster_answer ?c ?t ?h ?n ?p] =>
          destruct (get_cluster_answer c t h n p)
      end; cbn; discriminate.
Qed.

(** The first request of [GKECreateClusterOperator.execute] is the
    submission, with [wait_to_complete = not self.deferrable]. *)
Lemma create_execute_first_request
    {Base : Type} (cp : ControlPlane)
    (self : GKECreateClusterOperator.t (Base := Base)) (tr : list effect) :
  let h := default (GKEHookArgs.mk (GKECreateClusterOperator.gcp_conn_id self)
                      (GKECreateClusterOperator.location self)
                      (GKECreateClusterOperator.impersonation_chain self))
             (GKECreateClusterOperator._hook self) in
  exists rest,
    calls (GKECreateClusterOperator.execute cp self tr).2 =
      (calls tr ++
       CreateCluster h (GKECreateClusterOperator.body self)
         (GKECreateClusterOperator.project_id self)
         (negb (truthy (GKECreateClusterOperator.deferrable self))) :: rest)%list.
Proof.
  intros h.
  unfold GKECreateClusterOperator.execute. unfold bind at 1.
  rewrite create_get_hook. fold h.
  destruct self as [b pid conn loc api bd imp poll dfr hk]. cbn in h |- *.
  destruct hk as [h0 |]; cbn in h |- *; run_method;
    match goal with
    | |- context [create_cluster_answer ?c ?t ?h ?b ?p ?w] =>
        destruct (create_cluster_answer c t h b p w) as [[m | cls m] | op]
    end; cbn;
    try destruct (truthy dfr); cbn;
    try (destruct bd as [dict | c]; cbn;
         try (unfold getitem; destruct (dict !! "name"); run_method);
         try match goal with
           | |- context [get_cluster_answer ?c ?t ?h ?n ?p] =>
               destruct (get_cluster_answer c t h n p)
           end; cbn);
    rewrite ?calls_app; cbn; rewrite <- ?app_assoc; cbn; eauto.
Qed.

(** What [GKEDeleteClusterOperator.execute] does, by the answer to the
    submission. *)
Lemma delete_execute_answered
    {Base : Type} (cp : ControlPlane)
    (self : GKEDeleteClusterOperator.t (Base := Base)) (tr : list effect)
    (operation : option Operation.t) :
  let h := default (GKEHookArgs.mk (GKEDeleteClusterOperator.gcp_conn_id self)
                      (GKEDeleteClusterOperator.location self)
                      (GKEDeleteClusterOperator.impersonation_chain self))
             (GKEDeleteClusterOperator._hook self) in
  let name := GKEDeleteClusterOperator.name self in
  let project_id := GKEDeleteClusterOperator.project_id self in
  let deferrable := truthy (GKEDeleteClusterOperator.deferrable self) in
  delete_cluster_answer cp tr h name project_id (negb deferrable) = inr operation ->
  exists self',
    GKEDeleteClusterOperator.execute cp self tr =
      (match operation with
       | Some op =>
           if deferrable then
             Raise (TaskDeferred
                      (mk_deferral
                         (OperationTrigger
                            (GKEOperationTrigger.mk (Operation.name op) project_id
                               (GKEDeleteClusterOperator.location self)
                               (GKEDeleteClusterOperator.gcp_conn_id self)
                               (GKEDeleteClusterOperator.impersonation_chain self)
                               (GKEDeleteClusterOperator.poll_interval self)))
                         "execute_complete" None))
           else Return (PStr (Operation.self_link op))
       | None => Return PNone
       end,
       self',
       (tr ++ [Call (DeleteCluster h name project_id (negb deferrable))])%list).
Proof.
  intros h name project_id deferrable Hsubmit.
  unfold GKEDeleteClusterOperator.execute. unfold bind at 1.
  rewrite delete_get_hook.
  destruct self as [b pid conn loc api nm imp dfr poll hk].
  subst h name project_id deferrable.
  destruct hk as [h0 |]; cbn in Hsubmit |- *; run_method;
    rewrite Hsubmit; cbn; destruct operation as [op |]; cbn;
    try destruct (truthy dfr); cbn; eauto.
Qed.

Lemma delete_execute_sync_never_defers
    {Base : Type} (cp : ControlPlane)
    (self : GKEDeleteClusterOperator.t (Base := Base)) (tr : list effect) (d : deferral) :
  truthy (GKEDeleteClusterOperator.deferrable self) = false ->
  (GKEDeleteClusterOperator.execute cp self tr).1.1 <> Raise (TaskDeferred d).
Proof.
  intros Hsync.
  unfold GKEDeleteClusterOperator.execute. unfold bind at 1.
  rewrite delete_get_hook.
  destruct self as [b pid conn loc api nm imp dfr poll hk]. cbn in Hsync |- *.
  destruct hk as [h0 |]; run_method; rewrite Hsync; cbn;
    match goal with
    | |- context [delete_cluster_answer ?c ?t ?h ?n ?p ?w] =>
        destruct (delete_cluster_answer c t h n p w) as [e | [op |]]
    end; cbn; discriminate.
Qed.

(** [GKEDeleteClusterOperator.execute] sends exactly one request, the
    submission, with [wait_to_complete = not self.deferrable]. *)
Lemma delete_execute_requests
    {Base : Type} (cp : ControlPlane)
    (self : GKEDeleteClusterOperator.t (Base := Base)) (tr : list effect) :
  let h := default (GKEHookArgs.mk (GKEDeleteClusterOperator.gcp_conn_id self)
                      (GKEDeleteClusterOperator.location self)
                      (GKEDeleteClusterOperator.impersonation_chain self))
             (GKEDeleteClusterOperator._hook self) in
  calls (GKEDeleteClusterOperator.execute cp self tr).2 =
    (calls tr ++
     [DeleteCluster h (GKEDeleteClusterOperator.name self)
        (GKEDeleteClusterOperator.project_id self)
        (negb (truthy (GKEDeleteClusterOperator.deferrable self)))])%list.
Proof.
  intros h.
  unfold GKEDeleteClusterOperator.execute. unfold bind at 1.
  rewrite delete_get_hook.
  destruct self as [b pid conn loc api nm imp dfr poll hk]. subst h.
  destruct hk as [h0 |]; run_method;
    match goal with
    | |- context [delete_cluster_answer ?c ?t ?h ?n ?p ?w] =>
        destruct (delete_cluster_answer c t h n p w) as [e | [op |]]
    end; cbn; try destruct (truthy dfr); cbn; now rewrite calls_app.
Qed.

(** C4, as the code has it.  Create and delete submit with
    [wait_to_complete = not deferrable], and the submission is the
    first request of the run.  In synchronous mode no trigger is ever
    registered.  In deferred mode, a submission that hands back an
    operation is followed at once by the deferral to
    [execute_complete], the submission being the only request sent;
    a delete whose submission hands back no operation returns [None]
    without deferring. *)
Theorem submit_waits_or_defers
    {Base : Type} (cp : ControlPlane)
    (creator : GKECreateClusterOperator.t (Base := Base))
    (deleter : GKEDeleteClusterOperator.t (Base := Base))
    (tr : list effect) :
  let ch := default (GKEHookArgs.mk (GKECreateClusterOperator.gcp_conn_id creator)
                       (GKECreateClusterOperator.location creator)
                       (GKECreateClusterOperator.impersonation_chain creator))
              (GKECreateClusterOperator._hook creator) in
  let dh := default (GKEHookArgs.mk (GKEDeleteClusterOperator.gcp_conn_id deleter)
                       (GKEDeleteClusterOperator.location deleter)
                       (GKEDeleteClusterOperator.impersonation_chain deleter))
              (GKEDeleteClusterOperator._hook deleter) in
  let cdefer := truthy (GKECreateClusterOperator.deferrable creator) in
  let ddefer := truthy (GKEDeleteClusterOperator.deferrable deleter) in
  let create := CreateCluster ch (GKECreateClusterOperator.body creator)
                  (GKECreateClusterOperator.project_id creator) (negb cdefer) in
  let delete := DeleteCluster dh (GKEDeleteClusterOperator.name deleter)
                  (GKEDeleteClusterOperator.project_id deleter) (negb ddefer) in
  let created := GKECreateClusterOperator.execute cp creator tr in
  let deleted := GKEDeleteClusterOperator.execute cp deleter tr in
  (* the submission and its wait flag *)
  ((exists rest, calls created.2 = (calls tr ++ create :: rest)%list)
   /\ calls deleted.2 = (calls tr ++ [delete])%list)
  /\
  (* synchronous mode: no trigger *)
  ((cdefer = false -> forall d, created.1.1 <> Raise (TaskDeferred d))
   /\ (ddefer = false -> forall d, deleted.1.1 <> Raise (TaskDeferred d)))
  /\
  (* deferred mode, create *)
  (cdefer = true ->
   forall operation,
     create_cluster_answer cp tr ch (GKECreateClusterOperator.body creator)
       (GKECreateClusterOperator.project_id creator) false = inr operation ->
     created.1.1 =
       Raise (TaskDeferred
                (mk_deferral
                   (OperationTrigger
                      (GKEOperationTrigger.mk (Operation.name operation)
                         (GKECreateClusterOperator.project_id creator)
                         (GKECreateClusterOperator.location creator)
                         (GKECreateClusterOperator.gcp_conn_id creator)
                         (GKECreateClusterOperator.impersonation_chain creator)
                         (GKECreateClusterOperator.poll_interval creator)))
                   "execute_complete" None))
     /\ calls created.2 = (calls tr ++ [create])%list)
  /\
  (* deferred mode, delete *)
  (ddefer = true ->
   forall answer,
     delete_cluster_answer cp tr dh (GKEDeleteClusterOperator.name deleter)
       (GKEDeleteClusterOperator.project_id deleter) false = inr answer ->
     deleted.1.1 =
       match answer with
       | Some operation =>
           Raise (TaskDeferred
                    (mk_deferral
                       (OperationTrigger
                          (GKEOperationTrigger.mk (Operation.name operation)
                             (GKEDeleteClusterOperator.project_id deleter)
                             (GKEDeleteClusterOperator.location deleter)
                             (GKEDeleteClusterOperator.gcp_conn_id deleter)
                             (GKEDeleteClusterOperator.impersonation_chain deleter)
                             (GKEDeleteClusterOperator.poll_interval deleter)))
                       "execute_complete" None))
       | None => Return PNone
       end).
Proof.
  intros ch dh cdefer ddefer create delete created deleted.
  repeat split.
  - apply create_execute_first_request.
  - apply delete_execute_requests.
  - intros Hsync d. now apply create_execute_sync_never_defers.
  - intros Hsync d. now apply delete_execute_sync_never_defers.
  - subst created.
    destruct (create_execute_submitted cp creator tr operation) as [self' Hrun].
    + fold cdefer. now rewrite H.
    + rewrite Hrun. cbn. fold cdefer. now rewrite H.
  - subst created.
    destruct (create_execute_submitted cp creator tr operation) as [self' Hrun].
    + fold cdefer. now rewrite H.
    + rewrite Hrun. cbn. rewrite calls_app. cbn. subst create. fold ch cdefer.
      reflexivity.
  - intros Hdefer answer Hanswer. subst deleted.
    destruct (delete_execute_answered cp deleter tr answer) as [self' Hrun].
    + fold ddefer. now rewrite Hdefer.
    + rewrite Hrun. cbn. fold ddefer. now rewrite Hdefer.
Qed.

Lemma submit_waits_or_defers_witness :
  ((GKECreateClusterOperator.execute cp_ok (sample_create true) []).1.1 =
     Raise (TaskDeferred
              (mk_deferral
                 (OperationTrigger
                    (GKEOperationTrigger.mk "operation-1" (PStr "my-project")
                       (PStr "europe-west1") (PStr "google_cloud_default") PNone (PInt 10)))
                 "execute_complete" None))
   /\ (forall d,
         (GKEDeleteClusterOperator.execute cp_ok (sample_delete false) []).1.1
         <> Raise (TaskDeferred d)))
  /\
  ((forall d,
      (GKECreateClusterOperator.execute cp_ok (sample_create false) []).1.1
      <> Raise (TaskDeferred d))
   /\ (GKEDeleteClusterOperator.execute cp_ok (sample_delete true) []).1.1 =
        Raise (TaskDeferred
                 (mk_deferral
                    (OperationTrigger
                       (GKEOperationTrigger.mk "operation-1" (PStr "my-project")
                          (PStr "europe-west1") (PStr "google_cloud_default") PNone
                          (PInt 10)))
                    "execute_complete" None))).
Proof.
  destruct (submit_waits_or_defers cp_ok (sample_create true) (sample_delete false) [])
    as (_ & (_ & Hsync) & Hcreate & _).
  destruct (submit_waits_or_defers cp_ok (sample_create false) (sample_delete true) [])
    as (_ & (Hsync' & _) & _ & Hdelete).
  repeat apply conj.
  - exact (proj1 (Hcreate eq_refl sample_operation eq_refl)).
  - exact (Hsync eq_refl).
  - exact (Hsync' eq_refl).
  - exact (Hdelete eq_refl (Some sample_operation) eq_refl).
Defined.

(** C4 fails as stated ("in deferred mode it ... suspends"): a
    deferrable delete whose submission hands back no operation
    returns [None] and registers no trigger. *)
Lemma deferred_delete_without_operation_returns :
  truthy (GKEDeleteClusterOperator.deferrable (sample_delete true)) = true
  /\ GKEDeleteClusterOperator.execute cp_nothing_to_delete (sample_delete true) [] =
       (Return PNone,
        GKEDeleteClusterOperator.set_hook
          (GKEHookArgs.mk (PStr "google_cloud_default") (PStr "europe-west1") PNone)
          (sample_delete true),
        [Call (DeleteCluster
                 (GKEHookArgs.mk (PStr "google_cloud_default") (PStr "europe-west1") PNone)
                 (PStr "my-cluster-name") (PStr "my-project") false)]).
Proof. split; reflexivity. Qed.

(** ** Resuming after the trigger *)

Lemma str_in_failed_error (status : pyval) :
  str_in status ["failed"; "error"] = true <->
  status = PStr "failed" \/ status = PStr "error".
Proof.
  unfold str_in. destruct status as [| b | z | s | l | m]; cbn;
    try (split; [discriminate | intros [H | H]; discriminate]).
  rewrite orb_false_r, orb_true_iff, !String.eqb_eq.
  split; (intros [H | H]; [left | right]); congruence.
Qed.

(** C3: the resume entry point of both operators.  On an event whose
    status is "failed" or "error" it raises [AirflowException] with
    the event's message, unchanged, and sends no request.  On any
    other status it fetches the operation named by the event and
    returns its link ([target_link] for create, [self_link] for
    delete); that fetch is its only request. *)
Theorem execute_complete_raises_or_fetches
    {Base : Type} (cp : ControlPlane)
    (creator : GKECreateClusterOperator.t (Base := Base))
    (deleter : GKEDeleteClusterOperator.t (Base := Base))
    (event : gmap string pyval) (status message : pyval) (tr : list effect) :
  let ch := default (GKEHookArgs.mk (GKECreateClusterOperator.gcp_conn_id creator)
                       (GKECreateClusterOperator.location creator)
                       (GKECreateClusterOperator.impersonation_chain creator))
              (GKECreateClusterOperator._hook creator) in
  let dh := default (GKEHookArgs.mk (GKEDeleteClusterOperator.gcp_conn_id deleter)
                       (GKEDeleteClusterOperator.location deleter)
                       (GKEDeleteClusterOperator.impersonation_chain deleter))
              (GKEDeleteClusterOperator._hook deleter) in
  let failure := Log "exception" (PStr "Trigger ended with one of the failed statuses.") in
  event !! "status" = Some status ->
  event !! "message" = Some message ->
  (status = PStr "failed" \/ status = PStr "error" ->
   GKECreateClusterOperator.execute_complete cp event creator tr =
     (Raise (AirflowException message), creator, (tr ++ [failure])%list)
   /\ GKEDeleteClusterOperator.execute_complete cp event deleter tr =
        (Raise (AirflowException message), deleter, (tr ++ [failure])%list))
  /\
  (status <> PStr "failed" -> status <> PStr "error" ->
   forall operation_name,
     event !! "operation_name" = Some operation_name ->
     (exists creator',
        GKECreateClusterOperator.execute_complete cp event creator tr =
          (match get_operation_answer cp (tr ++ [Log "info" message])%list ch operation_name with
           | inr operation => Return (PStr (Operation.target_link operation))
           | inl e => Raise (ApiError e)
           end,
           creator',
           (tr ++ [Log "info" message; Call (GetOperation ch operation_name)])%list))
     /\
     (exists deleter',
        GKEDeleteClusterOperator.execute_complete cp event deleter tr =
          (match get_operation_answer cp (tr ++ [Log "info" message])%list dh operation_name with
           | inr operation => Return (PStr (Operation.self_link operation))
           | inl e => Raise (ApiError e)
           end,
           deleter',
           (tr ++ [Log "info" message; Call (GetOperation dh operation_name)])%list))).
Proof.
  intros ch dh failure Hstatus Hmessage. split.
  - intros Hfailed. apply str_in_failed_error in Hfailed.
    unfold GKECreateClusterOperator.execute_complete,
      GKEDeleteClusterOperator.execute_complete, getitem.
    rewrite Hstatus, Hmessage. run_method. rewrite Hfailed. cbn. now split.
  - intros Hnf Hne operation_name Hname.
    assert (Hother : str_in status ["failed"; "error"] = false).
    { destruct (str_in status ["failed"; "error"]) eqn:E; [| reflexivity].
      apply str_in_failed_error in E. destruct E; contradiction. }
    unfold GKECreateClusterOperator.execute_complete,
      GKEDeleteClusterOperator.execute_complete, getitem.
    rewrite Hstatus, Hmessage, Hname.
    unfold bind at 1. unfold ret at 1. unfold bind at 1. unfold ret at 1.
    unfold bind at 6. unfold ret at 3. unfold bind at 6. unfold ret at 3.
    rewrite Hother.
    split.
    + unfold bind at 1, emit at 1. unfold bind at 1. rewrite create_get_hook. fold ch.
      run_method. rewrite <- !app_assoc. cbn.
      destruct (get_operation_answer cp (tr ++ [Log "info" message]) ch operation_name);
        eauto.
    + unfold bind at 1, emit at 1. unfold bind at 1. rewrite delete_get_hook. fold dh.
      run_method. rewrite <- !app_assoc. cbn.
      destruct (get_operation_answer cp (tr ++ [Log "info" message]) dh operation_name);
        eauto.
Qed.

Lemma execute_complete_raises_or_fetches_witness :
  (GKECreateClusterOperator.execute_complete cp_ok event_failed (sample_create true) []).1.1
    = Raise (AirflowException (PStr "quota exceeded"))
  /\ (GKEDeleteClusterOperator.execute_complete cp_ok event_failed (sample_delete true) []).1.1
    = Raise (AirflowException (PStr "quota exceeded"))
  /\ (GKECreateClusterOperator.execute_complete cp_ok event_success (sample_create true) []).1.1
    = Return (PStr "https://container/clusters/my-cluster-name")
  /\ (GKEDeleteClusterOperator.execute_complete cp_ok event_success (sample_delete true) []).1.1
    = Return (PStr "https://container/operations/operation-1").
Proof.
  destruct (execute_complete_raises_or_fetches cp_ok (sample_create true)
              (sample_delete true) event_failed (PStr "failed") (PStr "quota exceeded")
              [] eq_refl eq_refl) as [Hfailed _].
  destruct (Hfailed (or_introl eq_refl)) as [Hc Hd].
  destruct (execute_complete_raises_or_fetches cp_ok (sample_create true)
              (sample_delete true) event_success (PStr "success")
              (PStr "Operation is successfully ended.")
              [] eq_refl eq_refl) as [_ Hfetch].
  assert (H1 : PStr "success" <> PStr "failed") by discriminate.
  assert (H2 : PStr "success" <> PStr "error") by discriminate.
  destruct (Hfetch H1 H2 (PStr "operation-1") eq_refl) as [[c' Hc'] [d' Hd']].
  rewrite Hc, Hd, Hc', Hd'. repeat split.
Defined.

(** ** Construction of the delete operator *)




(** ** The pod operator: cluster connection info *)

Lemma pod_cluster_hook (self : GKEStartPodOperator.t) tr :
  GKEStartPodOperator.cluster_hook self tr =
    (Return (default (GKEHookArgs.mk (GKEStartPodOperator.gcp_conn_id self)
                        (GKEStartPodOperator.location self)
                        (GKEStartPodOperator.impersonation_chain self))
               (GKEStartPodOperator.cluster_hook_cache self)),
     match GKEStartPodOperator.cluster_hook_cache self with
     | None =>
         GKEStartPodOperator.set_cluster_hook_cache
           (GKEHookArgs.mk (GKEStartPodOperator.gcp_conn_id self)
              (GKEStartPodOperator.location self)
              (GKEStartPodOperator.impersonation_chain self)) self
     | Some _ => self
     end, tr).
Proof.
  unfold GKEStartPodOperator.cluster_hook, bind, get_self.
  now destruct (GKEStartPodOperator.cluster_hook_cache self).
Qed.

Lemma PStr_inj (a b : string) : PStr a = PStr b -> a = b.
Proof. congruence. Qed.

Lemma https_url_inj (a b : string) : "https://" ++ a = "https://" ++ b -> a = b.
Proof. intros H. cbv [String.append] in H. congruence. Qed.

(** [fetch_cluster_info] sends one request, [get_cluster], and fails
    with its error or stores what it answered. *)
Lemma fetch_cluster_info_run (cp : ControlPlane) (self : GKEStartPodOperator.t)
    (tr : list effect) :
  let h := default (GKEHookArgs.mk (GKEStartPodOperator.gcp_conn_id self)
                      (GKEStartPodOperator.location self)
                      (GKEStartPodOperator.impersonation_chain self))
             (GKEStartPodOperator.cluster_hook_cache self) in
  let ask := Call (GetCluster h (GKEStartPodOperator.cluster_name self)
                     (GKEStartPodOperator.project_id self)) in
  let self0 := match GKEStartPodOperator.cluster_hook_cache self with
               | None => GKEStartPodOperator.set_cluster_hook_cache h self
               | Some _ => self
               end in
  GKEStartPodOperator.fetch_cluster_info cp self tr =
    match get_cluster_answer cp tr h (GKEStartPodOperator.cluster_name self)
            (GKEStartPodOperator.project_id self) with
    | inl e => (Raise (ApiError e), self0, (tr ++ [ask])%list)
    | inr cluster =>
        let url := PStr ("https://" ++
                         if truthy (GKEStartPodOperator.use_internal_ip self)
                         then Cluster.private_endpoint cluster
                         else Cluster.endpoint cluster) in
        let cert := PStr (Cluster.cluster_ca_certificate cluster) in
        (Return (url, cert),
         GKEStartPodOperator.set_ssl_ca_cert cert
           (GKEStartPodOperator.set_cluster_url url self0),
         (tr ++ [ask])%list)
    end.
Proof.
  intros h ask self0. subst h ask self0.
  unfold GKEStartPodOperator.fetch_cluster_info. unfold bind at 1.
  rewrite pod_cluster_hook.
  destruct self as [a pid loc cn conn imp internal p cert url chc hc].
  destruct chc as [h0 |]; run_method;
    match goal with
    | |- context [get_cluster_answer ?c ?t ?h ?n ?p] =>
        destruct (get_cluster_answer c t h n p) as [e | cluster]
    end; cbn; try reflexivity; now destruct (truthy internal).
Qed.

(** C5: on the cluster that [get_cluster] returns,
    [fetch_cluster_info] builds the URL from the private endpoint when
    [use_internal_ip] is true and from the public endpoint when it is
    false, and returns it together with the cluster's CA certificate;
    both are stored on the operator, and [get_cluster] is the one
    request sent. *)
Theorem fetch_cluster_info_selects_endpoint
    (cp : ControlPlane) (self : GKEStartPodOperator.t) (tr : list effect)
    (cluster : Cluster.t) :
  let h := default (GKEHookArgs.mk (GKEStartPodOperator.gcp_conn_id self)
                      (GKEStartPodOperator.location self)
                      (GKEStartPodOperator.impersonation_chain self))
             (GKEStartPodOperator.cluster_hook_cache self) in
  let ask := GetCluster h (GKEStartPodOperator.cluster_name self)
               (GKEStartPodOperator.project_id self) in
  let internal := truthy (GKEStartPodOperator.use_internal_ip self) in
  let cert := PStr (Cluster.cluster_ca_certificate cluster) in
  get_cluster_answer cp tr h (GKEStartPodOperator.cluster_name self)
    (GKEStartPodOperator.project_id self) = inr cluster ->
  exists url self',
    GKEStartPodOperator.fetch_cluster_info cp self tr =
      (Return (url, cert), self', (tr ++ [Call ask])%list)
    /\ GKEStartPodOperator._cluster_url self' = url
    /\ GKEStartPodOperator._ssl_ca_cert self' = cert
    /\ (internal = true -> url = PStr ("https://" ++ Cluster.private_endpoint cluster))
    /\ (internal = true ->
        Cluster.private_endpoint cluster <> Cluster.endpoint cluster ->
        url <> PStr ("https://" ++ Cluster.endpoint cluster))
    /\ (internal = false -> url = PStr ("https://" ++ Cluster.endpoint cluster)).
Proof.
  intros h ask internal cert Hanswer.
  pose proof (fetch_cluster_info_run cp self tr) as Hrun. cbv zeta in Hrun.
  fold h in Hrun. rewrite Hanswer in Hrun. fold internal in Hrun.
  eexists _, _. split; [exact Hrun |].
  split; [reflexivity |]. split; [reflexivity |].
  destruct internal; repeat split; try discriminate; try reflexivity.
  intros _ Hdiff Heq. apply Hdiff, https_url_inj, PStr_inj, Heq.
Qed.

Lemma fetch_cluster_info_selects_endpoint_witness :
  (GKEStartPodOperator.fetch_cluster_info cp_ok (sample_pod_operator true) []).1.1
    = Return (PStr "https://10.0.0.2", PStr "LS0tLS1CRUdJTg==")
  /\ (GKEStartPodOperator.fetch_cluster_info cp_ok (sample_pod_operator false) []).1.1
    = Return (PStr "https://203.0.113.10", PStr "LS0tLS1CRUdJTg==")
  /\ (GKEStartPodOperator.fetch_cluster_info cp_ok (sample_pod_operator true) []).1.1
    <> Return (PStr "https://203.0.113.10", PStr "LS0tLS1CRUdJTg==").
Proof.
  destruct (fetch_cluster_info_selects_endpoint cp_ok (sample_pod_operator true) []
              sample_cluster eq_refl) as (u1 & s1 & H1 & _ & _ & Hp & Hn & _).
  destruct (fetch_cluster_info_selects_endpoint cp_ok (sample_pod_operator false) []
              sample_cluster eq_refl) as (u2 & s2 & H2 & _ & _ & _ & _ & Hq).
  assert (Hdiff : Cluster.private_endpoint sample_cluster <> Cluster.endpoint sample_cluster)
    by discriminate.
  specialize (Hn eq_refl Hdiff).
  rewrite H1, H2. cbn [fst]. split; [| split].
  - now rewrite (Hp eq_refl).
  - now rewrite (Hq eq_refl).
  - intros [= Heq]. exact (Hn Heq).
Defined.

(** ** The pod operator: deferral and resume *)

(** [execute_complete] restores the two values it finds in [kwargs]
    and hands over to the parent's [execute_complete]; it sends no
    request of its own. *)
Lemma pod_execute_complete_restores
    (super_execute_complete :
       gmap string pyval -> gmap string pyval -> M GKEStartPodOperator.t pyval)
    (event kwargs : gmap string pyval) (self : GKEStartPodOperator.t)
    (tr : list effect) (url cert : pyval) :
  kwargs !! "cluster_url" = Some url ->
  kwargs !! "ssl_ca_cert" = Some cert ->
  GKEStartPodOperator.execute_complete super_execute_complete event kwargs self tr =
    super_execute_complete event kwargs
      (GKEStartPodOperator.set_ssl_ca_cert cert
         (GKEStartPodOperator.set_cluster_url url self)) tr.
Proof.
  intros Hurl Hcert. unfold GKEStartPodOperator.execute_complete, getitem.
  rewrite Hurl, Hcert. unfold bind, ret, set_self.
  now destruct (super_execute_complete _ _ _ _) as [[[v | e] s] t].
Qed.

(** The first access to [hook] on complete connection info builds
    the session from it, without a request. *)
Lemma pod_hook_builds (self : GKEStartPodOperator.t) (tr : list effect) :
  GKEStartPodOperator.hook_cache self = None ->
  connection_info_complete self ->
  let h := GKEPodHook.mk (GKEStartPodOperator.gcp_conn_id self)
             (GKEStartPodOperator._cluster_url self)
             (GKEStartPodOperator._ssl_ca_cert self)
             (GKEStartPodOperator.impersonation_chain self) in
  GKEStartPodOperator.hook self tr =
    (Return h, GKEStartPodOperator.set_hook_cache h self, tr).
Proof.
  intros Hcache [Hurl Hcert]. unfold GKEStartPodOperator.hook. run_method.
  now rewrite Hcache, Hurl, Hcert.
Qed.

(** C6: when the pod operator defers, the resume keywords it
    registers are the cluster URL and the CA certificate, as plain
    values, and the trigger carries the same two.  On resume, an
    operator given those keywords restores both before it hands over
    to the parent's [execute_complete], sending no request; its
    session is then built from the restored values, again without a
    request. *)
Theorem deferral_carries_connection_info
    (utcnow : Z) (self : GKEStartPodOperator.t) (p : V1Pod.t) (tr : list effect) :
  let url := GKEStartPodOperator._cluster_url self in
  let cert := GKEStartPodOperator._ssl_ca_cert self in
  let kwargs : gmap string pyval := <["cluster_url" := url]> (<["ssl_ca_cert" := cert]> ∅) in
  GKEStartPodOperator.pod self = Some p ->
  (exists t,
     GKEStartPodOperator.invoke_defer_method utcnow self tr =
       (Raise (TaskDeferred (mk_deferral (StartPodTrigger t) "execute_complete" (Some kwargs))),
        self, tr)
     /\ GKEStartPodTrigger.cluster_url t = url
     /\ GKEStartPodTrigger.ssl_ca_cert t = cert)
  /\ kwargs !! "cluster_url" = Some url
  /\ kwargs !! "ssl_ca_cert" = Some cert
  /\ forall (super_execute_complete :
               gmap string pyval -> gmap string pyval -> M GKEStartPodOperator.t pyval)
       (event : gmap string pyval) (resumed : GKEStartPodOperator.t) (tr0 : list effect),
       let restored := GKEStartPodOperator.set_ssl_ca_cert cert
                         (GKEStartPodOperator.set_cluster_url url resumed) in
       GKEStartPodOperator.execute_complete super_execute_complete event kwargs resumed tr0
         = super_execute_complete event kwargs restored tr0
       /\ GKEStartPodOperator._cluster_url restored = url
       /\ GKEStartPodOperator._ssl_ca_cert restored = cert
       /\ (connection_info_complete self ->
           GKEStartPodOperator.hook_cache resumed = None ->
           exists restored',
             GKEStartPodOperator.hook restored tr0 =
               (Return (GKEPodHook.mk (GKEStartPodOperator.gcp_conn_id resumed) url cert
                          (GKEStartPodOperator.impersonation_chain resumed)),
                restored', tr0)).
Proof.
  intros url cert kwargs Hpod.
  assert (Hurl : kwargs !! "cluster_url" = Some url) by reflexivity.
  assert (Hcert : kwargs !! "ssl_ca_cert" = Some cert) by reflexivity.
  split; [| split; [exact Hurl | split; [exact Hcert |]]].
  - unfold GKEStartPodOperator.invoke_defer_method. run_method. rewrite Hpod.
    eexists. split; [reflexivity |]. now split.
  - intros super_execute_complete event resumed tr0 restored.
    split; [now apply pod_execute_complete_restores |].
    split; [reflexivity |]. split; [reflexivity |].
    intros Hcomplete Hcache.
    eexists. apply (pod_hook_builds restored tr0); [exact Hcache | exact Hcomplete].
Qed.

Lemma deferral_carries_connection_info_witness :
  let kwargs : gmap string pyval :=
    <["cluster_url" := PStr "https://10.0.0.2"]>
      (<["ssl_ca_cert" := PStr "LS0tLS1CRUdJTg=="]> ∅) in
  (exists t,
     GKEStartPodOperator.invoke_defer_method 0 sample_pod_operator_running [] =
       (Raise (TaskDeferred (mk_deferral (StartPodTrigger t) "execute_complete" (Some kwargs))),
        sample_pod_operator_running, [])
     /\ GKEStartPodTrigger.cluster_url t = PStr "https://10.0.0.2"
     /\ GKEStartPodTrigger.ssl_ca_cert t = PStr "LS0tLS1CRUdJTg==")
  /\ (exists restored',
        GKEStartPodOperator.hook
          (GKEStartPodOperator.set_ssl_ca_cert (PStr "LS0tLS1CRUdJTg==")
             (GKEStartPodOperator.set_cluster_url (PStr "https://10.0.0.2")
                (sample_pod_operator true))) [] =
          (Return (GKEPodHook.mk (PStr "google_cloud_default") (PStr "https://10.0.0.2")
                     (PStr "LS0tLS1CRUdJTg==") PNone),
           restored', [])).
Proof.
  destruct (deferral_carries_connection_info 0 sample_pod_operator_running
              (V1Pod.mk "pod-1" "default") [] eq_refl) as (Hdefer & _ & _ & Hresume).
  split; [exact Hdefer |].
  destruct (Hresume (fun _ _ => ret PNone) ∅ (sample_pod_operator true) [])
    as (_ & _ & _ & Hhook).
  exact (Hhook (conj eq_refl eq_refl) eq_refl).
Defined.

(** ** The pod operator: the session and its connection info *)

(** C10: the session is never built from incomplete connection info.
    (1) An access to [hook] while the cluster URL or the CA
    certificate is None builds nothing: it raises [AttributeError],
    unless a session built earlier is cached, which is then returned
    as it is.
    (2) A session that [hook] returns is complete, and so is the one
    the cache holds afterwards.  (3) [execute] reaches the parent's
    [execute] only after [fetch_cluster_info] has set both values.
    (4) [execute_complete] reaches the parent's [execute_complete]
    only after both values were restored from [kwargs].  (5) A newly
    constructed operator holds no session. *)
Theorem session_needs_complete_connection_info :
  (forall (self : GKEStartPodOperator.t) (tr : list effect),
     is_None (GKEStartPodOperator._cluster_url self) = true
     \/ is_None (GKEStartPodOperator._ssl_ca_cert self) = true ->
     GKEStartPodOperator.hook self tr =
       (match GKEStartPodOperator.hook_cache self with
        | None =>
            Raise (AttributeError "Cluster url and ssl_ca_cert should be defined before using self.hook method. Try to use self.get_kube_creds method")
        | Some h => Return h
        end, self, tr))
  /\
  (forall (self self' : GKEStartPodOperator.t) (tr tr' : list effect) (h : GKEPodHook.t),
     cached_session_complete self ->
     GKEStartPodOperator.hook self tr = (Return h, self', tr') ->
     session_complete h /\ cached_session_complete self' /\ tr' = tr
     /\ (GKEStartPodOperator.hook_cache self = None ->
         connection_info_complete self
         /\ h = GKEPodHook.mk (GKEStartPodOperator.gcp_conn_id self)
                  (GKEStartPodOperator._cluster_url self)
                  (GKEStartPodOperator._ssl_ca_cert self)
                  (GKEStartPodOperator.impersonation_chain self)))
  /\
  (forall (cp : ControlPlane) (super_execute : M GKEStartPodOperator.t pyval)
          (self : GKEStartPodOperator.t) (tr : list effect),
     (exists e self1 tr1,
        GKEStartPodOperator.fetch_cluster_info cp self tr = (Raise e, self1, tr1)
        /\ GKEStartPodOperator.execute cp super_execute self tr = (Raise e, self1, tr1))
     \/
     (exists self1 tr1,
        connection_info_complete self1
        /\ GKEStartPodOperator.hook_cache self1 = GKEStartPodOperator.hook_cache self
        /\ GKEStartPodOperator.execute cp super_execute self tr = super_execute self1 tr1))
  /\
  (forall (super_execute_complete :
             gmap string pyval -> gmap string pyval -> M GKEStartPodOperator.t pyval)
          (event kwargs : gmap string pyval) (self : GKEStartPodOperator.t)
          (tr : list effect),
     (exists key self1,
        (kwargs !! "cluster_url" = None \/ kwargs !! "ssl_ca_cert" = None)
        /\ GKEStartPodOperator.execute_complete super_execute_complete event kwargs self tr
           = (Raise (KeyError key), self1, tr))
     \/
     (exists self1,
        kwargs !! "cluster_url" = Some (GKEStartPodOperator._cluster_url self1)
        /\ kwargs !! "ssl_ca_cert" = Some (GKEStartPodOperator._ssl_ca_cert self1)
        /\ GKEStartPodOperator.hook_cache self1 = GKEStartPodOperator.hook_cache self
        /\ GKEStartPodOperator.execute_complete super_execute_complete event kwargs self tr
           = super_execute_complete event kwargs self1 tr))
  /\
  (forall (super_init : gmap string pyval -> exn + PodAttrs.t)
          (location cluster_name use_internal_ip project_id gcp_conn_id
           impersonation_chain regional on_finish_action is_delete_operator_pod : pyval)
          (kwargs : gmap string pyval) (tr tr' : list effect)
          (self : GKEStartPodOperator.t),
     GKEStartPodOperator.__init__ super_init location cluster_name use_internal_ip
       project_id gcp_conn_id impersonation_chain regional on_finish_action
       is_delete_operator_pod kwargs tr = (Return self, tr') ->
     GKEStartPodOperator.hook_cache self = None /\ cached_session_complete self).
Proof.
  repeat apply conj.
  - intros self tr Hnone. unfold GKEStartPodOperator.hook. run_method.
    destruct (GKEStartPodOperator.hook_cache self); [reflexivity |].
    destruct Hnone as [H | H]; rewrite H; [| rewrite orb_true_r]; reflexivity.
  - intros self self' tr tr' h Hinv Hrun.
    unfold GKEStartPodOperator.hook in Hrun. revert Hrun. run_method.
    destruct (GKEStartPodOperator.hook_cache self) as [h0 |] eqn:Hcache.
    + intros [= <- <- <-].
      split; [exact (Hinv _ Hcache) |]. split; [exact Hinv |].
      split; [reflexivity | discriminate].
    + destruct (is_None (GKEStartPodOperator._cluster_url self)) eqn:Hurl;
        [discriminate |].
      destruct (is_None (GKEStartPodOperator._ssl_ca_cert self)) eqn:Hcert;
        [discriminate |].
      cbn. intros [= <- <- <-].
      split; [now split |]. split.
      { intros h' Hh'. cbn in Hh'. injection Hh' as <-. now split. }
      split; [reflexivity |]. intros _. split; [now split | reflexivity].
  - intros cp super_execute self tr.
    unfold GKEStartPodOperator.execute. unfold bind.
    rewrite fetch_cluster_info_run. cbv zeta.
    destruct (get_cluster_answer _ _ _ _ _) as [e | cluster].
    + left. eexists _, _, _. split; reflexivity.
    + right. eexists _, _. refine (conj _ (conj _ eq_refl)).
      * now split.
      * now destruct (GKEStartPodOperator.cluster_hook_cache self).
  - intros super_execute_complete event kwargs self tr.
    destruct (kwargs !! "cluster_url") as [url |] eqn:Hurl.
    + destruct (kwargs !! "ssl_ca_cert") as [cert |] eqn:Hcert.
      * right. eexists.
        rewrite (pod_execute_complete_restores _ _ _ _ _ url cert Hurl Hcert).
        refine (conj _ (conj _ (conj _ eq_refl))); reflexivity.
      * left. eexists _, _. split; [now right |].
        unfold GKEStartPodOperator.execute_complete, getitem.
        rewrite Hurl, Hcert. reflexivity.
    + left. eexists _, _. split; [now left |].
      unfold GKEStartPodOperator.execute_complete, getitem.
      rewrite Hurl. reflexivity.
  - intros super_init location cluster_name use_internal_ip project_id gcp_conn_id
      impersonation_chain regional on_finish_action is_delete_operator_pod kwargs
      tr tr' self H.
    unfold GKEStartPodOperator.__init__ in H.
    destruct (bind _ _ kwargs tr) as [[[u | e] kw] t]; [| discriminate].
    destruct (super_init kw) as [e | a]; [discriminate |].
    destruct (is_None gcp_conn_id); [discriminate |].
    cbn in H. destruct (truthy (PodAttrs.config_file a)); [discriminate |].
    injection H as <- <-. split; [reflexivity |]. intros h Hh. discriminate.
Qed.

Lemma session_needs_complete_connection_info_witness :
  GKEStartPodOperator.hook (sample_pod_operator true) [] =
    (Raise (AttributeError "Cluster url and ssl_ca_cert should be defined before using self.hook method. Try to use self.get_kube_creds method"),
     sample_pod_operator true, [])
  /\ session_complete
       (GKEPodHook.mk (PStr "google_cloud_default") (PStr "https://10.0.0.2")
          (PStr "LS0tLS1CRUdJTg==") PNone)
  /\ GKEStartPodOperator.hook_cache
       (GKEStartPodOperator.mk
          (PodAttrs.mk PNone (PBool true) (PInt 120) PNone (PInt 2) PNone (PStr "base")
             (PStr "keep_pod"))
          (PStr "my-project") (PStr "europe-west1") (PStr "my-cluster-name")
          (PStr "google_cloud_default") PNone (PBool true) None PNone PNone None None)
     = None.
Proof.
  destruct session_needs_complete_connection_info as (Hraises & Hbuilt & _ & _ & Hnew).
  split; [| split].
  - apply (Hraises (sample_pod_operator true) []). left. reflexivity.
  - assert (Hinv : cached_session_complete sample_pod_operator_running)
      by (intros h Hh; discriminate Hh).
    exact (proj1 (Hbuilt sample_pod_operator_running _ [] _ _ Hinv eq_refl)).
  - refine (proj1 (Hnew pod_parent (PStr "europe-west1") (PStr "my-cluster-name")
                     (PBool true) (PStr "my-project") (PStr "google_cloud_default")
                     PNone PNone (PStr "keep_pod") PNone ∅ [] [] _ _)).
    reflexivity.
Defined.

(** ** The pod operator: construction *)

(** The first steps of [__init__], up to the call of the parent's
    constructor: they only warn, and they change [kwargs] at
    ["on_finish_action"] alone. *)
Lemma pod_init_keywords
    (on_finish_action is_delete_operator_pod regional : pyval)
    (kwargs : gmap string pyval) (tr : list effect) :
  exists tr',
    calls tr' = calls tr /\
    (bind (GKEStartPodOperator.resolve_on_finish_action on_finish_action
             is_delete_operator_pod)
       (fun _ =>
          if negb (is_None regional) then
            emit (Warn "You have set parameter regional in class GKEStartPodOperator. In current implementation of the operator the parameter is not used and will be deleted in future.")
          else ret tt)) kwargs tr
    = match (if negb (is_None is_delete_operator_pod) then
               inr (if truthy is_delete_operator_pod
                    then OnFinishAction.DELETE_POD else OnFinishAction.KEEP_POD)
             else if negb (is_None on_finish_action) then
               OnFinishAction.of_value on_finish_action
             else inr OnFinishAction.KEEP_POD)
      with
      | inr a => (Return tt, <["on_finish_action" := OnFinishAction.to_py a]> kwargs, tr')
      | inl e => (Raise e, kwargs, tr')
      end.
Proof.
  unfold GKEStartPodOperator.resolve_on_finish_action.
  destruct (is_None is_delete_operator_pod); cbn [negb].
  - destruct (is_None on_finish_action); cbn [negb].
    + destruct (is_None regional); run_method; eexists; (split; [| reflexivity]);
        rewrite ?calls_app; cbn; now rewrite ?app_nil_r.
    + destruct (OnFinishAction.of_value on_finish_action) as [e | a];
        destruct (is_None regional); run_method; eexists; (split; [| reflexivity]);
        rewrite ?calls_app; cbn; now rewrite ?app_nil_r.
  - destruct (is_None regional); run_method; eexists; (split; [| reflexivity]);
      rewrite ?calls_app; cbn; now rewrite ?app_nil_r.
Qed.

(** C7: a construction of [GKEStartPodOperator] that is given a
    [config_file] never yields an operator and sends no request.  The
    parent's constructor is assumed to keep the [config_file] keyword
    as the attribute of that name.  The error raised is the
    operator's [AirflowException] about [config_file], unless an
    earlier step of the constructor has failed already: the conversion
    of [on_finish_action], the parent's constructor, or the check of
    [gcp_conn_id]. *)
Theorem start_pod_rejects_config_file
    (super_init : gmap string pyval -> exn + PodAttrs.t)
    (location cluster_name use_internal_ip project_id gcp_conn_id
     impersonation_chain regional on_finish_action is_delete_operator_pod : pyval)
    (kwargs : gmap string pyval) (tr : list effect) :
  (forall kw a, super_init kw = inr a ->
     PodAttrs.config_file a = default PNone (kw !! "config_file")) ->
  truthy (default PNone (kwargs !! "config_file")) = true ->
  exists e tr',
    GKEStartPodOperator.__init__ super_init location cluster_name use_internal_ip
      project_id gcp_conn_id impersonation_chain regional on_finish_action
      is_delete_operator_pod kwargs tr = (Raise e, tr')
    /\ calls tr' = calls tr
    /\ (e = AirflowException
              (PStr "config_file is not an allowed parameter for the GKEStartPodOperator.")
        \/ (is_None gcp_conn_id = true /\
            e = AirflowException
                  (PStr "The gcp_conn_id parameter has become required. If you want to use Application Default Credentials (ADC) strategy for authorization, create an empty connection called `google_cloud_default`."))
        \/ (exists kw, super_init kw = inl e)
        \/ (is_None is_delete_operator_pod = true
            /\ OnFinishAction.of_value on_finish_action = inl e)).
Proof.
  intros Hkeeps Hgiven. unfold GKEStartPodOperator.__init__.
  destruct (pod_init_keywords on_finish_action is_delete_operator_pod regional kwargs tr)
    as (tr' & Hcalls & ->).
  destruct (is_None is_delete_operator_pod) eqn:Ealias; cbn [negb].
  - destruct (is_None on_finish_action) eqn:Enew; cbn [negb].
    + destruct (super_init _) as [e | a] eqn:Esuper.
      * exists e, tr'. repeat split; [exact Hcalls |]. right. right. left. eauto.
      * destruct (is_None gcp_conn_id) eqn:Econn.
        { eexists _, tr'. repeat split; [exact Hcalls |]. right. left. now split. }
        cbn. rewrite (Hkeeps _ _ Esuper), lookup_insert_ne, Hgiven by discriminate.
        eexists _, tr'. repeat split; [exact Hcalls |]. now left.
    + destruct (OnFinishAction.of_value on_finish_action) as [e0 | act] eqn:Eact.
      * exists e0, tr'. repeat split; [exact Hcalls |]. right. right. right. now split.
      * destruct (super_init _) as [e | a] eqn:Esuper.
        { exists e, tr'. repeat split; [exact Hcalls |]. right. right. left. eauto. }
        destruct (is_None gcp_conn_id) eqn:Econn.
        { eexists _, tr'. repeat split; [exact Hcalls |]. right. left. now split. }
        cbn. rewrite (Hkeeps _ _ Esuper), lookup_insert_ne, Hgiven by discriminate.
        eexists _, tr'. repeat split; [exact Hcalls |]. now left.
  - destruct (super_init _) as [e | a] eqn:Esuper.
    + exists e, tr'. repeat split; [exact Hcalls |]. right. right. left. eauto.
    + destruct (is_None gcp_conn_id) eqn:Econn.
      { eexists _, tr'. repeat split; [exact Hcalls |]. right. left. now split. }
      cbn. rewrite (Hkeeps _ _ Esuper), lookup_insert_ne, Hgiven by discriminate.
      eexists _, tr'. repeat split; [exact Hcalls |]. now left.
Qed.

Lemma pod_parent_keeps_config_file (kw : gmap string pyval) (a : PodAttrs.t) :
  pod_parent kw = inr a -> PodAttrs.config_file a = default PNone (kw !! "config_file").
Proof. intros [= <-]. reflexivity. Qed.

Lemma start_pod_rejects_config_file_witness :
  exists e tr',
    GKEStartPodOperator.__init__ pod_parent (PStr "europe-west1")
      (PStr "my-cluster-name") (PBool false) (PStr "my-project")
      (PStr "google_cloud_default") PNone PNone (PStr "delete_pod") PNone
      (<["config_file" := PStr "/path/to/kube/config"]> (<["task_id" := PStr "pod"]> ∅))
      [] = (Raise e, tr')
    /\ calls tr' = calls [].
Proof.
  assert (Hgiven : truthy (default PNone
                    ((<["config_file" := PStr "/path/to/kube/config"]>
                        (<["task_id" := PStr "pod"]> ∅) : gmap string pyval)
                     !! "config_file")) = true) by reflexivity.
  destruct (start_pod_rejects_config_file pod_parent (PStr "europe-west1")
              (PStr "my-cluster-name") (PBool false) (PStr "my-project")
              (PStr "google_cloud_default") PNone PNone (PStr "delete_pod") PNone
              (<["config_file" := PStr "/path/to/kube/config"]>
                 (<["task_id" := PStr "pod"]> ∅))
              [] pod_parent_keeps_config_file Hgiven) as (e & tr' & Hrun & Hcalls & _).
  now exists e, tr'.
Defined.

(** C8, as the code has it.  The constructor folds the deprecated
    [is_delete_operator_pod] and the new [on_finish_action] into the
    one keyword ["on_finish_action"] that it passes to the parent's
    constructor: a true alias gives delete-pod, a false alias gives
    keep-pod, neither parameter gives keep-pod, and the new parameter
    alone gives the action it names.  A construction that supplies
    the alias together with the new parameter is not rejected: the
    alias decides and the new parameter is ignored. *)
Theorem on_finish_action_resolved_at_construction
    (super_init : gmap string pyval -> exn + PodAttrs.t)
    (location cluster_name use_internal_ip project_id gcp_conn_id
     impersonation_chain regional on_finish_action is_delete_operator_pod : pyval)
    (kwargs : gmap string pyval) (tr : list effect) :
  let construct new_parameter :=
    GKEStartPodOperator.__init__ super_init location cluster_name use_internal_ip
      project_id gcp_conn_id impersonation_chain regional new_parameter
      is_delete_operator_pod kwargs tr in
  (forall self tr',
     construct on_finish_action = (Return self, tr') ->
     exists action,
       super_init (<["on_finish_action" := OnFinishAction.to_py action]> kwargs)
         = inr (GKEStartPodOperator.attrs self)
       /\ (is_None is_delete_operator_pod = false ->
           action = if truthy is_delete_operator_pod
                    then OnFinishAction.DELETE_POD else OnFinishAction.KEEP_POD)
       /\ (is_None is_delete_operator_pod = true ->
           is_None on_finish_action = true -> action = OnFinishAction.KEEP_POD)
       /\ (is_None is_delete_operator_pod = true ->
           is_None on_finish_action = false ->
           OnFinishAction.of_value on_finish_action = inr action))
  /\
  (is_None is_delete_operator_pod = false ->
   forall other, construct on_finish_action = construct other).
Proof.
  intros construct. subst construct. cbv beta. split.
  - intros self tr'. unfold GKEStartPodOperator.__init__.
    destruct (pod_init_keywords on_finish_action is_delete_operator_pod regional kwargs tr)
      as (tr1 & Hcalls & ->).
    destruct (is_None is_delete_operator_pod) eqn:Ealias; cbn [negb].
    + destruct (is_None on_finish_action) eqn:Enew; cbn [negb].
      * destruct (super_init _) as [e | a] eqn:Esuper; [discriminate |].
        destruct (is_None gcp_conn_id); [discriminate |].
        cbn. destruct (truthy (PodAttrs.config_file a)); [discriminate |].
        intros [= <- <-]. exists OnFinishAction.KEEP_POD.
        repeat split; try discriminate. exact Esuper.
      * destruct (OnFinishAction.of_value on_finish_action) as [e0 | act] eqn:Eact;
          [discriminate |].
        destruct (super_init _) as [e | a] eqn:Esuper; [discriminate |].
        destruct (is_None gcp_conn_id); [discriminate |].
        cbn. destruct (truthy (PodAttrs.config_file a)); [discriminate |].
        intros [= <- <-]. exists act.
        repeat split; try discriminate. exact Esuper.
    + destruct (super_init _) as [e | a] eqn:Esuper; [discriminate |].
      destruct (is_None gcp_conn_id); [discriminate |].
      cbn. destruct (truthy (PodAttrs.config_file a)); [discriminate |].
      intros [= <- <-]. eexists.
      repeat split; try discriminate. exact Esuper.
  - intros Halias other. unfold GKEStartPodOperator.__init__,
      GKEStartPodOperator.resolve_on_finish_action.
    now rewrite Halias.
Qed.

Lemma on_finish_action_resolved_at_construction_witness :
  (exists action attrs,
     pod_parent (<["on_finish_action" := OnFinishAction.to_py action]> ∅) = inr attrs
     /\ action = OnFinishAction.DELETE_POD)
  /\
  (exists action attrs,
     pod_parent (<["on_finish_action" := OnFinishAction.to_py action]> ∅) = inr attrs
     /\ action = OnFinishAction.KEEP_POD)
  /\
  (exists action attrs,
     pod_parent (<["on_finish_action" := OnFinishAction.to_py action]> ∅) = inr attrs
     /\ OnFinishAction.of_value (PStr "delete_succeeded_pod") = inr action)
  /\
  (forall other,
     GKEStartPodOperator.__init__ pod_parent (PStr "europe-west1")
       (PStr "my-cluster-name") (PBool false) (PStr "my-project")
       (PStr "google_cloud_default") PNone PNone (PStr "keep_pod") (PBool true) ∅ []
     = GKEStartPodOperator.__init__ pod_parent (PStr "europe-west1")
         (PStr "my-cluster-name") (PBool false) (PStr "my-project")
         (PStr "google_cloud_default") PNone PNone other (PBool true) ∅ []).
Proof.
  destruct (on_finish_action_resolved_at_construction pod_parent
              (PStr "europe-west1") (PStr "my-cluster-name") (PBool false)
              (PStr "my-project") (PStr "google_cloud_default") PNone PNone
              (PStr "keep_pod") (PBool true) ∅ []) as [Hboth Hignored].
  destruct (on_finish_action_resolved_at_construction pod_parent
              (PStr "europe-west1") (PStr "my-cluster-name") (PBool false)
              (PStr "my-project") (PStr "google_cloud_default") PNone PNone
              PNone PNone ∅ []) as [Hneither _].
  destruct (on_finish_action_resolved_at_construction pod_parent
              (PStr "europe-west1") (PStr "my-cluster-name") (PBool false)
              (PStr "my-project") (PStr "google_cloud_default") PNone PNone
              (PStr "delete_succeeded_pod") PNone ∅ []) as [Hnew _].
  repeat apply conj.
  - edestruct Hboth as (action & Hsuper & Halias & _); [reflexivity |].
    exists action. eexists. split; [exact Hsuper | exact (Halias eq_refl)].
  - edestruct Hneither as (action & Hsuper & _ & Hdefault & _); [reflexivity |].
    exists action. eexists. split; [exact Hsuper | exact (Hdefault eq_refl eq_refl)].
  - edestruct Hnew as (action & Hsuper & _ & _ & Hgiven); [reflexivity |].
    exists action. eexists. split; [exact Hsuper | exact (Hgiven eq_refl eq_refl)].
  - exact (Hignored eq_refl).
Defined.

(** C8 fails as stated ("an ambiguous combination ... is rejected"):
    a construction with [is_delete_operator_pod=True] and
    [on_finish_action="keep_pod"] yields an operator, whose finish
    action is delete-pod. *)
Lemma ambiguous_on_finish_action_is_accepted :
  exists self tr',
    GKEStartPodOperator.__init__ pod_parent (PStr "europe-west1")
      (PStr "my-cluster-name") (PBool false) (PStr "my-project")
      (PStr "google_cloud_default") PNone PNone (PStr "keep_pod") (PBool true)
      (<["task_id" := PStr "pod"]> ∅) [] = (Return self, tr')
    /\ PodAttrs.on_finish_action (GKEStartPodOperator.attrs self) = PStr "delete_pod".
Proof. eexists _, _. split; reflexivity. Qed.

(** * Further properties of the operators *)

(** ** Cluster creation: what validation logs *)

(** A loop that emits for the elements that pass a test appends
    exactly their effects, in order. *)
Lemma for_each_emit_if {S A : Type} (c : A -> bool) (g : A -> effect)
    (l : list A) (self : S) (tr : list effect) :
  for_each (fun x => if c x then emit (g x) else ret tt) l self tr =
    (Return tt, self, (tr ++ map g (List.filter c l))%list).
Proof.
  revert tr. induction l as [| x l IH]; intros tr; cbn [for_each List.filter map].
  - unfold ret. now rewrite app_nil_r.
  - unfold bind. destruct (c x); cbn.
    + rewrite IH. now rewrite <- app_assoc.
    + apply IH.
Qed.

Lemma for_each_emit_all {S A : Type} (g : A -> effect)
    (l : list A) (self : S) (tr : list effect) :
  for_each (fun x => emit (g x)) l self tr = (Return tt, self, (tr ++ map g l)%list).
Proof.
  revert tr. induction l as [| x l IH]; intros tr; cbn [for_each map].
  - unfold ret. now rewrite app_nil_r.
  - unfold bind. cbn. rewrite IH. now rewrite <- app_assoc.
Qed.

Lemma for_each_ext {S A : Type} (f g : A -> M S unit) (l : list A)
    (self : S) (tr : list effect) :
  (forall x self tr, f x self tr = g x self tr) ->
  for_each f l self tr = for_each g l self tr.
Proof.
  intros Hfg. revert self tr. induction l as [| x l IH]; intros self tr;
    cbn [for_each]; [reflexivity |].
  unfold bind. rewrite Hfg. destruct (g x self tr) as [[[u | e] s] t]; auto.
Qed.

(** The whole run of [_validate_input]: one warning per deprecated
    field in use, then one error entry per message, then the
    verdict. *)
Lemma validate_input_trace {Base : Type}
    (self : GKECreateClusterOperator.t (Base := Base)) (tr : list effect) :
  GKECreateClusterOperator._validate_input self tr =
    (match GKECreateClusterOperator.error_messages self with
     | [] => Return tt
     | _ :: _ => Raise (AirflowException (PStr "Operator has incorrect or missing input."))
     end,
     self,
     (tr
      ++ map (fun p : string * string =>
                Warn ("The body field '" ++ p.1 ++ "' is deprecated. Use '" ++ p.2
                      ++ "' instead."))
           (List.filter (fun p : string * string =>
                           is_set (GKECreateClusterOperator.body self) p.1)
              GKECreateClusterOperator.deprecated_body_fields_with_replacement)
      ++ map (fun m => Log "error" (PStr m))
           (GKECreateClusterOperator.error_messages self))%list).
Proof.
  unfold GKECreateClusterOperator._validate_input,
    GKECreateClusterOperator._alert_deprecated_body_fields.
  unfold bind at 1. unfold bind at 1. unfold get_self at 1.
  rewrite (for_each_ext _
             (fun p : string * string =>
                if is_set (GKECreateClusterOperator.body self) p.1
                then emit (Warn ("The body field '" ++ p.1 ++ "' is deprecated. Use '"
                                 ++ p.2 ++ "' instead."))
                else ret tt))
    by (intros [f r] s t; reflexivity).
  rewrite (for_each_emit_if
             (fun p : string * string => is_set (GKECreateClusterOperator.body self) p.1)
             (fun p : string * string =>
                Warn ("The body field '" ++ p.1 ++ "' is deprecated. Use '" ++ p.2
                      ++ "' instead."))).
  unfold bind at 1, get_self at 1. unfold bind at 1.
  rewrite (for_each_emit_all (fun m => Log "error" (PStr m))).
  rewrite <- app_assoc.
  now destruct (GKECreateClusterOperator.error_messages self).
Qed.

(** X1: the constructor of the create operator accepts exactly the
    bodies with a name and exactly one node group (given that the
    parent's constructor accepts the other keywords), and the
    operator it returns holds the arguments as passed, with no hook
    yet. *)
Theorem create_init_accepts_exactly_valid_bodies
    {Base : Type} (super_init : gmap string pyval -> exn + Base)
    (location : pyval) (body : body_t)
    (project_id gcp_conn_id api_version impersonation_chain poll_interval
     deferrable : pyval)
    (kwargs : gmap string pyval) (tr : list effect) :
  let built :=
    GKECreateClusterOperator.__init__ super_init location body project_id
      gcp_conn_id api_version impersonation_chain poll_interval deferrable
      kwargs tr in
  let legacy := is_set body "node_config" || is_set body "initial_node_count" in
  let pools := is_set body "node_pools" in
  ((exists self tr', built = (Return self, tr')) <->
   (exists b, super_init kwargs = inr b)
   /\ is_set body "name" = true /\ xorb legacy pools = true)
  /\
  (forall self tr', built = (Return self, tr') ->
   exists b,
     super_init kwargs = inr b
     /\ self = GKECreateClusterOperator.mk b project_id gcp_conn_id location
                 api_version body impersonation_chain poll_interval deferrable None).
Proof.
  intros built legacy pools. subst built.
  unfold GKECreateClusterOperator.__init__.
  destruct (super_init kwargs) as [e | b].
  { split; [split |].
    - intros (self & tr' & H). discriminate.
    - intros [[b Hb] _]. discriminate.
    - intros self tr' H. discriminate. }
  rewrite validate_input_trace.
  pose proof (error_messages_nil
                (GKECreateClusterOperator.mk b project_id gcp_conn_id location
                   api_version body impersonation_chain poll_interval deferrable None))
    as Hnil.
  cbn [GKECreateClusterOperator.body] in Hnil. fold legacy pools in Hnil.
  destruct (GKECreateClusterOperator.error_messages _) as [| m l].
  - split; [split |].
    + intros _. split; [eauto |]. now apply Hnil.
    + intros _. eauto.
    + intros self tr' [= <- <-]. eauto.
  - split; [split |].
    + intros (self & tr' & H). discriminate.
    + intros (_ & Hname & Hx). destruct Hnil as [_ Hnil].
      discriminate (Hnil (conj Hname Hx)).
    + intros self tr' H. discriminate.
Qed.

Lemma create_init_accepts_exactly_valid_bodies_witness :
  (exists self tr',
     GKECreateClusterOperator.__init__ accept_all (PStr "europe-west1") body_pools
       (PStr "my-project") (PStr "google_cloud_default") (PStr "v2") PNone
       (PInt 10) (PBool false) ∅ [] = (Return self, tr'))
  /\ ~ (exists self tr',
          GKECreateClusterOperator.__init__ accept_all (PStr "europe-west1") body_both
            (PStr "my-project") (PStr "google_cloud_default") (PStr "v2") PNone
            (PInt 10) (PBool false) ∅ [] = (Return self, tr')).
Proof.
  split.
  - apply (proj1 (create_init_accepts_exactly_valid_bodies accept_all
                    (PStr "europe-west1") body_pools (PStr "my-project")
                    (PStr "google_cloud_default") (PStr "v2") PNone (PInt 10)
                    (PBool false) ∅ [])).
    split; [exists tt; reflexivity | split; reflexivity].
  - intros H.
    apply (proj1 (create_init_accepts_exactly_valid_bodies accept_all
                    (PStr "europe-west1") body_both (PStr "my-project")
                    (PStr "google_cloud_default") (PStr "v2") PNone (PInt 10)
                    (PBool false) ∅ [])) in H.
    destruct H as (_ & _ & H). discriminate H.
Defined.

(** X2: an accepted body leaves the trace untouched exactly when it
    uses none of the four deprecated fields, and it then defines its
    nodes through [node_pools]; any accepted body that uses
    [initial_node_count] or [node_config] draws a deprecation
    warning. *)
Theorem create_init_warns_on_deprecated_fields
    {Base : Type} (super_init : gmap string pyval -> exn + Base)
    (location : pyval) (body : body_t)
    (project_id gcp_conn_id api_version impersonation_chain poll_interval
     deferrable : pyval)
    (kwargs : gmap string pyval) (tr tr' : list effect)
    (self : GKECreateClusterOperator.t (Base := Base)) :
  GKECreateClusterOperator.__init__ super_init location body project_id
    gcp_conn_id api_version impersonation_chain poll_interval deferrable
    kwargs tr = (Return self, tr') ->
  (tr' = tr <->
   is_set body "initial_node_count" = false /\ is_set body "node_config" = false
   /\ is_set body "zone" = false /\ is_set body "instance_group_urls" = false)
  /\ (tr' = tr -> is_set body "node_pools" = true)
  /\ (is_set body "initial_node_count" = true ->
      In (Warn "The body field 'initial_node_count' is deprecated. Use 'node_pool.initial_node_count' instead.") tr')
  /\ (is_set body "node_config" = true ->
      In (Warn "The body field 'node_config' is deprecated. Use 'node_pool.config' instead.") tr').
Proof.
  unfold GKECreateClusterOperator.__init__.
  destruct (super_init kwargs) as [e | b]; [discriminate |].
  rewrite validate_input_trace.
  pose proof (error_messages_nil
                (GKECreateClusterOperator.mk b project_id gcp_conn_id location
                   api_version body impersonation_chain poll_interval deferrable None))
    as Hnil.
  cbn [GKECreateClusterOperator.body] in Hnil |- *.
  destruct (GKECreateClusterOperator.error_messages _) as [| m l]; [| discriminate].
  destruct Hnil as [Hnil _]. destruct (Hnil eq_refl) as [Hname Hx]. clear Hnil.
  intros [= <- <-]. rewrite app_nil_r.
  unfold GKECreateClusterOperator.deprecated_body_fields_with_replacement.
  cbn [List.filter map fst snd].
  assert (Hsame : forall l : list effect, (tr ++ l)%list = tr <-> l = []).
  { intros l. split; [| intros ->; apply app_nil_r].
    intros H. apply (app_inv_head tr). now rewrite app_nil_r. }
  destruct (is_set body "initial_node_count") eqn:Ei,
    (is_set body "node_config") eqn:Ec,
    (is_set body "zone") eqn:Ez,
    (is_set body "instance_group_urls") eqn:Eu,
    (is_set body "node_pools") eqn:Ep;
    cbn [List.filter map fst snd orb xorb] in Hx |- *;
    try discriminate Hx;
    (split; [rewrite Hsame; split; [intros H; discriminate H
                                   | intros (? & ? & ? & ?); discriminate]
            | split; [rewrite Hsame; intros H; discriminate H
                     | split; intros H; try discriminate H;
                       apply in_or_app; right; cbn; auto ]])
    || (split; [rewrite Hsame; split; [intros _; repeat split | reflexivity]
               | split; [reflexivity | split; intros H; discriminate H]]).
Qed.

Lemma create_init_warns_on_deprecated_fields_witness :
  exists self tr',
    GKECreateClusterOperator.__init__ accept_all (PStr "europe-west1") body_minimal
      (PStr "my-project") (PStr "google_cloud_default") (PStr "v2") PNone
      (PInt 10) (PBool false) ∅ [] = (Return self, tr')
    /\ In (Warn "The body field 'initial_node_count' is deprecated. Use 'node_pool.initial_node_count' instead.") tr'.
Proof.
  eexists _, _. split; [reflexivity |].
  eapply (create_init_warns_on_deprecated_fields accept_all (PStr "europe-west1")
            body_minimal (PStr "my-project") (PStr "google_cloud_default") (PStr "v2")
            PNone (PInt 10) (PBool false) ∅ []); reflexivity.
Defined.

(** X3: a body whose name is missing or falsy is rejected whatever
    its node groups are, and the error log names the field. *)
Theorem create_init_requires_name
    {Base : Type} (super_init : gmap string pyval -> exn + Base)
    (location : pyval) (body : body_t)
    (project_id gcp_conn_id api_version impersonation_chain poll_interval
     deferrable : pyval)
    (kwargs : gmap string pyval) (tr : list effect) (b : Base) :
  super_init kwargs = inr b ->
  is_set body "name" = false ->
  exists tr',
    GKECreateClusterOperator.__init__ super_init location body project_id
      gcp_conn_id api_version impersonation_chain poll_interval deferrable
      kwargs tr
    = (Raise (AirflowException (PStr "Operator has incorrect or missing input.")), tr')
    /\ In (Log "error" (PStr "Field body['name'] is missing or incorrect")) tr'
    /\ calls tr' = calls tr.
Proof.
  intros Hsuper Hname. unfold GKECreateClusterOperator.__init__. rewrite Hsuper.
  pose proof (silent_validate_input
                (GKECreateClusterOperator.mk b project_id gcp_conn_id location
                   api_version body impersonation_chain poll_interval deferrable None)
                tr) as Hsilent.
  rewrite validate_input_trace in Hsilent |- *. cbn [snd] in Hsilent.
  assert (Hfirst : exists l,
             GKECreateClusterOperator.error_messages
               (GKECreateClusterOperator.mk b project_id gcp_conn_id location
                  api_version body impersonation_chain poll_interval deferrable None)
             = "Field body['name'] is missing or incorrect" :: l).
  { unfold GKECreateClusterOperator.error_messages.
    rewrite !body_field_is_set. cbn [GKECreateClusterOperator.body].
    rewrite Hname. cbn [negb app]. eauto. }
  destruct Hfirst as [l Hl]. rewrite Hl in Hsilent |- *.
  eexists. split; [reflexivity |].
  split; [| exact Hsilent].
  apply in_or_app. right. apply in_or_app. right. cbn. auto.
Qed.

Lemma create_init_requires_name_witness :
  exists tr',
    GKECreateClusterOperator.__init__ accept_all (PStr "europe-west1") body_nameless
      (PStr "my-project") (PStr "google_cloud_default") (PStr "v2") PNone
      (PInt 10) (PBool false) ∅ []
    = (Raise (AirflowException (PStr "Operator has incorrect or missing input.")), tr')
    /\ In (Log "error" (PStr "Field body['name'] is missing or incorrect")) tr'
    /\ calls tr' = calls [].
Proof.
  apply (create_init_requires_name accept_all (PStr "europe-west1") body_nameless
           (PStr "my-project") (PStr "google_cloud_default") (PStr "v2") PNone
           (PInt 10) (PBool false) ∅ [] tt); reflexivity.
Defined.

(** X4: [_validate_input] leaves the operator as it is and raises
    exactly when it has logged an error; it logs one entry per
    message of [error_messages], at most four, after the deprecation
    warnings. *)
Theorem validate_input_raises_iff_error_logged
    {Base : Type} (self : GKECreateClusterOperator.t (Base := Base))
    (tr : list effect) :
  let errors := GKECreateClusterOperator.error_messages self in
  exists (verdict : outcome unit) (warnings : list string),
    GKECreateClusterOperator._validate_input self tr =
      (verdict, self,
       (tr ++ map Warn warnings ++ map (fun m => Log "error" (PStr m)) errors)%list)
    /\ length errors <= 4
    /\ (errors = [] -> verdict = Return tt)
    /\ (errors <> [] ->
        verdict = Raise (AirflowException (PStr "Operator has incorrect or missing input."))).
Proof.
  intros errors. subst errors. rewrite validate_input_trace.
  eexists _, (map _ _).
  rewrite map_map. split; [reflexivity |]. split; [| split].
  - unfold GKECreateClusterOperator.error_messages, py_any. cbn [existsb].
    rewrite !body_field_is_set.
    destruct (is_set (GKECreateClusterOperator.body self) "name"),
      (is_set (GKECreateClusterOperator.body self) "node_config"),
      (is_set (GKECreateClusterOperator.body self) "initial_node_count"),
      (is_set (GKECreateClusterOperator.body self) "node_pools"); cbn; lia.
  - now intros ->.
  - intros Hne. destruct (GKECreateClusterOperator.error_messages self);
      [contradiction | reflexivity].
Qed.

Lemma validate_input_raises_iff_error_logged_witness :
  (GKECreateClusterOperator._validate_input (sample_create false) []).1.1 = Return tt
  /\ (GKECreateClusterOperator._validate_input
        (GKECreateClusterOperator.mk tt (PStr "my-project") (PStr "google_cloud_default")
           (PStr "europe-west1") (PStr "v2") body_both PNone (PInt 10) (PBool false) None)
        []).1.1
     = Raise (AirflowException (PStr "Operator has incorrect or missing input.")).
Proof.
  split.
  - destruct (validate_input_raises_iff_error_logged (sample_create false) [])
      as (verdict & warnings & Hrun & _ & Hok & _).
    rewrite Hrun. exact (Hok eq_refl).
  - destruct (validate_input_raises_iff_error_logged
                (GKECreateClusterOperator.mk tt (PStr "my-project")
                   (PStr "google_cloud_default") (PStr "europe-west1") (PStr "v2")
                   body_both PNone (PInt 10) (PBool false) None) [])
      as (verdict & warnings & Hrun & _ & _ & Hbad).
    rewrite Hrun. apply Hbad. discriminate.
Defined.

(** ** Cluster creation: what [execute] sends and raises *)

(** X5: every effect of [GKECreateClusterOperator.execute].  The
    submission comes first.  If it is answered with an operation, the
    link is persisted (and nothing else happens before the return or
    the deferral).  If it raises [AlreadyExists], an info entry is
    logged and the cluster is fetched once, unless a dict body has no
    "name" key.  If it raises anything else, nothing follows.  No
    other request is ever sent. *)
Theorem create_execute_effects
    {Base : Type} (cp : ControlPlane)
    (self : GKECreateClusterOperator.t (Base := Base)) (tr : list effect) :
  let h := default (GKEHookArgs.mk (GKECreateClusterOperator.gcp_conn_id self)
                      (GKECreateClusterOperator.location self)
                      (GKECreateClusterOperator.impersonation_chain self))
             (GKECreateClusterOperator._hook self) in
  let body := GKECreateClusterOperator.body self in
  let project_id := GKECreateClusterOperator.project_id self in
  let wait := negb (truthy (GKECreateClusterOperator.deferrable self)) in
  let submit := Call (CreateCluster h body project_id wait) in
  (GKECreateClusterOperator.execute cp self tr).2 =
    (tr ++ submit ::
     match create_cluster_answer cp tr h body project_id wait with
     | inr _ => [PersistLink body]
     | inl (AlreadyExists message) =>
         Log "info" (PStr ("Assuming Success: " ++ message)) ::
         match body with
         | BodyCluster c => [Call (GetCluster h (PStr (Cluster.name c)) project_id)]
         | BodyDict d =>
             match d !! "name" with
             | Some name => [Call (GetCluster h name project_id)]
             | None => []
             end
         end
     | inl (OtherError _ _) => []
     end)%list.
Proof.
  intros h body project_id wait submit. subst h body project_id wait submit.
  unfold GKECreateClusterOperator.execute. unfold bind at 1.
  rewrite create_get_hook.
  destruct self as [b pid conn loc api bd imp poll dfr hk].
  destruct hk as [h0 |]; run_method;
    match goal with
    | |- context [create_cluster_answer ?c ?t ?h ?b ?p ?w] =>
        destruct (create_cluster_answer c t h b p w) as [[m | cls m] | op]
    end; cbn;
    try destruct (truthy dfr); cbn;
    try (destruct bd as [dict | c]; cbn;
         try (unfold getitem; destruct (dict !! "name"); run_method);
         try match goal with
           | |- context [get_cluster_answer ?c ?t ?h ?n ?p] =>
               destruct (get_cluster_answer c t h n p)
           end; cbn);
    rewrite <- ?app_assoc; reflexivity.
Qed.

(** X6: an error of the submission other than [AlreadyExists] is
    raised as it is; the submission is then the only effect. *)
Theorem create_execute_other_error_propagates
    {Base : Type} (cp : ControlPlane)
    (self : GKECreateClusterOperator.t (Base := Base)) (tr : list effect)
    (cls message : string) :
  let h := default (GKEHookArgs.mk (GKECreateClusterOperator.gcp_conn_id self)
                      (GKECreateClusterOperator.location self)
                      (GKECreateClusterOperator.impersonation_chain self))
             (GKECreateClusterOperator._hook self) in
  let body := GKECreateClusterOperator.body self in
  let project_id := GKECreateClusterOperator.project_id self in
  let wait := negb (truthy (GKECreateClusterOperator.deferrable self)) in
  create_cluster_answer cp tr h body project_id wait = inl (OtherError cls message) ->
  exists self',
    GKECreateClusterOperator.execute cp self tr =
      (Raise (ApiError (OtherError cls message)), self',
       (tr ++ [Call (CreateCluster h body project_id wait)])%list).
Proof.
  intros h body project_id wait Hanswer. subst h body project_id wait.
  unfold GKECreateClusterOperator.execute. unfold bind at 1.
  rewrite create_get_hook.
  destruct self as [b pid conn loc api bd imp poll dfr hk].
  destruct hk as [h0 |]; cbn in Hanswer |- *; run_method; rewrite Hanswer; cbn; eauto.
Qed.

Lemma create_execute_other_error_propagates_witness :
  exists self',
    GKECreateClusterOperator.execute cp_unavailable (sample_create true) [] =
      (Raise (ApiError (OtherError "ServiceUnavailable" "503")), self',
       [Call (CreateCluster
                (GKEHookArgs.mk (PStr "google_cloud_default") (PStr "europe-west1") PNone)
                body_minimal (PStr "my-project") false)]).
Proof.
  exact (create_execute_other_error_propagates cp_unavailable (sample_create true) []
           "ServiceUnavailable" "503" eq_refl).
Defined.

(** X7: when the submission raises [AlreadyExists] and the body is a
    dict without a "name" key, [execute] raises [KeyError] for that
    key after the info entry, and fetches nothing. *)
Theorem create_execute_already_exists_without_name
    {Base : Type} (cp : ControlPlane)
    (self : GKECreateClusterOperator.t (Base := Base)) (tr : list effect)
    (d : gmap string pyval) (message : string) :
  let h := default (GKEHookArgs.mk (GKECreateClusterOperator.gcp_conn_id self)
                      (GKECreateClusterOperator.location self)
                      (GKECreateClusterOperator.impersonation_chain self))
             (GKECreateClusterOperator._hook self) in
  let project_id := GKECreateClusterOperator.project_id self in
  let wait := negb (truthy (GKECreateClusterOperator.deferrable self)) in
  GKECreateClusterOperator.body self = BodyDict d ->
  d !! "name" = None ->
  create_cluster_answer cp tr h (BodyDict d) project_id wait
    = inl (AlreadyExists message) ->
  exists self',
    GKECreateClusterOperator.execute cp self tr =
      (Raise (KeyError "name"), self',
       (tr ++ [Call (CreateCluster h (BodyDict d) project_id wait);
               Log "info" (PStr ("Assuming Success: " ++ message))])%list).
Proof.
  intros h project_id wait Hbody Hname Hanswer. subst h project_id wait.
  unfold GKECreateClusterOperator.execute. unfold bind at 1.
  rewrite create_get_hook.
  destruct self as [b pid conn loc api bd imp poll dfr hk].
  cbn in Hbody. subst bd.
  destruct hk as [h0 |]; cbn in Hanswer |- *; run_method; rewrite Hanswer; cbn;
    unfold getitem; rewrite Hname; run_method; rewrite <- app_assoc; eauto.
Qed.

Lemma create_execute_already_exists_without_name_witness :
  (GKECreateClusterOperator.execute cp_exists sample_create_keyless []).1.1
  = Raise (KeyError "name").
Proof.
  destruct (create_execute_already_exists_without_name cp_exists sample_create_keyless []
              (<["initial_node_count" := PInt 1]> ∅) "Already exists"
              eq_refl eq_refl eq_refl) as [self' Hrun].
  now rewrite Hrun.
Defined.

(** ** Resuming: incomplete events *)

(** [execute_complete] of the create operator, case by case. *)
Lemma create_execute_complete_run
    {Base : Type} (cp : ControlPlane)
    (self : GKECreateClusterOperator.t (Base := Base))
    (event : gmap string pyval) (tr : list effect) :
  let h := default (GKEHookArgs.mk (GKECreateClusterOperator.gcp_conn_id self)
                      (GKECreateClusterOperator.location self)
                      (GKECreateClusterOperator.impersonation_chain self))
             (GKECreateClusterOperator._hook self) in
  let self0 := match GKECreateClusterOperator._hook self with
               | None => GKECreateClusterOperator.set_hook h self
               | Some _ => self
               end in
  GKECreateClusterOperator.execute_complete cp event self tr =
    match event !! "status" with
    | None => (Raise (KeyError "status"), self, tr)
    | Some status =>
        match event !! "message" with
        | None => (Raise (KeyError "message"), self, tr)
        | Some message =>
            if str_in status ["failed"; "error"] then
              (Raise (AirflowException message), self,
               (tr ++ [Log "exception"
                         (PStr "Trigger ended with one of the failed statuses.")])%list)
            else
              match event !! "operation_name" with
              | None =>
                  (Raise (KeyError "operation_name"), self0,
                   (tr ++ [Log "info" message])%list)
              | Some operation_name =>
                  (match get_operation_answer cp (tr ++ [Log "info" message])%list h
                           operation_name with
                   | inr operation => Return (PStr (Operation.target_link operation))
                   | inl e => Raise (ApiError e)
                   end, self0,
                   (tr ++ [Log "info" message; Call (GetOperation h operation_name)])%list)
              end
        end
    end.
Proof.
  intros h self0. subst h self0.
  unfold GKECreateClusterOperator.execute_complete, getitem.
  destruct (event !! "status") as [status |]; [| reflexivity].
  destruct (event !! "message") as [message |]; [| reflexivity].
  unfold bind at 1. unfold ret at 1. unfold bind at 1. unfold ret at 1.
  destruct (str_in status ["failed"; "error"]); [reflexivity |].
  unfold bind at 1, emit at 1. unfold bind at 1. rewrite create_get_hook.
  destruct (GKECreateClusterOperator._hook self) as [h0 |];
    (destruct (event !! "operation_name") as [operation_name |];
     [| reflexivity]);
    run_method;
    match goal with
    | |- context [get_operation_answer ?c ?t ?h ?n] =>
        destruct (get_operation_answer c t h n)
    end; rewrite <- app_assoc; reflexivity.
Qed.

(** [execute_complete] of the delete operator, case by case. *)
Lemma delete_execute_complete_run
    {Base : Type} (cp : ControlPlane)
    (self : GKEDeleteClusterOperator.t (Base := Base))
    (event : gmap string pyval) (tr : list effect) :
  let h := default (GKEHookArgs.mk (GKEDeleteClusterOperator.gcp_conn_id self)
                      (GKEDeleteClusterOperator.location self)
                      (GKEDeleteClusterOperator.impersonation_chain self))
             (GKEDeleteClusterOperator._hook self) in
  let self0 := match GKEDeleteClusterOperator._hook self with
               | None => GKEDeleteClusterOperator.set_hook h self
               | Some _ => self
               end in
  GKEDeleteClusterOperator.execute_complete cp event self tr =
    match event !! "status" with
    | None => (Raise (KeyError "status"), self, tr)
    | Some status =>
        match event !! "message" with
        | None => (Raise (KeyError "message"), self, tr)
        | Some message =>
            if str_in status ["failed"; "error"] then
              (Raise (AirflowException message), self,
               (tr ++ [Log "exception"
                         (PStr "Trigger ended with one of the failed statuses.")])%list)
            else
              match event !! "operation_name" with
              | None =>
                  (Raise (KeyError "operation_name"), self0,
                   (tr ++ [Log "info" message])%list)
              | Some operation_name =>
                  (match get_operation_answer cp (tr ++ [Log "info" message])%list h
                           operation_name with
                   | inr operation => Return (PStr (Operation.self_link operation))
                   | inl e => Raise (ApiError e)
                   end, self0,
                   (tr ++ [Log "info" message; Call (GetOperation h operation_name)])%list)
              end
        end
    end.
Proof.
  intros h self0. subst h self0.
  unfold GKEDeleteClusterOperator.execute_complete, getitem.
  destruct (event !! "status") as [status |]; [| reflexivity].
  destruct (event !! "message") as [message |]; [| reflexivity].
  unfold bind at 1. unfold ret at 1. unfold bind at 1. unfold ret at 1.
  destruct (str_in status ["failed"; "error"]); [reflexivity |].
  unfold bind at 1, emit at 1. unfold bind at 1. rewrite delete_get_hook.
  destruct (GKEDeleteClusterOperator._hook self) as [h0 |];
    (destruct (event !! "operation_name") as [operation_name |];
     [| reflexivity]);
    run_method;
    match goal with
    | |- context [get_operation_answer ?c ?t ?h ?n] =>
        destruct (get_operation_answer c t h n)
    end; rewrite <- app_assoc; reflexivity.
Qed.


(** X8: how [execute_complete] of the create and delete operators
    treats an event that misses a key.  Without "status" it raises
    [KeyError] for it; with a status but without "message" it raises
    [KeyError] for the message, also when the status is a failure;
    in both cases nothing else happens.  With a status other than
    "failed" and "error", a message, but no "operation_name", it
    logs the message, raises [KeyError] for the operation name and
    sends no request. *)
Theorem execute_complete_missing_keys
    {Base : Type} (cp : ControlPlane)
    (creator : GKECreateClusterOperator.t (Base := Base))
    (deleter : GKEDeleteClusterOperator.t (Base := Base))
    (event : gmap string pyval) (tr : list effect) :
  let created := GKECreateClusterOperator.execute_complete cp event creator tr in
  let deleted := GKEDeleteClusterOperator.execute_complete cp event deleter tr in
  (event !! "status" = None ->
   created = (Raise (KeyError "status"), creator, tr)
   /\ deleted = (Raise (KeyError "status"), deleter, tr))
  /\
  (is_Some (event !! "status") -> event !! "message" = None ->
   created = (Raise (KeyError "message"), creator, tr)
   /\ deleted = (Raise (KeyError "message"), deleter, tr))
  /\
  (forall status message,
     event !! "status" = Some status -> event !! "message" = Some message ->
     str_in status ["failed"; "error"] = false ->
     event !! "operation_name" = None ->
     created.1.1 = Raise (KeyError "operation_name")
     /\ created.2 = (tr ++ [Log "info" message])%list
     /\ deleted.1.1 = Raise (KeyError "operation_name")
     /\ deleted.2 = (tr ++ [Log "info" message])%list).
Proof.
  intros created deleted. subst created deleted.
  rewrite create_execute_complete_run, delete_execute_complete_run. cbv zeta.
  split; [| split].
  - intros ->. now split.
  - intros [status ->] ->. now split.
  - intros status message -> -> -> ->. now repeat split.
Qed.

Lemma execute_complete_missing_keys_witness :
  GKECreateClusterOperator.execute_complete cp_ok event_without_status
    (sample_create true) [] = (Raise (KeyError "status"), sample_create true, [])
  /\ GKEDeleteClusterOperator.execute_complete cp_ok event_without_message
       (sample_delete true) [] = (Raise (KeyError "message"), sample_delete true, [])
  /\ (GKECreateClusterOperator.execute_complete cp_ok event_without_operation_name
        (sample_create true) []).1.1 = Raise (KeyError "operation_name").
Proof.
  split; [| split].
  - apply (execute_complete_missing_keys cp_ok (sample_create true) (sample_delete true)
             event_without_status []). reflexivity.
  - apply (execute_complete_missing_keys cp_ok (sample_create true) (sample_delete true)
             event_without_message []); [eexists |]; reflexivity.
  - eapply (execute_complete_missing_keys cp_ok (sample_create true) (sample_delete true)
              event_without_operation_name []); reflexivity.
Defined.

(** X9: whatever the event, [execute_complete] of the create and
    delete operators sends at most one request, and that is the
    [get_operation] for the event's operation name. *)
Theorem execute_complete_sends_at_most_one_request
    {Base : Type} (cp : ControlPlane)
    (creator : GKECreateClusterOperator.t (Base := Base))
    (deleter : GKEDeleteClusterOperator.t (Base := Base))
    (event : gmap string pyval) (tr : list effect) :
  let ch := default (GKEHookArgs.mk (GKECreateClusterOperator.gcp_conn_id creator)
                       (GKECreateClusterOperator.location creator)
                       (GKECreateClusterOperator.impersonation_chain creator))
              (GKECreateClusterOperator._hook creator) in
  let dh := default (GKEHookArgs.mk (GKEDeleteClusterOperator.gcp_conn_id deleter)
                       (GKEDeleteClusterOperator.location deleter)
                       (GKEDeleteClusterOperator.impersonation_chain deleter))
              (GKEDeleteClusterOperator._hook deleter) in
  let created := GKECreateClusterOperator.execute_complete cp event creator tr in
  let deleted := GKEDeleteClusterOperator.execute_complete cp event deleter tr in
  (calls created.2 = calls tr
   \/ exists operation_name,
        event !! "operation_name" = Some operation_name
        /\ calls created.2 = (calls tr ++ [GetOperation ch operation_name])%list)
  /\
  (calls deleted.2 = calls tr
   \/ exists operation_name,
        event !! "operation_name" = Some operation_name
        /\ calls deleted.2 = (calls tr ++ [GetOperation dh operation_name])%list).
Proof.
  intros ch dh created deleted. subst created deleted.
  rewrite create_execute_complete_run, delete_execute_complete_run. cbv zeta.
  fold ch dh.
  destruct (event !! "status") as [status |]; [| split; now left].
  destruct (event !! "message") as [message |]; [| split; now left].
  destruct (str_in status ["failed"; "error"]).
  { split; left; now apply calls_snoc_quiet. }
  destruct (event !! "operation_name") as [operation_name |].
  - split; right; exists operation_name; (split; [reflexivity |]);
      cbn [snd]; rewrite calls_app; reflexivity.
  - split; left; now apply calls_snoc_quiet.
Qed.

(** ** The hook of the create and delete operators *)

(** X10: [_get_hook] builds the hook once.  The first call builds it
    from [gcp_conn_id], [location] and [impersonation_chain] and
    stores it; every later call hands back the stored hook and
    changes nothing.  It has no other effect. *)
Theorem get_hook_builds_once
    {Base : Type}
    (creator : GKECreateClusterOperator.t (Base := Base))
    (deleter : GKEDeleteClusterOperator.t (Base := Base))
    (tr : list effect) :
  (exists h creator',
     GKECreateClusterOperator._get_hook creator tr = (Return h, creator', tr)
     /\ GKECreateClusterOperator._hook creator' = Some h
     /\ GKECreateClusterOperator._get_hook creator' tr = (Return h, creator', tr)
     /\ (GKECreateClusterOperator._hook creator = None ->
         h = GKEHookArgs.mk (GKECreateClusterOperator.gcp_conn_id creator)
               (GKECreateClusterOperator.location creator)
               (GKECreateClusterOperator.impersonation_chain creator))
     /\ (forall h0, GKECreateClusterOperator._hook creator = Some h0 ->
           h = h0 /\ creator' = creator))
  /\
  (exists h deleter',
     GKEDeleteClusterOperator._get_hook deleter tr = (Return h, deleter', tr)
     /\ GKEDeleteClusterOperator._hook deleter' = Some h
     /\ GKEDeleteClusterOperator._get_hook deleter' tr = (Return h, deleter', tr)
     /\ (GKEDeleteClusterOperator._hook deleter = None ->
         h = GKEHookArgs.mk (GKEDeleteClusterOperator.gcp_conn_id deleter)
               (GKEDeleteClusterOperator.location deleter)
               (GKEDeleteClusterOperator.impersonation_chain deleter))
     /\ (forall h0, GKEDeleteClusterOperator._hook deleter = Some h0 ->
           h = h0 /\ deleter' = deleter)).
Proof.
  split.
  - rewrite create_get_hook.
    destruct (GKECreateClusterOperator._hook creator) as [h0 |] eqn:Hhook.
    + exists h0, creator. rewrite create_get_hook, Hhook.
      repeat split; try reflexivity; try discriminate; congruence.
    + eexists _, _. split; [reflexivity |]. rewrite create_get_hook. cbn.
      repeat split; discriminate.
  - rewrite delete_get_hook.
    destruct (GKEDeleteClusterOperator._hook deleter) as [h0 |] eqn:Hhook.
    + exists h0, deleter. rewrite delete_get_hook, Hhook.
      repeat split; try reflexivity; try discriminate; congruence.
    + eexists _, _. split; [reflexivity |]. rewrite delete_get_hook. cbn.
      repeat split; discriminate.
Qed.

Lemma get_hook_builds_once_witness :
  exists creator',
    GKECreateClusterOperator._get_hook (sample_create true) [] =
      (Return (GKEHookArgs.mk (PStr "google_cloud_default") (PStr "europe-west1") PNone),
       creator', [])
    /\ GKECreateClusterOperator._get_hook creator' [] =
         (Return (GKEHookArgs.mk (PStr "google_cloud_default") (PStr "europe-west1") PNone),
          creator', []).
Proof.
  destruct (get_hook_builds_once (sample_create true) (sample_delete true) [])
    as [(h & creator' & Hfirst & _ & Hsecond & Hbuilt & _) _].
  specialize (Hbuilt eq_refl). cbn in Hbuilt. subst h.
  now exists creator'.
Defined.

(** X11: running [execute] or [execute_complete] changes nothing of a
    create or delete operator but the stored hook: the operator
    afterwards is the one before, or the one before with the hook
    built from its own connection attributes. *)
Theorem operators_change_only_the_hook
    {Base : Type} (cp : ControlPlane)
    (creator : GKECreateClusterOperator.t (Base := Base))
    (deleter : GKEDeleteClusterOperator.t (Base := Base))
    (event : gmap string pyval) (tr : list effect) :
  let built_for_create :=
    GKECreateClusterOperator.set_hook
      (GKEHookArgs.mk (GKECreateClusterOperator.gcp_conn_id creator)
         (GKECreateClusterOperator.location creator)
         (GKECreateClusterOperator.impersonation_chain creator)) creator in
  let built_for_delete :=
    GKEDeleteClusterOperator.set_hook
      (GKEHookArgs.mk (GKEDeleteClusterOperator.gcp_conn_id deleter)
         (GKEDeleteClusterOperator.location deleter)
         (GKEDeleteClusterOperator.impersonation_chain deleter)) deleter in
  let after_create (s : GKECreateClusterOperator.t) :=
    s = creator \/ s = built_for_create in
  let after_delete (s : GKEDeleteClusterOperator.t) :=
    s = deleter \/ s = built_for_delete in
  after_create (GKECreateClusterOperator.execute cp creator tr).1.2
  /\ after_create (GKECreateClusterOperator.execute_complete cp event creator tr).1.2
  /\ after_delete (GKEDeleteClusterOperator.execute cp deleter tr).1.2
  /\ after_delete (GKEDeleteClusterOperator.execute_complete cp event deleter tr).1.2.
Proof.
  intros built_for_create built_for_delete after_create after_delete.
  subst after_create after_delete built_for_create built_for_delete. cbv beta.
  repeat apply conj.
  - unfold GKECreateClusterOperator.execute. unfold bind at 1.
    rewrite create_get_hook.
    destruct creator as [b pid conn loc api bd imp poll dfr hk].
    destruct hk as [h0 |]; run_method;
      match goal with
      | |- context [create_cluster_answer ?c ?t ?h ?b ?p ?w] =>
          destruct (create_cluster_answer c t h b p w) as [[m | cls m] | op]
      end; cbn;
      try destruct (truthy dfr); cbn;
      try (destruct bd as [dict | c]; cbn;
           try (unfold getitem; destruct (dict !! "name"); run_method);
           try match goal with
             | |- context [get_cluster_answer ?c ?t ?h ?n ?p] =>
                 destruct (get_cluster_answer c t h n p)
             end; cbn);
      auto.
  - rewrite create_execute_complete_run. cbv zeta.
    destruct (event !! "status"); [| now left].
    destruct (event !! "message"); [| now left].
    destruct (str_in _ _); [now left |].
    destruct (GKECreateClusterOperator._hook creator);
      destruct (event !! "operation_name"); cbn; auto.
  - unfold GKEDeleteClusterOperator.execute. unfold bind at 1.
    rewrite delete_get_hook.
    destruct deleter as [b pid conn loc api nm imp dfr poll hk].
    destruct hk as [h0 |]; run_method;
      match goal with
      | |- context [delete_cluster_answer ?c ?t ?h ?n ?p ?w] =>
          destruct (delete_cluster_answer c t h n p w) as [e | [op |]]
      end; cbn; try destruct (truthy dfr); cbn; auto.
  - rewrite delete_execute_complete_run. cbv zeta.
    destruct (event !! "status"); [| now left].
    destruct (event !! "message"); [| now left].
    destruct (str_in _ _); [now left |].
    destruct (GKEDeleteClusterOperator._hook deleter);
      destruct (event !! "operation_name"); cbn; auto.
Qed.

(** ** The delete operator *)

(** X12: the result of [GKEDeleteClusterOperator.execute] in every
    case.  An error of the submission is raised as it is, in both
    modes.  When the control plane hands back no operation the
    result is None, in both modes.  Otherwise the operator defers
    when deferrable and returns the operation's [self_link] when
    not. *)
Theorem delete_execute_outcome
    {Base : Type} (cp : ControlPlane)
    (self : GKEDeleteClusterOperator.t (Base := Base)) (tr : list effect) :
  let h := default (GKEHookArgs.mk (GKEDeleteClusterOperator.gcp_conn_id self)
                      (GKEDeleteClusterOperator.location self)
                      (GKEDeleteClusterOperator.impersonation_chain self))
             (GKEDeleteClusterOperator._hook self) in
  let deferrable := truthy (GKEDeleteClusterOperator.deferrable self) in
  (GKEDeleteClusterOperator.execute cp self tr).1.1 =
    match delete_cluster_answer cp tr h (GKEDeleteClusterOperator.name self)
            (GKEDeleteClusterOperator.project_id self) (negb deferrable) with
    | inl e => Raise (ApiError e)
    | inr None => Return PNone
    | inr (Some operation) =>
        if deferrable then
          Raise (TaskDeferred
                   (mk_deferral
                      (OperationTrigger
                         (GKEOperationTrigger.mk (Operation.name operation)
                            (GKEDeleteClusterOperator.project_id self)
                            (GKEDeleteClusterOperator.location self)
                            (GKEDeleteClusterOperator.gcp_conn_id self)
                            (GKEDeleteClusterOperator.impersonation_chain self)
                            (GKEDeleteClusterOperator.poll_interval self)))
                      "execute_complete" None))
        else Return (PStr (Operation.self_link operation))
    end.
Proof.
  intros h deferrable. subst h deferrable.
  unfold GKEDeleteClusterOperator.execute. unfold bind at 1.
  rewrite delete_get_hook.
  destruct self as [b pid conn loc api nm imp dfr poll hk].
  destruct hk as [h0 |]; run_method;
    match goal with
    | |- context [delete_cluster_answer ?c ?t ?h ?n ?p ?w] =>
        destruct (delete_cluster_answer c t h n p w) as [e | [op |]]
    end; cbn; try destruct (truthy dfr); reflexivity.
Qed.

(** X13: [__init__] of the delete operator returns an operator
    exactly when the parent's constructor accepts the remaining
    keywords and [project_id], [name] and [location] are all truthy.
    The operator then holds the arguments as passed, with no hook
    yet, and the construction has had no effect at all, not even a
    log entry. *)
Theorem delete_init_succeeds_exactly
    {Base : Type} (super_init : gmap string pyval -> exn + Base)
    (name location project_id gcp_conn_id api_version impersonation_chain
     deferrable poll_interval : pyval)
    (kwargs : gmap string pyval) (tr : list effect) :
  let built :=
    GKEDeleteClusterOperator.__init__ super_init name location project_id
      gcp_conn_id api_version impersonation_chain deferrable poll_interval
      kwargs tr in
  ((exists self tr', built = (Return self, tr')) <->
   (exists b, super_init kwargs = inr b)
   /\ truthy project_id = true /\ truthy name = true /\ truthy location = true)
  /\
  (forall self tr', built = (Return self, tr') ->
   tr' = tr
   /\ exists b,
        super_init kwargs = inr b
        /\ self = GKEDeleteClusterOperator.mk b project_id gcp_conn_id location
                    api_version name impersonation_chain deferrable poll_interval
                    None).
Proof.
  intros built. subst built. unfold GKEDeleteClusterOperator.__init__.
  destruct (super_init kwargs) as [e | b].
  { split; [split |].
    - intros (self & tr' & H). discriminate.
    - intros [[b Hb] _]. discriminate.
    - intros self tr' H. discriminate. }
  unfold GKEDeleteClusterOperator._check_input, py_all. run_method.
  destruct (truthy project_id), (truthy name), (truthy location); cbn;
    (split; [split |]);
    try (intros (self & tr' & H); discriminate H);
    try (intros (_ & H1 & H2 & H3); discriminate);
    try (intros self tr' H; discriminate H).
  - intros _. split; [eauto |]. now repeat split.
  - intros _. eauto.
  - intros self tr' [= <- <-]. split; [reflexivity |]. eauto.
Qed.

Lemma delete_init_succeeds_exactly_witness :
  (exists self tr',
     GKEDeleteClusterOperator.__init__ accept_all (PStr "my-cluster-name")
       (PStr "europe-west1") (PStr "my-project") (PStr "google_cloud_default")
       (PStr "v2") PNone (PBool false) (PInt 10) ∅ [] = (Return self, tr'))
  /\ ~ (exists self tr',
          GKEDeleteClusterOperator.__init__ accept_all (PStr "my-cluster-name")
            (PStr "europe-west1") PNone (PStr "google_cloud_default")
            (PStr "v2") PNone (PBool false) (PInt 10) ∅ [] = (Return self, tr'))
  /\ GKEDeleteClusterOperator.__init__ accept_all (PStr "my-cluster-name")
       (PStr "europe-west1") (PStr "my-project") (PStr "google_cloud_default")
       (PStr "v2") PNone (PBool false) (PInt 10) ∅ []
     = (Return (sample_delete false), []).
Proof.
  destruct (delete_init_succeeds_exactly accept_all (PStr "my-cluster-name")
              (PStr "europe-west1") (PStr "my-project") (PStr "google_cloud_default")
              (PStr "v2") PNone (PBool false) (PInt 10) ∅ []) as [Hiff Hheld].
  assert (Hok : exists self tr',
             GKEDeleteClusterOperator.__init__ accept_all (PStr "my-cluster-name")
               (PStr "europe-west1") (PStr "my-project") (PStr "google_cloud_default")
               (PStr "v2") PNone (PBool false) (PInt 10) ∅ [] = (Return self, tr')).
  { apply Hiff. split; [exists tt; reflexivity |]. repeat split. }
  split; [exact Hok |]. split.
  - intros H.
    apply (proj1 (delete_init_succeeds_exactly accept_all (PStr "my-cluster-name")
                    (PStr "europe-west1") PNone (PStr "google_cloud_default")
                    (PStr "v2") PNone (PBool false) (PInt 10) ∅ [])) in H.
    destruct H as (_ & H & _). discriminate H.
  - destruct Hok as (self & tr' & Hrun).
    destruct (Hheld self tr' Hrun) as (-> & b & _ & ->).
    rewrite Hrun. now destruct b.
Defined.

(** ** Construction never reaches the control plane *)

(** X14: constructing a create, delete or pod operator sends no
    request, whether the construction succeeds or fails. *)
Theorem constructors_send_no_request :
  (forall (Base : Type) (super_init : gmap string pyval -> exn + Base)
          (location : pyval) (body : body_t)
          (project_id gcp_conn_id api_version impersonation_chain poll_interval
           deferrable : pyval)
          (kwargs : gmap string pyval) (tr : list effect),
     calls (GKECreateClusterOperator.__init__ super_init location body project_id
              gcp_conn_id api_version impersonation_chain poll_interval deferrable
              kwargs tr).2 = calls tr)
  /\
  (forall (Base : Type) (super_init : gmap string pyval -> exn + Base)
          (name location project_id gcp_conn_id api_version impersonation_chain
           deferrable poll_interval : pyval)
          (kwargs : gmap string pyval) (tr : list effect),
     calls (GKEDeleteClusterOperator.__init__ super_init name location project_id
              gcp_conn_id api_version impersonation_chain deferrable poll_interval
              kwargs tr).2 = calls tr)
  /\
  (forall (super_init : gmap string pyval -> exn + PodAttrs.t)
          (location cluster_name use_internal_ip project_id gcp_conn_id
           impersonation_chain regional on_finish_action is_delete_operator_pod : pyval)
          (kwargs : gmap string pyval) (tr : list effect),
     calls (GKEStartPodOperator.__init__ super_init location cluster_name
              use_internal_ip project_id gcp_conn_id impersonation_chain regional
              on_finish_action is_delete_operator_pod kwargs tr).2 = calls tr).
Proof.
  split; [| split].
  - intros. unfold GKECreateClusterOperator.__init__.
    destruct (super_init kwargs) as [e | b]; [reflexivity |].
    match goal with
    | |- context [GKECreateClusterOperator._validate_input ?s tr] =>
        pose proof (silent_validate_input s tr) as Hs;
        destruct (GKECreateClusterOperator._validate_input s tr) as [[[u | e] s'] t]
    end; exact Hs.
  - intros. unfold GKEDeleteClusterOperator.__init__.
    destruct (super_init _) as [e | b]; [reflexivity |].
    unfold GKEDeleteClusterOperator._check_input. run_method.
    destruct (negb _); cbn; [now apply calls_snoc_quiet | reflexivity].
  - intros. unfold GKEStartPodOperator.__init__.
    destruct (pod_init_keywords on_finish_action is_delete_operator_pod regional kwargs tr)
      as (tr' & Hcalls & ->).
    match goal with
    | |- context [match ?r with inl _ => _ | inr _ => _ end] => destruct r as [e | a]
    end; [exact Hcalls |].
    destruct (super_init _) as [e | attrs]; [exact Hcalls |].
    destruct (is_None gcp_conn_id); [exact Hcalls |].
    cbn. destruct (truthy _); exact Hcalls.
Qed.

(** ** The pod operator: construction *)

(** X15: a pod operator constructed with [gcp_conn_id=None] is
    rejected with [AirflowException].  When the conversion of
    [on_finish_action] does not raise and the parent's constructor
    accepts the keywords of this call, this is the error raised
    whatever else was given, a [config_file] included, and no
    request is sent. *)
Theorem start_pod_requires_gcp_conn_id
    (super_init : gmap string pyval -> exn + PodAttrs.t)
    (location cluster_name use_internal_ip project_id
     impersonation_chain regional on_finish_action is_delete_operator_pod : pyval)
    (kwargs : gmap string pyval) (tr : list effect)
    (action : OnFinishAction.t) (attrs : PodAttrs.t) :
  (if negb (is_None is_delete_operator_pod) then
     inr (if truthy is_delete_operator_pod
          then OnFinishAction.DELETE_POD else OnFinishAction.KEEP_POD)
   else if negb (is_None on_finish_action) then
     OnFinishAction.of_value on_finish_action
   else inr OnFinishAction.KEEP_POD) = inr action ->
  super_init (<["on_finish_action" := OnFinishAction.to_py action]> kwargs) = inr attrs ->
  exists tr',
    GKEStartPodOperator.__init__ super_init location cluster_name use_internal_ip
      project_id PNone impersonation_chain regional on_finish_action
      is_delete_operator_pod kwargs tr
    = (Raise (AirflowException
                (PStr "The gcp_conn_id parameter has become required. If you want to use Application Default Credentials (ADC) strategy for authorization, create an empty connection called `google_cloud_default`.")),
       tr')
    /\ calls tr' = calls tr.
Proof.
  intros Hresolved Hparent. unfold GKEStartPodOperator.__init__.
  destruct (pod_init_keywords on_finish_action is_delete_operator_pod regional kwargs tr)
    as (tr' & Hcalls & ->).
  exists tr'. split; [| exact Hcalls].
  rewrite Hresolved, Hparent. reflexivity.
Qed.

Lemma start_pod_requires_gcp_conn_id_witness :
  exists tr',
    GKEStartPodOperator.__init__ pod_parent_with_task_id (PStr "europe-west1")
      (PStr "my-cluster-name") (PBool false) (PStr "my-project") PNone PNone PNone
      (PStr "delete_pod") PNone
      (<["task_id" := PStr "pod"]>
         (<["config_file" := PStr "/path/to/kube/config"]> ∅)) []
    = (Raise (AirflowException
                (PStr "The gcp_conn_id parameter has become required. If you want to use Application Default Credentials (ADC) strategy for authorization, create an empty connection called `google_cloud_default`.")),
       tr')
    /\ calls tr' = calls [].
Proof.
  eapply (start_pod_requires_gcp_conn_id pod_parent_with_task_id (PStr "europe-west1")
            (PStr "my-cluster-name") (PBool false) (PStr "my-project") PNone PNone
            (PStr "delete_pod") PNone
            (<["task_id" := PStr "pod"]>
               (<["config_file" := PStr "/path/to/kube/config"]> ∅)) []
            OnFinishAction.DELETE_POD); reflexivity.
Defined.

(** X16: when [is_delete_operator_pod] is left out and the
    conversion of [on_finish_action] raises, the constructor raises
    that error at once: with no warning, not even the one about
    [regional], and whatever the parent's constructor would do. *)
Theorem start_pod_invalid_on_finish_action
    (super_init : gmap string pyval -> exn + PodAttrs.t)
    (location cluster_name use_internal_ip project_id gcp_conn_id
     impersonation_chain regional on_finish_action : pyval)
    (kwargs : gmap string pyval) (tr : list effect) (e : exn) :
  is_None on_finish_action = false ->
  OnFinishAction.of_value on_finish_action = inl e ->
  GKEStartPodOperator.__init__ super_init location cluster_name use_internal_ip
    project_id gcp_conn_id impersonation_chain regional on_finish_action PNone
    kwargs tr
  = (Raise e, tr).
Proof.
  intros Hgiven Hbad. unfold GKEStartPodOperator.__init__,
    GKEStartPodOperator.resolve_on_finish_action.
  cbn [is_None negb]. rewrite Hgiven, Hbad. reflexivity.
Qed.

Lemma start_pod_invalid_on_finish_action_witness :
  GKEStartPodOperator.__init__ pod_parent (PStr "europe-west1")
    (PStr "my-cluster-name") (PBool false) (PStr "my-project")
    (PStr "google_cloud_default") PNone (PBool true) (PStr "remove_pod") PNone ∅ []
  = (Raise (ValueError "not a valid OnFinishAction"), []).
Proof.
  exact (start_pod_invalid_on_finish_action pod_parent (PStr "europe-west1")
           (PStr "my-cluster-name") (PBool false) (PStr "my-project")
           (PStr "google_cloud_default") PNone (PBool true) (PStr "remove_pod") ∅ []
           (ValueError "not a valid OnFinishAction") eq_refl eq_refl).
Defined.

(** X17: the warnings of the pod operator's constructor.  Provided
    the conversion of [on_finish_action] does not raise, the
    constructor appends to the trace: the deprecation warning when
    [is_delete_operator_pod] is given, or else the warning about the
    coming default when [on_finish_action] is left out too; then the
    warning about [regional] when that is given; and nothing else.
    So it is quiet exactly when [on_finish_action] is the only one
    of the three given. *)
Theorem start_pod_constructor_warnings
    (super_init : gmap string pyval -> exn + PodAttrs.t)
    (location cluster_name use_internal_ip project_id gcp_conn_id
     impersonation_chain regional on_finish_action is_delete_operator_pod : pyval)
    (kwargs : gmap string pyval) (tr : list effect) :
  (is_None is_delete_operator_pod = true -> is_None on_finish_action = false ->
   exists action, OnFinishAction.of_value on_finish_action = inr action) ->
  (GKEStartPodOperator.__init__ super_init location cluster_name use_internal_ip
     project_id gcp_conn_id impersonation_chain regional on_finish_action
     is_delete_operator_pod kwargs tr).2
  = (tr
     ++ (if negb (is_None is_delete_operator_pod) then
           [Warn "`is_delete_operator_pod` parameter is deprecated, please use `on_finish_action`"]
         else if negb (is_None on_finish_action) then []
         else
           [Warn "You have not set parameter `on_finish_action` in class GKEStartPodOperator. Currently the default for this parameter is `keep_pod` but in a future release the default will be changed to `delete_pod`. To ensure pods are not deleted in the future you will need to set `on_finish_action=keep_pod` explicitly."])
     ++ (if negb (is_None regional) then
           [Warn "You have set parameter regional in class GKEStartPodOperator. In current implementation of the operator the parameter is not used and will be deleted in future."]
         else []))%list.
Proof.
  intros Hvalid. unfold GKEStartPodOperator.__init__,
    GKEStartPodOperator.resolve_on_finish_action.
  destruct (is_None is_delete_operator_pod) eqn:Ealias; cbn [negb].
  - destruct (is_None on_finish_action) eqn:Enew; cbn [negb].
    + destruct (is_None regional); run_method;
        destruct (super_init _) as [e | a]; cbn; rewrite <- ?app_assoc;
        rewrite ?app_nil_r; try reflexivity;
        destruct (is_None gcp_conn_id); cbn; try reflexivity;
        destruct (truthy _); reflexivity.
    + destruct (Hvalid eq_refl eq_refl) as [action ->].
      destruct (is_None regional); run_method;
        destruct (super_init _) as [e | a]; cbn; rewrite <- ?app_assoc;
        rewrite ?app_nil_r; try reflexivity;
        destruct (is_None gcp_conn_id); cbn; try reflexivity;
        destruct (truthy _); reflexivity.
  - destruct (is_None regional); run_method;
      destruct (super_init _) as [e | a]; cbn; rewrite <- ?app_assoc;
      rewrite ?app_nil_r; try reflexivity;
      destruct (is_None gcp_conn_id); cbn; try reflexivity;
      destruct (truthy _); reflexivity.
Qed.

Lemma start_pod_constructor_warnings_witness :
  (GKEStartPodOperator.__init__ pod_parent (PStr "europe-west1")
     (PStr "my-cluster-name") (PBool false) (PStr "my-project")
     (PStr "google_cloud_default") PNone PNone (PStr "delete_pod") PNone ∅ []).2 = [].
Proof.
  apply (start_pod_constructor_warnings pod_parent (PStr "europe-west1")
           (PStr "my-cluster-name") (PBool false) (PStr "my-project")
           (PStr "google_cloud_default") PNone PNone (PStr "delete_pod") PNone ∅ []).
  intros _ _. exists OnFinishAction.DELETE_POD. reflexivity.
Defined.

(** X18: an operator fresh from its constructor has no pod, no
    cluster URL, no CA certificate and no session: reading [hook]
    raises [AttributeError], and so does [invoke_defer_method]. *)
Theorem fresh_pod_operator_has_no_session
    (super_init : gmap string pyval -> exn + PodAttrs.t)
    (location cluster_name use_internal_ip project_id gcp_conn_id
     impersonation_chain regional on_finish_action is_delete_operator_pod : pyval)
    (kwargs : gmap string pyval) (tr tr' : list effect)
    (self : GKEStartPodOperator.t) :
  GKEStartPodOperator.__init__ super_init location cluster_name use_internal_ip
    project_id gcp_conn_id impersonation_chain regional on_finish_action
    is_delete_operator_pod kwargs tr = (Return self, tr') ->
  GKEStartPodOperator.pod self = None
  /\ GKEStartPodOperator._cluster_url self = PNone
  /\ GKEStartPodOperator._ssl_ca_cert self = PNone
  /\ (forall tr0,
        GKEStartPodOperator.hook self tr0 =
          (Raise (AttributeError "Cluster url and ssl_ca_cert should be defined before using self.hook method. Try to use self.get_kube_creds method"),
           self, tr0))
  /\ (forall utcnow tr0,
        GKEStartPodOperator.invoke_defer_method utcnow self tr0 =
          (Raise (AttributeError "'NoneType' object has no attribute 'metadata'"),
           self, tr0)).
Proof.
  unfold GKEStartPodOperator.__init__.
  destruct (bind _ _ kwargs tr) as [[[u | e] kw] t]; [| discriminate].
  destruct (super_init kw) as [e | a]; [discriminate |].
  destruct (is_None gcp_conn_id); [discriminate |].
  cbn. destruct (truthy (PodAttrs.config_file a)); [discriminate |].
  intros [= <- <-]. repeat split.
Qed.

Lemma fresh_pod_operator_has_no_session_witness :
  exists self,
    GKEStartPodOperator.__init__ pod_parent (PStr "europe-west1")
      (PStr "my-cluster-name") (PBool true) (PStr "my-project")
      (PStr "google_cloud_default") PNone PNone (PStr "keep_pod") PNone ∅ []
    = (Return self, [])
    /\ GKEStartPodOperator.hook self [] =
         (Raise (AttributeError "Cluster url and ssl_ca_cert should be defined before using self.hook method. Try to use self.get_kube_creds method"),
          self, []).
Proof.
  eexists. split; [reflexivity |].
  eapply (fresh_pod_operator_has_no_session pod_parent (PStr "europe-west1")
            (PStr "my-cluster-name") (PBool true) (PStr "my-project")
            (PStr "google_cloud_default") PNone PNone (PStr "keep_pod") PNone ∅ [] []).
  reflexivity.
Defined.

(** ** The pod operator: fetching and caching *)

(** X19: when [get_cluster] raises, [fetch_cluster_info] raises the
    same error and leaves the cluster URL, the CA certificate and
    the cached session as they were. *)
Theorem fetch_cluster_info_failure_keeps_connection_info
    (cp : ControlPlane) (self : GKEStartPodOperator.t) (tr : list effect)
    (e : api_error) :
  let h := default (GKEHookArgs.mk (GKEStartPodOperator.gcp_conn_id self)
                      (GKEStartPodOperator.location self)
                      (GKEStartPodOperator.impersonation_chain self))
             (GKEStartPodOperator.cluster_hook_cache self) in
  let ask := GetCluster h (GKEStartPodOperator.cluster_name self)
               (GKEStartPodOperator.project_id self) in
  get_cluster_answer cp tr h (GKEStartPodOperator.cluster_name self)
    (GKEStartPodOperator.project_id self) = inl e ->
  exists self',
    GKEStartPodOperator.fetch_cluster_info cp self tr =
      (Raise (ApiError e), self', (tr ++ [Call ask])%list)
    /\ GKEStartPodOperator._cluster_url self' = GKEStartPodOperator._cluster_url self
    /\ GKEStartPodOperator._ssl_ca_cert self' = GKEStartPodOperator._ssl_ca_cert self
    /\ GKEStartPodOperator.hook_cache self' = GKEStartPodOperator.hook_cache self.
Proof.
  intros h ask Hanswer.
  pose proof (fetch_cluster_info_run cp self tr) as Hrun. cbv zeta in Hrun.
  fold h in Hrun. rewrite Hanswer in Hrun. fold ask in Hrun.
  eexists. split; [exact Hrun |].
  now destruct (GKEStartPodOperator.cluster_hook_cache self).
Qed.

Lemma fetch_cluster_info_failure_keeps_connection_info_witness :
  exists self',
    GKEStartPodOperator.fetch_cluster_info cp_unavailable sample_pod_operator_running [] =
      (Raise (ApiError (OtherError "ServiceUnavailable" "503")), self',
       [Call (GetCluster
                (GKEHookArgs.mk (PStr "google_cloud_default") (PStr "europe-west1") PNone)
                (PStr "my-cluster-name") (PStr "my-project"))])
    /\ GKEStartPodOperator._cluster_url self' = PStr "https://10.0.0.2".
Proof.
  destruct (fetch_cluster_info_failure_keeps_connection_info cp_unavailable
              sample_pod_operator_running [] (OtherError "ServiceUnavailable" "503")
              eq_refl) as (self' & Hrun & Hurl & _).
  exists self'. split; [exact Hrun | exact Hurl].
Defined.

(** After a fetch the hook of the cluster is cached, and the
    attributes the next fetch reads are unchanged. *)
Lemma fetch_cluster_info_then
    (cp : ControlPlane) (self : GKEStartPodOperator.t) (tr : list effect)
    (cluster : Cluster.t) :
  let h := default (GKEHookArgs.mk (GKEStartPodOperator.gcp_conn_id self)
                      (GKEStartPodOperator.location self)
                      (GKEStartPodOperator.impersonation_chain self))
             (GKEStartPodOperator.cluster_hook_cache self) in
  let ask := Call (GetCluster h (GKEStartPodOperator.cluster_name self)
                     (GKEStartPodOperator.project_id self)) in
  get_cluster_answer cp tr h (GKEStartPodOperator.cluster_name self)
    (GKEStartPodOperator.project_id self) = inr cluster ->
  exists self',
    GKEStartPodOperator.fetch_cluster_info cp self tr =
      (Return (PStr ("https://" ++
                     if truthy (GKEStartPodOperator.use_internal_ip self)
                     then Cluster.private_endpoint cluster
                     else Cluster.endpoint cluster),
               PStr (Cluster.cluster_ca_certificate cluster)),
       self', (tr ++ [ask])%list)
    /\ GKEStartPodOperator.cluster_hook_cache self' = Some h
    /\ GKEStartPodOperator.hook_cache self' = GKEStartPodOperator.hook_cache self
    /\ GKEStartPodOperator.gcp_conn_id self' = GKEStartPodOperator.gcp_conn_id self
    /\ GKEStartPodOperator.impersonation_chain self'
       = GKEStartPodOperator.impersonation_chain self
    /\ GKEStartPodOperator.cluster_name self' = GKEStartPodOperator.cluster_name self
    /\ GKEStartPodOperator.project_id self' = GKEStartPodOperator.project_id self
    /\ GKEStartPodOperator.use_internal_ip self'
       = GKEStartPodOperator.use_internal_ip self
    /\ GKEStartPodOperator._cluster_url self'
       = PStr ("https://" ++
               if truthy (GKEStartPodOperator.use_internal_ip self)
               then Cluster.private_endpoint cluster
               else Cluster.endpoint cluster)
    /\ GKEStartPodOperator._ssl_ca_cert self'
       = PStr (Cluster.cluster_ca_certificate cluster).
Proof.
  intros h ask Hanswer.
  pose proof (fetch_cluster_info_run cp self tr) as Hrun. cbv zeta in Hrun.
  fold h in Hrun. rewrite Hanswer in Hrun. fold ask in Hrun.
  eexists. split; [exact Hrun |].
  subst h. destruct (GKEStartPodOperator.cluster_hook_cache self) eqn:Ecache;
    cbn; rewrite ?Ecache; now repeat split.
Qed.

(** X20: each [fetch_cluster_info] asks the control plane again,
    through the same hook, and stores what the latest answer says:
    of two fetches in a row, the second decides the cluster URL and
    the CA certificate. *)
Theorem fetch_cluster_info_twice
    (cp : ControlPlane) (self : GKEStartPodOperator.t) (tr : list effect)
    (first second : Cluster.t) :
  let h := default (GKEHookArgs.mk (GKEStartPodOperator.gcp_conn_id self)
                      (GKEStartPodOperator.location self)
                      (GKEStartPodOperator.impersonation_chain self))
             (GKEStartPodOperator.cluster_hook_cache self) in
  let name := GKEStartPodOperator.cluster_name self in
  let project_id := GKEStartPodOperator.project_id self in
  let ask := Call (GetCluster h name project_id) in
  let url := PStr ("https://" ++
                   if truthy (GKEStartPodOperator.use_internal_ip self)
                   then Cluster.private_endpoint second
                   else Cluster.endpoint second) in
  let cert := PStr (Cluster.cluster_ca_certificate second) in
  get_cluster_answer cp tr h name project_id = inr first ->
  get_cluster_answer cp (tr ++ [ask])%list h name project_id = inr second ->
  exists self',
    (GKEStartPodOperator.fetch_cluster_info cp ;;
     GKEStartPodOperator.fetch_cluster_info cp) self tr =
      (Return (url, cert), self', (tr ++ [ask; ask])%list)
    /\ GKEStartPodOperator._cluster_url self' = url
    /\ GKEStartPodOperator._ssl_ca_cert self' = cert.
Proof.
  intros h name project_id ask url cert Hfirst Hsecond.
  subst ask url cert name project_id h.
  destruct (fetch_cluster_info_then cp self tr first Hfirst)
    as (s1 & Hrun1 & Hc1 & _ & Hg1 & Hi1 & Hn1 & Hp1 & Hu1 & _).
  unfold bind. rewrite Hrun1.
  edestruct (fetch_cluster_info_then cp s1) as
    (s2 & Hrun2 & _ & _ & _ & _ & _ & _ & _ & Hurl & Hcert).
  { rewrite Hc1, Hn1, Hp1. exact Hsecond. }
  rewrite Hc1, Hn1, Hp1, Hu1 in Hrun2. cbn [default from_option id] in Hrun2.
  rewrite Hu1 in Hurl.
  exists s2. rewrite Hrun2, <- app_assoc. now repeat split.
Qed.

Lemma fetch_cluster_info_twice_witness :
  ((GKEStartPodOperator.fetch_cluster_info cp_moving ;;
    GKEStartPodOperator.fetch_cluster_info cp_moving) (sample_pod_operator true) []).1.1
  = Return (PStr "https://10.0.0.9", PStr "TU9WRUQ=").
Proof.
  destruct (fetch_cluster_info_twice cp_moving (sample_pod_operator true) []
              sample_cluster moved_cluster eq_refl eq_refl) as (self' & Hrun & _).
  now rewrite Hrun.
Defined.

(** X21: on an operator without a cached session, a successful
    [fetch_cluster_info] followed by a read of [hook] yields the
    session to the selected endpoint, with the fetched CA
    certificate and the operator's own [gcp_conn_id] and
    [impersonation_chain], at the cost of one request. *)
Theorem fetch_then_hook_builds_session
    (cp : ControlPlane) (self : GKEStartPodOperator.t) (tr : list effect)
    (cluster : Cluster.t) :
  let h := default (GKEHookArgs.mk (GKEStartPodOperator.gcp_conn_id self)
                      (GKEStartPodOperator.location self)
                      (GKEStartPodOperator.impersonation_chain self))
             (GKEStartPodOperator.cluster_hook_cache self) in
  let ask := Call (GetCluster h (GKEStartPodOperator.cluster_name self)
                     (GKEStartPodOperator.project_id self)) in
  GKEStartPodOperator.hook_cache self = None ->
  get_cluster_answer cp tr h (GKEStartPodOperator.cluster_name self)
    (GKEStartPodOperator.project_id self) = inr cluster ->
  exists self',
    (GKEStartPodOperator.fetch_cluster_info cp ;; GKEStartPodOperator.hook) self tr =
      (Return (GKEPodHook.mk (GKEStartPodOperator.gcp_conn_id self)
                 (PStr ("https://" ++
                        if truthy (GKEStartPodOperator.use_internal_ip self)
                        then Cluster.private_endpoint cluster
                        else Cluster.endpoint cluster))
                 (PStr (Cluster.cluster_ca_certificate cluster))
                 (GKEStartPodOperator.impersonation_chain self)),
       self', (tr ++ [ask])%list).
Proof.
  intros h ask Hcache Hanswer.
  destruct (fetch_cluster_info_then cp self tr cluster Hanswer)
    as (s1 & Hrun1 & _ & Hh1 & Hg1 & Hi1 & _ & _ & _ & Hurl & Hcert).
  fold h ask in Hrun1. unfold bind. rewrite Hrun1.
  rewrite (pod_hook_builds s1 (tr ++ [ask])).
  - rewrite Hg1, Hi1, Hurl, Hcert. eauto.
  - now rewrite Hh1.
  - split; [now rewrite Hurl | now rewrite Hcert].
Qed.

Lemma fetch_then_hook_builds_session_witness :
  ((GKEStartPodOperator.fetch_cluster_info cp_ok ;; GKEStartPodOperator.hook)
     (sample_pod_operator true) []).1.1
  = Return (GKEPodHook.mk (PStr "google_cloud_default") (PStr "https://10.0.0.2")
              (PStr "LS0tLS1CRUdJTg==") PNone).
Proof.
  destruct (fetch_then_hook_builds_session cp_ok (sample_pod_operator true) []
              sample_cluster eq_refl eq_refl) as (self' & Hrun).
  now rewrite Hrun.
Defined.

Lemma pod_hook_cached (self : GKEStartPodOperator.t) (tr : list effect)
    (h : GKEPodHook.t) :
  GKEStartPodOperator.hook_cache self = Some h ->
  GKEStartPodOperator.hook self tr = (Return h, self, tr).
Proof.
  intros Hcache. unfold GKEStartPodOperator.hook. run_method. now rewrite Hcache.
Qed.

(** X22: the session is built once per operator.  After [hook] has
    been read, a further [fetch_cluster_info] still updates the
    cluster URL and the CA certificate, but [hook] keeps handing
    back the session built from the first answer. *)
Theorem session_outlives_refetch
    (cp : ControlPlane) (self : GKEStartPodOperator.t) (tr : list effect)
    (first second : Cluster.t) :
  let h := default (GKEHookArgs.mk (GKEStartPodOperator.gcp_conn_id self)
                      (GKEStartPodOperator.location self)
                      (GKEStartPodOperator.impersonation_chain self))
             (GKEStartPodOperator.cluster_hook_cache self) in
  let name := GKEStartPodOperator.cluster_name self in
  let project_id := GKEStartPodOperator.project_id self in
  let ask := Call (GetCluster h name project_id) in
  let endpoint (c : Cluster.t) :=
    if truthy (GKEStartPodOperator.use_internal_ip self)
    then Cluster.private_endpoint c else Cluster.endpoint c in
  let session :=
    GKEPodHook.mk (GKEStartPodOperator.gcp_conn_id self)
      (PStr ("https://" ++ endpoint first))
      (PStr (Cluster.cluster_ca_certificate first))
      (GKEStartPodOperator.impersonation_chain self) in
  GKEStartPodOperator.hook_cache self = None ->
  get_cluster_answer cp tr h name project_id = inr first ->
  get_cluster_answer cp (tr ++ [ask])%list h name project_id = inr second ->
  exists self',
    (GKEStartPodOperator.fetch_cluster_info cp ;;
     before <- GKEStartPodOperator.hook ;;
     GKEStartPodOperator.fetch_cluster_info cp ;;
     after <- GKEStartPodOperator.hook ;;
     ret (before, after)) self tr =
      (Return (session, session), self', (tr ++ [ask; ask])%list)
    /\ GKEStartPodOperator._cluster_url self' = PStr ("https://" ++ endpoint second)
    /\ GKEStartPodOperator._ssl_ca_cert self'
       = PStr (Cluster.cluster_ca_certificate second).
Proof.
  intros h name project_id ask endpoint session Hcache Hfirst Hsecond.
  subst session endpoint ask name project_id h.
  destruct (fetch_cluster_info_then cp self tr first Hfirst)
    as (s1 & Hrun1 & Hc1 & Hh1 & Hg1 & Hi1 & Hn1 & Hp1 & Hu1 & Hurl1 & Hcert1).
  unfold bind at 1. rewrite Hrun1.
  unfold bind at 1. rewrite (pod_hook_builds s1).
  2:{ now rewrite Hh1. }
  2:{ split; [now rewrite Hurl1 | now rewrite Hcert1]. }
  cbv zeta. rewrite Hg1, Hi1, Hurl1, Hcert1.
  match goal with
  | |- context [GKEStartPodOperator.set_hook_cache ?hk s1] =>
      set (session := hk);
      set (s1' := GKEStartPodOperator.set_hook_cache session s1)
  end.
  edestruct (fetch_cluster_info_then cp s1') as
    (s2 & Hrun2 & _ & Hh2 & _ & _ & _ & _ & _ & Hurl & Hcert).
  { subst s1'. cbn. rewrite Hc1, Hn1, Hp1. exact Hsecond. }
  assert (Hu : GKEStartPodOperator.use_internal_ip s1'
               = GKEStartPodOperator.use_internal_ip self) by exact Hu1.
  assert (Hn : GKEStartPodOperator.cluster_name s1'
               = GKEStartPodOperator.cluster_name self) by exact Hn1.
  assert (Hp : GKEStartPodOperator.project_id s1'
               = GKEStartPodOperator.project_id self) by exact Hp1.
  assert (Hc : GKEStartPodOperator.cluster_hook_cache s1'
               = GKEStartPodOperator.cluster_hook_cache s1) by reflexivity.
  rewrite Hc, Hc1, Hn, Hp, Hu in Hrun2. cbn [default from_option id] in Hrun2.
  rewrite Hu in Hurl.
  unfold bind at 1. rewrite Hrun2.
  unfold bind at 1. rewrite (pod_hook_cached s2 _ session) by exact Hh2.
  exists s2. unfold ret. rewrite <- app_assoc. now repeat split.
Qed.

Lemma session_outlives_refetch_witness :
  ((GKEStartPodOperator.fetch_cluster_info cp_moving ;;
    before <- GKEStartPodOperator.hook ;;
    GKEStartPodOperator.fetch_cluster_info cp_moving ;;
    after <- GKEStartPodOperator.hook ;;
    ret (before, after)) (sample_pod_operator true) []).1.1
  = Return (GKEPodHook.mk (PStr "google_cloud_default") (PStr "https://10.0.0.2")
              (PStr "LS0tLS1CRUdJTg==") PNone,
            GKEPodHook.mk (PStr "google_cloud_default") (PStr "https://10.0.0.2")
              (PStr "LS0tLS1CRUdJTg==") PNone).
Proof.
  destruct (session_outlives_refetch cp_moving (sample_pod_operator true) []
              sample_cluster moved_cluster eq_refl eq_refl eq_refl)
    as (self' & Hrun & _).
  now rewrite Hrun.
Defined.

(** ** The pod operator: deferral and resume *)

(** X23: [invoke_defer_method] never returns and touches neither the
    operator nor the trace.  Without a pod it raises
    [AttributeError]; with a pod it raises the deferral to
    [execute_complete], whose trigger names that pod and carries the
    operator's [gcp_conn_id] and [impersonation_chain]. *)
Theorem invoke_defer_method_always_raises
    (utcnow : Z) (self : GKEStartPodOperator.t) (tr : list effect) :
  exists e,
    GKEStartPodOperator.invoke_defer_method utcnow self tr = (Raise e, self, tr)
    /\ (GKEStartPodOperator.pod self = None ->
        e = AttributeError "'NoneType' object has no attribute 'metadata'")
    /\ (forall p, GKEStartPodOperator.pod self = Some p ->
          exists t kwargs,
            e = TaskDeferred (mk_deferral (StartPodTrigger t) "execute_complete" kwargs)
            /\ GKEStartPodTrigger.pod_name t = V1Pod.name p
            /\ GKEStartPodTrigger.pod_namespace t = V1Pod.namespace p
            /\ GKEStartPodTrigger.trigger_start_time t = utcnow
            /\ GKEStartPodTrigger.gcp_conn_id t = GKEStartPodOperator.gcp_conn_id self
            /\ GKEStartPodTrigger.impersonation_chain t
               = GKEStartPodOperator.impersonation_chain self
            /\ GKEStartPodTrigger.on_finish_action t
               = PodAttrs.on_finish_action (GKEStartPodOperator.attrs self)).
Proof.
  unfold GKEStartPodOperator.invoke_defer_method. run_method.
  destruct (GKEStartPodOperator.pod self) as [p |].
  - eexists. split; [reflexivity |]. split; [discriminate |].
    intros p' [= <-]. eexists _, _. split; [reflexivity |]. now repeat split.
  - eexists. split; [reflexivity |]. split; [reflexivity |]. discriminate.
Qed.

Lemma invoke_defer_method_always_raises_witness :
  GKEStartPodOperator.invoke_defer_method 0 (sample_pod_operator true) [] =
    (Raise (AttributeError "'NoneType' object has no attribute 'metadata'"),
     sample_pod_operator true, [])
  /\ exists t kwargs,
       GKEStartPodOperator.invoke_defer_method 0 sample_pod_operator_running [] =
         (Raise (TaskDeferred (mk_deferral (StartPodTrigger t) "execute_complete" kwargs)),
          sample_pod_operator_running, [])
       /\ GKEStartPodTrigger.pod_name t = "pod-1".
Proof.
  destruct (invoke_defer_method_always_raises 0 (sample_pod_operator true) [])
    as (e & Hrun & Hnone & _).
  destruct (invoke_defer_method_always_raises 0 sample_pod_operator_running [])
    as (e' & Hrun' & _ & Hsome).
  split.
  - rewrite Hrun, (Hnone eq_refl). reflexivity.
  - destruct (Hsome (V1Pod.mk "pod-1" "default") eq_refl)
      as (t & kwargs & -> & Hname & _).
    exists t, kwargs. split; [exact Hrun' | exact Hname].
Defined.

(** X24: [execute_complete] of the pod operator on incomplete resume
    keywords.  Without "cluster_url" it raises [KeyError] for it and
    changes nothing, whether or not the certificate is there.  With
    "cluster_url" but without "ssl_ca_cert" it raises [KeyError] for
    the certificate after the cluster URL has been overwritten, the
    certificate staying as it was.  In neither case is the parent's
    [execute_complete] run. *)
Theorem pod_execute_complete_missing_keys
    (super_execute_complete :
       gmap string pyval -> gmap string pyval -> M GKEStartPodOperator.t pyval)
    (event kwargs : gmap string pyval) (self : GKEStartPodOperator.t)
    (tr : list effect) :
  (kwargs !! "cluster_url" = None ->
   GKEStartPodOperator.execute_complete super_execute_complete event kwargs self tr
   = (Raise (KeyError "cluster_url"), self, tr))
  /\
  (forall url,
     kwargs !! "cluster_url" = Some url -> kwargs !! "ssl_ca_cert" = None ->
     GKEStartPodOperator.execute_complete super_execute_complete event kwargs self tr
     = (Raise (KeyError "ssl_ca_cert"), GKEStartPodOperator.set_cluster_url url self, tr)
     /\ GKEStartPodOperator._ssl_ca_cert (GKEStartPodOperator.set_cluster_url url self)
        = GKEStartPodOperator._ssl_ca_cert self).
Proof.
  unfold GKEStartPodOperator.execute_complete, getitem. split.
  - intros ->. reflexivity.
  - intros url -> ->. split; reflexivity.
Qed.

Lemma pod_execute_complete_missing_keys_witness :
  GKEStartPodOperator.execute_complete (fun _ _ => ret PNone) ∅ ∅
    (sample_pod_operator true) []
  = (Raise (KeyError "cluster_url"), sample_pod_operator true, [])
  /\ GKEStartPodOperator.execute_complete (fun _ _ => ret PNone) ∅ kwargs_without_cert
       (sample_pod_operator true) []
     = (Raise (KeyError "ssl_ca_cert"),
        GKEStartPodOperator.set_cluster_url (PStr "https://10.0.0.2")
          (sample_pod_operator true), []).
Proof.
  destruct (pod_execute_complete_missing_keys (fun _ _ => ret PNone) ∅ ∅
              (sample_pod_operator true) []) as [Hurl _].
  destruct (pod_execute_complete_missing_keys (fun _ _ => ret PNone) ∅
              kwargs_without_cert (sample_pod_operator true) []) as [_ Hcert].
  split; [exact (Hurl eq_refl) |].
  exact (proj1 (Hcert (PStr "https://10.0.0.2") eq_refl eq_refl)).
Defined.

(** X25: the round trip over a deferral.  Take an operator that
    defers: it has a pod and complete connection info, and the
    session it holds, if it has read [hook] already, is the one
    built from its present cluster URL and CA certificate.  Take
    another operator with the same [gcp_conn_id] and
    [impersonation_chain] that holds no session: the one that
    resumes.  Given the keywords the first one deferred with, the
    session the second one reads when it enters the parent's
    [execute_complete] is the very session the first one reads.
    The condition on the first operator holds after
    [fetch_cluster_info] followed by a first read of [hook]; it is
    needed, as a session cached before a later fetch is not the one
    the resumed operator builds. *)
Theorem session_survives_deferral :
  (forall (utcnow : Z) (self resumed : GKEStartPodOperator.t) (p : V1Pod.t)
          (tr tr0 : list effect)
          (super_execute_complete :
             gmap string pyval -> gmap string pyval -> M GKEStartPodOperator.t pyval)
          (event : gmap string pyval),
     GKEStartPodOperator.pod self = Some p ->
     connection_info_complete self ->
     (forall h, GKEStartPodOperator.hook_cache self = Some h ->
        h = GKEPodHook.mk (GKEStartPodOperator.gcp_conn_id self)
              (GKEStartPodOperator._cluster_url self)
              (GKEStartPodOperator._ssl_ca_cert self)
              (GKEStartPodOperator.impersonation_chain self)) ->
     GKEStartPodOperator.hook_cache resumed = None ->
     GKEStartPodOperator.gcp_conn_id resumed = GKEStartPodOperator.gcp_conn_id self ->
     GKEStartPodOperator.impersonation_chain resumed
       = GKEStartPodOperator.impersonation_chain self ->
     exists session t kwargs restored,
       (GKEStartPodOperator.hook self tr).1.1 = Return session
       /\ GKEStartPodOperator.invoke_defer_method utcnow self tr =
            (Raise (TaskDeferred
                      (mk_deferral (StartPodTrigger t) "execute_complete" (Some kwargs))),
             self, tr)
       /\ GKEStartPodOperator.execute_complete super_execute_complete event kwargs
            resumed tr0
          = super_execute_complete event kwargs restored tr0
       /\ (GKEStartPodOperator.hook restored tr0).1.1 = Return session)
  /\
  (forall (cp : ControlPlane) (self : GKEStartPodOperator.t) (tr : list effect)
          (cluster : Cluster.t),
     GKEStartPodOperator.hook_cache self = None ->
     get_cluster_answer cp tr
       (default (GKEHookArgs.mk (GKEStartPodOperator.gcp_conn_id self)
                   (GKEStartPodOperator.location self)
                   (GKEStartPodOperator.impersonation_chain self))
          (GKEStartPodOperator.cluster_hook_cache self))
       (GKEStartPodOperator.cluster_name self)
       (GKEStartPodOperator.project_id self) = inr cluster ->
     exists session self' tr',
       (GKEStartPodOperator.fetch_cluster_info cp ;; GKEStartPodOperator.hook) self tr
       = (Return session, self', tr')
       /\ connection_info_complete self'
       /\ GKEStartPodOperator.hook_cache self' = Some session
       /\ session = GKEPodHook.mk (GKEStartPodOperator.gcp_conn_id self')
                      (GKEStartPodOperator._cluster_url self')
                      (GKEStartPodOperator._ssl_ca_cert self')
                      (GKEStartPodOperator.impersonation_chain self')).
Proof.
  split.
  - intros utcnow self resumed p tr tr0 super_execute_complete event
      Hpod Hcomplete Hcurrent Hfresh Hconn Himp.
    exists (GKEPodHook.mk (GKEStartPodOperator.gcp_conn_id self)
              (GKEStartPodOperator._cluster_url self)
              (GKEStartPodOperator._ssl_ca_cert self)
              (GKEStartPodOperator.impersonation_chain self)).
    eexists _, _, _. split; [| split; [| split]].
    + destruct (GKEStartPodOperator.hook_cache self) as [h |] eqn:Hcache.
      * rewrite (pod_hook_cached self tr h Hcache). cbn. f_equal.
        now apply Hcurrent.
      * now rewrite (pod_hook_builds self tr Hcache Hcomplete).
    + unfold GKEStartPodOperator.invoke_defer_method. run_method. rewrite Hpod.
      reflexivity.
    + apply pod_execute_complete_restores; reflexivity.
    + rewrite pod_hook_builds; [| exact Hfresh | exact Hcomplete].
      cbn. now rewrite Hconn, Himp.
  - intros cp self tr cluster Hcache Hanswer.
    destruct (fetch_cluster_info_then cp self tr cluster Hanswer)
      as (s1 & Hrun1 & _ & Hh1 & _ & _ & _ & _ & _ & Hurl & Hcert).
    assert (Hcomplete : connection_info_complete s1)
      by (split; [now rewrite Hurl | now rewrite Hcert]).
    unfold bind. rewrite Hrun1.
    rewrite pod_hook_builds; [| now rewrite Hh1 | exact Hcomplete].
    eexists _, _, _. split; [reflexivity |]. split; [exact Hcomplete |].
    split; reflexivity.
Qed.

Lemma session_survives_deferral_witness :
  (exists session restored,
     (GKEStartPodOperator.hook sample_pod_operator_deferring []).1.1 = Return session
     /\ (GKEStartPodOperator.hook restored []).1.1 = Return session
     /\ GKEPodHook.cluster_url session = PStr "https://10.0.0.2")
  /\
  (exists session self' tr',
     (GKEStartPodOperator.fetch_cluster_info cp_ok ;; GKEStartPodOperator.hook)
       (sample_pod_operator true) [] = (Return session, self', tr')
     /\ GKEStartPodOperator.hook_cache self' = Some session).
Proof.
  destruct session_survives_deferral as [Hround Hpath].
  split.
  - assert (Hcomplete : connection_info_complete sample_pod_operator_deferring)
      by (split; reflexivity).
    assert (Hcurrent : forall h,
               GKEStartPodOperator.hook_cache sample_pod_operator_deferring = Some h ->
               h = GKEPodHook.mk
                     (GKEStartPodOperator.gcp_conn_id sample_pod_operator_deferring)
                     (GKEStartPodOperator._cluster_url sample_pod_operator_deferring)
                     (GKEStartPodOperator._ssl_ca_cert sample_pod_operator_deferring)
                     (GKEStartPodOperator.impersonation_chain
                        sample_pod_operator_deferring))
      by (intros h [= <-]; reflexivity).
    destruct (Hround 0%Z sample_pod_operator_deferring (sample_pod_operator true)
                (V1Pod.mk "pod-1" "default") [] [] (fun _ _ => ret PNone) ∅
                eq_refl Hcomplete Hcurrent eq_refl eq_refl eq_refl)
      as (session & t & kwargs & restored & Hbefore & _ & _ & Hafter).
    exists session, restored. split; [exact Hbefore |]. split; [exact Hafter |].
    cbn in Hbefore. injection Hbefore as <-. reflexivity.
  - destruct (Hpath cp_ok (sample_pod_operator true) [] sample_cluster eq_refl eq_refl)
      as (session & self' & tr' & Hrun & _ & Hcache & _).
    exists session, self', tr'. split; [exact Hrun | exact Hcache].
Defined.

(** ** The pod operator: template fields *)

(** X26: [template_fields] of the pod operator lists each name once,
    and the names it lists are "project_id", "location",
    "cluster_name" and the template fields of the parent: a name
    that the parent already lists is not repeated. *)
Theorem pod_template_fields (super_template_fields : list string) :
  NoDup (GKEStartPodOperator.template_fields super_template_fields)
  /\ (forall field,
        field ∈ GKEStartPodOperator.template_fields super_template_fields <->
        field = "project_id" \/ field = "location" \/ field = "cluster_name"
        \/ field ∈ super_template_fields).
Proof.
  unfold GKEStartPodOperator.template_fields. split.
  - apply NoDup_elements.
  - intros field.
    rewrite elem_of_elements, !elem_of_union, !elem_of_singleton, elem_of_list_to_set.
    tauto.
Qed.
